(** * DucksFinances: invoice engine and reporting aggregator

    A shallow embedding of the bookkeeping backend
    ([backend/app/models], [backend/app/services/invoice_service.py],
    [backend/app/routes/invoices.py], [backend/app/routes/reports.py]).

    Conventions of the embedding.
    - Python [Decimal] and [float] values are exact rationals ([Q]); the
      rounding of binary floating point and the 28-digit context of
      [Decimal] are outside the model.  An operation between a [Decimal]
      and a [float] or [None] raises [TypeError], as in Python.
    - The objects a service method returns, and the rows of [Db], carry the
      values the method assigned in memory.  What a [Numeric(p, 2)] column
      holds after the commit, and gives back when the object is read again,
      is the rounded value: [persisted].
    - The reports add Python [float] values; the model adds exact rationals
      in the same order.  What is stated of a report's amounts is stated of
      one sum of the store, or of the report's own additions in their own
      order.
    - A request body ([request.get_json()], [**data]) is a JSON object, an
      association list from keys to [json] values.
    - The SQLAlchemy session is explicit state passing over [Db]: a commit
      yields the new store, a rollback yields the store as it was at the
      last commit.  Column defaults are applied by the INSERT: until
      then an attribute that was not assigned is [None].  Integer primary
      keys are handed out in increasing order.
    - Library functions whose text is not part of the repository
      ([datetime.strptime], [Decimal(str)], [float(str)]) are the fields of
      the class [PyLib]. *)

From Stdlib Require Import List String Ascii ZArith NArith QArith Qround Lia Bool.
From Stdlib Require Import DecimalString DecimalN DecimalFacts.
From Stdlib Require Import Sorted Permutation.
Import ListNotations.

Local Open Scope string_scope.
Local Open Scope Z_scope.

(** ** Exceptions and results *)

Inductive exn : Type :=
| ValueError (msg : string)
| TypeError
| InvalidOperation
| IntegrityError
| Exception (msg : string).

Inductive result (A : Type) : Type :=
| Ok (a : A)
| Raise (e : exn).
Arguments Ok {A} a.
Arguments Raise {A} e.

Definition bind {A B} (r : result A) (k : A -> result B) : result B :=
  match r with
  | Ok a => k a
  | Raise e => Raise e
  end.

Declare Scope py_scope.
Delimit Scope py_scope with py.
Notation "x <- c1 ;; c2" := (bind c1 (fun x => c2))
  (at level 61, c1 at next level, right associativity) : py_scope.
Notation "' pat <- c1 ;; c2" := (bind c1 (fun x => match x with pat => c2 end))
  (at level 61, pat pattern, c1 at next level, right associativity) : py_scope.
Notation "'check' b 'else_raise' e ;; c" := (if b then c else Raise e)
  (at level 61, b at next level, e at next level, right associativity) : py_scope.
Local Open Scope py_scope.

(** [str(e)] for the exceptions the handlers re-raise.  Only the text of a
    [ValueError] is produced by the repository; the others are named. *)
Definition str_exn (e : exn) : string :=
  match e with
  | ValueError msg => msg
  | TypeError => "TypeError"
  | InvalidOperation => "InvalidOperation"
  | IntegrityError => "IntegrityError"
  | Exception msg => msg
  end.

(** ** JSON request bodies *)

#[warnings="-register-all"]
Inductive json : Type :=
| JNull
| JBool (b : bool)
| JNum (q : Q)
| JStr (s : string)
| JArr (l : list json)
| JObj (o : list (string * json)).

Definition dict := list (string * json).

Fixpoint get (k : string) (d : dict) : option json :=
  match d with
  | [] => None
  | (k', v) :: d' => if String.eqb k k' then Some v else get k d'
  end.

Definition has (k : string) (d : dict) : bool :=
  match get k d with Some _ => true | None => false end.

Definition keys (d : dict) : list string := map fst d.

Definition get_default (k : string) (dflt : json) (d : dict) : json :=
  match get k d with Some v => v | None => dflt end.

(** [d[k]] on an arbitrary value: only an object can be subscripted by a
    string. *)
Definition subscript (j : json) (k : string) : result json :=
  match j with
  | JObj o => match get k o with Some v => Ok v | None => Raise (Exception "KeyError") end
  | _ => Raise TypeError
  end.

Fixpoint is_prefix (p s : string) : bool :=
  match p, s with
  | EmptyString, _ => true
  | String a p', String b s' => Ascii.eqb a b && is_prefix p' s'
  | String _ _, EmptyString => false
  end.

Fixpoint is_substring (p s : string) : bool :=
  is_prefix p s ||
  match s with
  | EmptyString => false
  | String _ s' => is_substring p s'
  end.

Definition json_is_str (k : string) (j : json) : bool :=
  match j with JStr s => String.eqb k s | _ => false end.

(** [k in j] for a string [k]: key membership for an object, element
    membership for an array, substring test for a string. *)
Definition py_in (k : string) (j : json) : result bool :=
  match j with
  | JObj o => Ok (has k o)
  | JArr l => Ok (existsb (json_is_str k) l)
  | JStr s => Ok (is_substring k s)
  | _ => Raise TypeError
  end.

(** [all(k in j for k in ks)] *)
Fixpoint all_in (ks : list string) (j : json) : result bool :=
  match ks with
  | [] => Ok true
  | k :: ks' =>
      b <- py_in k j ;;
      if b then all_in ks' j else Ok false
  end.

(** Truthiness of a value ([if item_id and ...]). *)
Definition truthy (j : json) : bool :=
  match j with
  | JNull => false
  | JBool b => b
  | JNum q => negb (Qeq_bool q 0)
  | JStr s => negb (String.eqb s "")
  | JArr l => match l with [] => false | _ => true end
  | JObj o => match o with [] => false | _ => true end
  end.

(** ** Dates *)

Record date : Type := mkdate { year : Z; month : Z; day : Z }.

Definition date_ltb (a b : date) : bool :=
  (year a <? year b)
  || ((year a =? year b)
      && ((month a <? month b) || ((month a =? month b) && (day a <? day b)))).

Definition date_eqb (a b : date) : bool :=
  (year a =? year b) && (month a =? month b) && (day a =? day b).

Definition date_leb (a b : date) : bool := date_ltb a b || date_eqb a b.

(** ** The Python library, as far as the repository calls it *)

Class PyLib : Type := {
  (** [datetime.strptime(s, '%Y-%m-%d').date()]; [None] is its [ValueError] *)
  strptime : string -> option date;
  (** [Decimal(s)] on a string; [None] is [InvalidOperation] *)
  decimal_of_string : string -> option Q;
  (** [float(s)] on a string; [None] is its [ValueError] *)
  float_of_string : string -> option Q
}.

(** ** Decimal arithmetic *)

Definition Qlt_bool (x y : Q) : bool := negb (Qle_bool y x).

(** [sum(xs)]: left to right from [0]. *)
Definition sum (xs : list Q) : Q := fold_left Qplus xs 0%Q.

Section WithPyLib.
Context {py : PyLib}.

(** [datetime.strptime(j, '%Y-%m-%d').date()] on a request value. *)
Definition parse_date (field : string) (j : json) : result date :=
  match j with
  | JStr s =>
      match strptime s with
      | Some d => Ok d
      | None => Raise (ValueError ("time data does not match format '%Y-%m-%d'"))
      end
  | _ => Raise TypeError
  end.

(** [Decimal(str(j))] on a request value. *)
Definition Decimal_str (j : json) : result Q :=
  match j with
  | JNum q => Ok q
  | JStr s => match decimal_of_string s with Some q => Ok q | None => Raise InvalidOperation end
  | _ => Raise InvalidOperation
  end.

End WithPyLib.

(** ** Ledger entities ([backend/app/models]) *)

Inductive InvoiceStatus : Type :=
| DRAFT | SENT | VIEWED | PARTIALLY_PAID | PAID | OVERDUE | VOID | UNCOLLECTIBLE.

Definition InvoiceStatus_value (s : InvoiceStatus) : string :=
  match s with
  | DRAFT => "draft"
  | SENT => "sent"
  | VIEWED => "viewed"
  | PARTIALLY_PAID => "partially_paid"
  | PAID => "paid"
  | OVERDUE => "overdue"
  | VOID => "void"
  | UNCOLLECTIBLE => "uncollectible"
  end.

Definition all_statuses : list InvoiceStatus :=
  [DRAFT; SENT; VIEWED; PARTIALLY_PAID; PAID; OVERDUE; VOID; UNCOLLECTIBLE].

(** [InvoiceStatus(s)]: lookup by value, [ValueError] when there is none. *)
Definition InvoiceStatus_of_value (s : string) : option InvoiceStatus :=
  find (fun st => String.eqb (InvoiceStatus_value st) s) all_statuses.

Definition status_eqb (a b : InvoiceStatus) : bool :=
  String.eqb (InvoiceStatus_value a) (InvoiceStatus_value b).

Inductive TransactionType : Type := INCOME | EXPENSE | TRANSFER.

Definition TransactionType_value (t : TransactionType) : string :=
  match t with
  | INCOME => "income"
  | EXPENSE => "expense"
  | TRANSFER => "transfer"
  end.

Record InvoiceItem : Type := mkItem {
  item_id : option Z;
  description : json;
  quantity : Q;
  unit_price : Q;
  item_tax_rate : Q;
  amount : Q
}.

Record Invoice : Type := mkInvoice {
  id : Z;
  invoice_number : string;
  issue_date : date;
  due_date : date;
  status : InvoiceStatus;
  notes : json;
  terms : json;
  tax_rate : Q;
  subtotal : Q;
  tax_amount : Q;
  total : Q;
  amount_paid : Q;
  amount_due : Q;
  currency : json;
  user_id : Z;
  client_id : json;
  project_id : json;
  items : list InvoiceItem
}.

Record Transaction : Type := mkTransaction {
  txn_id : Z;
  txn_date : date;
  txn_amount : Q;
  txn_description : string;
  reference : option string;
  is_reconciled : bool;
  txn_type : TransactionType;
  category : string;
  txn_user_id : Z;
  txn_project_id : json;
  txn_invoice_id : option Z
}.

(** Attribute assignment on an [Invoice]. *)
Definition set_status (v : InvoiceStatus) (i : Invoice) : Invoice :=
  mkInvoice (id i) (invoice_number i) (issue_date i) (due_date i) v (notes i)
    (terms i) (tax_rate i) (subtotal i) (tax_amount i) (total i)
    (amount_paid i) (amount_due i) (currency i) (user_id i) (client_id i)
    (project_id i) (items i).

Definition set_amount_paid (v : Q) (i : Invoice) : Invoice :=
  mkInvoice (id i) (invoice_number i) (issue_date i) (due_date i) (status i)
    (notes i) (terms i) (tax_rate i) (subtotal i) (tax_amount i) (total i)
    v (amount_due i) (currency i) (user_id i) (client_id i)
    (project_id i) (items i).

Definition set_issue_date (v : date) (i : Invoice) : Invoice :=
  mkInvoice (id i) (invoice_number i) v (due_date i) (status i) (notes i)
    (terms i) (tax_rate i) (subtotal i) (tax_amount i) (total i)
    (amount_paid i) (amount_due i) (currency i) (user_id i) (client_id i)
    (project_id i) (items i).

Definition set_due_date (v : date) (i : Invoice) : Invoice :=
  mkInvoice (id i) (invoice_number i) (issue_date i) v (status i) (notes i)
    (terms i) (tax_rate i) (subtotal i) (tax_amount i) (total i)
    (amount_paid i) (amount_due i) (currency i) (user_id i) (client_id i)
    (project_id i) (items i).

Definition set_items (v : list InvoiceItem) (i : Invoice) : Invoice :=
  mkInvoice (id i) (invoice_number i) (issue_date i) (due_date i) (status i)
    (notes i) (terms i) (tax_rate i) (subtotal i) (tax_amount i) (total i)
    (amount_paid i) (amount_due i) (currency i) (user_id i) (client_id i)
    (project_id i) v.

Definition set_id (v : Z) (i : Invoice) : Invoice :=
  mkInvoice v (invoice_number i) (issue_date i) (due_date i) (status i)
    (notes i) (terms i) (tax_rate i) (subtotal i) (tax_amount i) (total i)
    (amount_paid i) (amount_due i) (currency i) (user_id i) (client_id i)
    (project_id i) (items i).

Definition set_notes (v : json) (i : Invoice) : Invoice :=
  mkInvoice (id i) (invoice_number i) (issue_date i) (due_date i) (status i)
    v (terms i) (tax_rate i) (subtotal i) (tax_amount i) (total i)
    (amount_paid i) (amount_due i) (currency i) (user_id i) (client_id i)
    (project_id i) (items i).

Definition set_terms (v : json) (i : Invoice) : Invoice :=
  mkInvoice (id i) (invoice_number i) (issue_date i) (due_date i) (status i)
    (notes i) v (tax_rate i) (subtotal i) (tax_amount i) (total i)
    (amount_paid i) (amount_due i) (currency i) (user_id i) (client_id i)
    (project_id i) (items i).

Definition set_tax_rate (v : Q) (i : Invoice) : Invoice :=
  mkInvoice (id i) (invoice_number i) (issue_date i) (due_date i) (status i)
    (notes i) (terms i) v (subtotal i) (tax_amount i) (total i)
    (amount_paid i) (amount_due i) (currency i) (user_id i) (client_id i)
    (project_id i) (items i).

Definition set_currency (v : json) (i : Invoice) : Invoice :=
  mkInvoice (id i) (invoice_number i) (issue_date i) (due_date i) (status i)
    (notes i) (terms i) (tax_rate i) (subtotal i) (tax_amount i) (total i)
    (amount_paid i) (amount_due i) v (user_id i) (client_id i)
    (project_id i) (items i).

Definition set_client_id (v : json) (i : Invoice) : Invoice :=
  mkInvoice (id i) (invoice_number i) (issue_date i) (due_date i) (status i)
    (notes i) (terms i) (tax_rate i) (subtotal i) (tax_amount i) (total i)
    (amount_paid i) (amount_due i) (currency i) (user_id i) v
    (project_id i) (items i).

Definition set_project_id (v : json) (i : Invoice) : Invoice :=
  mkInvoice (id i) (invoice_number i) (issue_date i) (due_date i) (status i)
    (notes i) (terms i) (tax_rate i) (subtotal i) (tax_amount i) (total i)
    (amount_paid i) (amount_due i) (currency i) (user_id i) (client_id i)
    v (items i).

(** [InvoiceItem.calculate_amount] *)
Definition calculate_amount (self : InvoiceItem) : Q :=
  (quantity self * unit_price self * (1 + item_tax_rate self / 100))%Q.

(** [Invoice.calculate_totals] *)
Definition calculate_totals (self : Invoice) : Invoice :=
  let subtotal' := sum (map amount (items self)) in
  let tax_amount' := (subtotal' * (tax_rate self / 100))%Q in
  let total' := (subtotal' + tax_amount')%Q in
  let amount_due' := (total' - amount_paid self)%Q in
  let status' :=
    if Qle_bool amount_due' 0 then PAID
    else if Qlt_bool 0 (amount_paid self) then PARTIALLY_PAID
    else status self in
  mkInvoice (id self) (invoice_number self) (issue_date self) (due_date self)
    status' (notes self) (terms self) (tax_rate self) subtotal' tax_amount'
    total' (amount_paid self) amount_due' (currency self) (user_id self)
    (client_id self) (project_id self) (items self).

(** [Invoice.calculate_totals] on an object that is not stored yet, whose
    [amount_paid] is [None] unless it was assigned: [self.total -
    self.amount_paid] raises [TypeError] for [None]. *)
Definition calculate_totals_of (amount_paid : option Q) (self : Invoice) : result Invoice :=
  match amount_paid with
  | Some paid => Ok (calculate_totals (set_amount_paid paid self))
  | None => Raise TypeError
  end.

(** [d + x] for a [Decimal] [d] and a [float] [x]: neither type accepts
    the other as an operand. *)
Definition Decimal_add_float (d x : Q) : result Q := Raise TypeError.

(** ** Numeric columns *)

(** The value a [Numeric(p, 2)] column holds, and returns, for a value
    written to it: the value rounded to two places, a half away from zero
    (the rounding of PostgreSQL, whose [to_char] the reports call).
    (A value too large for [p] digits is refused by the store; the amounts
    considered here are not.) *)
Definition Numeric_2 (q : Q) : Q :=
  Qred (if Qle_bool 0 q
        then Qfloor (q * 100 + (1 # 2)) # 100
        else - (Qfloor (- q * 100 + (1 # 2)) # 100)).

(** An item as its row holds it: [quantity], [unit_price], [tax_rate] and
    [amount] are [Numeric] columns of scale 2. *)
Definition persisted_item (it : InvoiceItem) : InvoiceItem :=
  mkItem (item_id it) (description it) (Numeric_2 (quantity it))
    (Numeric_2 (unit_price it)) (Numeric_2 (item_tax_rate it)) (Numeric_2 (amount it)).

(** An invoice as its row holds it after a commit, and as the object shows
    it when its attributes are read again: [tax_rate], [subtotal],
    [tax_amount], [total], [amount_paid] and [amount_due] are [Numeric]
    columns of scale 2, each rounded on its own. *)
Definition persisted (i : Invoice) : Invoice :=
  mkInvoice (id i) (invoice_number i) (issue_date i) (due_date i) (status i)
    (notes i) (terms i) (Numeric_2 (tax_rate i)) (Numeric_2 (subtotal i))
    (Numeric_2 (tax_amount i)) (Numeric_2 (total i)) (Numeric_2 (amount_paid i))
    (Numeric_2 (amount_due i)) (currency i) (user_id i) (client_id i)
    (project_id i) (map persisted_item (items i)).


(** ** The store *)

Record Db : Type := mkDb {
  invoices : list Invoice;
  transactions : list Transaction
}.

(** The next value of an integer primary key. *)
Definition next_id (ids : list Z) : Z := fold_right Z.max 0 ids + 1.

(** [Invoice.query.filter_by(id=invoice_id, user_id=user).first()] *)
Definition find_invoice (db : Db) (invoice_id user : Z) : option Invoice :=
  find (fun i => (id i =? invoice_id) && (user_id i =? user)) (invoices db).

(** Flushing a modified, already persistent invoice. *)
Definition store_invoice (inv : Invoice) (db : Db) : Db :=
  mkDb (map (fun i => if id i =? id inv then inv else i) (invoices db))
       (transactions db).

(** Flushing a new transaction: it receives its primary key. *)
Definition add_transaction (t : Transaction) (db : Db) : Db :=
  mkDb (invoices db) (transactions db ++ [t])%list.

(** ** Invoice numbers ([InvoiceService._generate_invoice_number]) *)

(** Strings are sequences of ASCII characters; [\d] is an ASCII digit. *)
Definition is_digit (c : ascii) : bool :=
  ((48 <=? nat_of_ascii c) && (nat_of_ascii c <=? 57))%nat.

(** [str(n)] for a natural number. *)
Definition str_N (n : N) : string := NilEmpty.string_of_uint (N.to_uint n).

(** [f"{n:0{w}d}"] for a natural number: zero-padded on the left to at
    least [w] characters. *)
Fixpoint zeros (k : nat) : string :=
  match k with
  | O => ""
  | S k' => String "0" (zeros k')
  end.

Definition zfill (w : nat) (n : N) : string :=
  let s := str_N n in zeros (w - String.length s) ++ s.

(** [int(s)] on a string of digits. *)
Definition int_of_digits (s : string) : option N :=
  option_map N.of_uint (NilEmpty.uint_of_string s).

(** [\d{n}]: exactly [n] digits, and what follows them. *)
Fixpoint take_digits (n : nat) (s : string) : option (string * string) :=
  match n with
  | O => Some ("", s)
  | S n' =>
      match s with
      | String c s' =>
          if is_digit c then
            match take_digits n' s' with
            | Some (g, r) => Some (String c g, r)
            | None => None
            end
          else None
      | EmptyString => None
      end
  end.

(** [\d*], greedy: the longest prefix of digits, and what follows it. *)
Fixpoint span_digits (s : string) : string * string :=
  match s with
  | String c s' =>
      if is_digit c then let (g, r) := span_digits s' in (String c g, r)
      else ("", s)
  | EmptyString => ("", "")
  end.

Fixpoint strip_prefix (p s : string) : option string :=
  match p, s with
  | EmptyString, _ => Some s
  | String a p', String b s' => if Ascii.eqb a b then strip_prefix p' s' else None
  | String _ _, EmptyString => None
  end.

(** [re.match(r'INV-(\d{4})(\d{2})-(\d+)', s)]: the three groups.  The
    pattern is anchored at the start only, and has no choice point besides
    the final greedy [\d+]. *)
Definition match_invoice_number (s : string) : option (string * string * string) :=
  match strip_prefix "INV-" s with
  | None => None
  | Some s1 =>
      match take_digits 4 s1 with
      | None => None
      | Some (g1, s2) =>
          match take_digits 2 s2 with
          | None => None
          | Some (g2, s3) =>
              match strip_prefix "-" s3 with
              | None => None
              | Some s4 =>
                  match fst (span_digits s4) with
                  | EmptyString => None
                  | g3 => Some (g1, g2, g3)
                  end
              end
          end
      end
  end.

(** [f"INV-{year}{month:02d}-{sequence:04d}"] *)
Definition format_invoice_number (y m sequence : N) : string :=
  "INV-" ++ str_N y ++ zfill 2 m ++ "-" ++ zfill 4 sequence.

(** [Invoice.query.filter_by(user_id=u).order_by(Invoice.id.desc()).first()] *)
Definition latest_invoice (db : Db) (u : Z) : option Invoice :=
  fold_left
    (fun best i =>
       if user_id i =? u then
         match best with
         | None => Some i
         | Some b => if id b <? id i then Some i else Some b
         end
       else best)
    (invoices db) None.

(** The sequence number chosen for the next invoice. *)
Definition next_sequence (latest : option Invoice) (current_year current_month : N) : N :=
  match latest with
  | Some inv =>
      if String.eqb (invoice_number inv) "" then 1%N
      else
        match match_invoice_number (invoice_number inv) with
        | Some (g1, g2, g3) =>
            match int_of_digits g1, int_of_digits g2, int_of_digits g3 with
            | Some y, Some m, Some sequence =>
                if (y =? current_year)%N && (m =? current_month)%N
                then (sequence + 1)%N
                else 1%N
            | _, _, _ => 1%N
            end
        | None => 1%N
        end
  | None => 1%N
  end.

Definition generate_invoice_number (db : Db) (u : Z) (today : date) : string :=
  let current_year := Z.to_N (year today) in
  let current_month := Z.to_N (month today) in
  format_invoice_number current_year current_month
    (next_sequence (latest_invoice db u) current_year current_month).

(** ** The invoice service ([backend/app/services/invoice_service.py]) *)

Definition all_item_ids (db : Db) : list Z :=
  flat_map (fun i => flat_map (fun it => match item_id it with Some z => [z] | None => [] end)
                              (items i))
           (invoices db).

Definition set_item_id (v : option Z) (it : InvoiceItem) : InvoiceItem :=
  mkItem v (description it) (quantity it) (unit_price it) (item_tax_rate it) (amount it).

(** Flushing items: those without a primary key receive the next ones. *)
Fixpoint assign_item_ids (next : Z) (l : list InvoiceItem) : list InvoiceItem :=
  match l with
  | [] => []
  | it :: l' =>
      match item_id it with
      | Some _ => it :: assign_item_ids next l'
      | None => set_item_id (Some next) it :: assign_item_ids (next + 1) l'
      end
  end.

Definition flush_items (db : Db) (inv : Invoice) : Invoice :=
  set_items (assign_item_ids (next_id (all_item_ids db)) (items inv)) inv.

(** The two handlers every service method ends with:
    [except ValueError as e: rollback; raise ValueError(prefix + str(e))] and
    [except Exception as e: rollback; raise Exception(failure + str(e))]. *)
Definition handlers {A} (prefix failure : string) (r : result A) : result A :=
  match r with
  | Ok a => Ok a
  | Raise (ValueError msg) => Raise (ValueError (prefix ++ msg))
  | Raise e => Raise (Exception (failure ++ str_exn e))
  end.

(** A unit of work: the new store on success, the store of the last commit
    after the rollback of a handler. *)
Definition transactional {A} (db : Db) (r : result (A * Db)) : result A * Db :=
  match r with
  | Ok (a, db') => (Ok a, db')
  | Raise e => (Raise e, db)
  end.

Definition item_fields : list string := ["description"; "quantity"; "unit_price"].

Definition missing_item_field : exn :=
  ValueError "Each item must have description, quantity, and unit_price".

(** [d.get(k, dflt)]; only an object has the method. *)
Definition dict_get (j : json) (k : string) (dflt : json) : result json :=
  match j with
  | JObj o => Ok (get_default k dflt o)
  | _ => Raise TypeError
  end.

(** [for x in j]: the elements of an array, the characters of a string, the
    keys of an object. *)
Definition iterate (j : json) : result (list json) :=
  match j with
  | JArr l => Ok l
  | JStr s => Ok (map (fun c => JStr (String c "")) (list_ascii_of_string s))
  | JObj o => Ok (map JStr (keys o))
  | _ => Raise TypeError
  end.

(** [for x in xs: ...] with an accumulator and exceptions. *)
Fixpoint for_each {A S} (xs : list A) (s : S) (body : S -> A -> result S) : result S :=
  match xs with
  | [] => Ok s
  | x :: xs' => s' <- body s x ;; for_each xs' s' body
  end.

Module InvoiceService.
Section Service.
Context {py : PyLib}.

(** The item a request entry describes, with its amount
    [quantity * unit_price * (1 + tax_rate / 100)]. *)
Definition item_of_data (ident : option Z) (item_data : json) : result InvoiceItem :=
  d <- subscript item_data "description" ;;
  qj <- subscript item_data "quantity" ;;
  q <- Decimal_str qj ;;
  pj <- subscript item_data "unit_price" ;;
  p <- Decimal_str pj ;;
  tj <- dict_get item_data "tax_rate" (JNum 0) ;;
  t <- Decimal_str tj ;;
  Ok (mkItem ident d q p t (q * p * (1 + t / 100))%Q).

Definition new_item (item_data : json) : result InvoiceItem :=
  ok <- all_in item_fields item_data ;;
  check ok else_raise missing_item_field ;;
  item_of_data None item_data.

Definition required_fields : list string :=
  ["client_id"; "issue_date"; "due_date"; "items"].

Definition first_missing (d : dict) : option string :=
  find (fun f => negb (has f d)) required_fields.

(** The part of [create_invoice] inside [try].  [Invoice(...)] names no
    [amount_paid]: the attribute is [None] when [calculate_totals] runs. *)
Definition create_invoice_body (db : Db) (u : Z) (data : dict) (today : date)
  : result (Invoice * Db) :=
  issue <- parse_date "issue_date" (get_default "issue_date" JNull data) ;;
  due <- parse_date "due_date" (get_default "due_date" JNull data) ;;
  check negb (date_ltb due issue)
    else_raise (ValueError "Due date cannot be before issue date") ;;
  let number := generate_invoice_number db u today in
  rate <- Decimal_str (get_default "tax_rate" (JNum 0) data) ;;
  entries <- iterate (get_default "items" JNull data) ;;
  its <- for_each entries []
           (fun acc item_data => it <- new_item item_data ;; Ok (acc ++ [it])%list) ;;
  invoice <-
    calculate_totals_of None
      (mkInvoice 0 number issue due DRAFT
         (get_default "notes" JNull data) (get_default "terms" JNull data)
         rate 0 0 0 0 0
         (get_default "currency" (JStr "USD") data) u
         (get_default "client_id" JNull data)
         (get_default "project_id" JNull data) its) ;;
  (* commit: [invoice_number] is unique *)
  check negb (existsb (fun i => String.eqb (invoice_number i) number) (invoices db))
    else_raise IntegrityError ;;
  let stored := flush_items db (set_id (next_id (map id (invoices db))) invoice) in
  Ok (stored, mkDb (invoices db ++ [stored])%list (transactions db)).

Definition create_invoice (db : Db) (u : Z) (data : dict) (today : date)
  : result Invoice * Db :=
  match first_missing data with
  | Some field => (Raise (ValueError ("Missing required field: " ++ field)), db)
  | None =>
      match get "items" data with
      | Some (JArr (_ :: _)) =>
          transactional db
            (handlers "Invalid data: " "Failed to create invoice: "
               (create_invoice_body db u data today))
      | _ => (Raise (ValueError "At least one invoice item is required"), db)
      end
  end.

(** A number as Python arithmetic sees the value ([bool] is an [int]). *)
Definition numeric (j : json) : option Q :=
  match j with
  | JNum q => Some q
  | JBool b => Some (if b then 1 else 0)%Q
  | _ => None
  end.

(** [existing_items = {item.id: item for item in invoice.items}] *)
Definition dict_set (k : Z) (it : InvoiceItem) (d : list (Z * InvoiceItem))
  : list (Z * InvoiceItem) :=
  if existsb (fun p => fst p =? k) d
  then map (fun p => if fst p =? k then (k, it) else p) d
  else (d ++ [(k, it)])%list.

Definition existing_items_of (l : list InvoiceItem) : list (Z * InvoiceItem) :=
  fold_left
    (fun d it => match item_id it with Some k => dict_set k it d | None => d end)
    l [].

(** [item_id in existing_items], and the entry found.  A list or an object
    is not hashable; a string equals no integer key. *)
Definition dict_find (item_id : json) (d : list (Z * InvoiceItem))
  : result (option (Z * InvoiceItem)) :=
  match item_id with
  | JArr _ | JObj _ => Raise TypeError
  | _ =>
      match numeric item_id with
      | Some q => Ok (find (fun p => Qeq_bool (inject_Z (fst p)) q) d)
      | None => Ok None
      end
  end.

Definition dict_del (k : Z) (d : list (Z * InvoiceItem)) : list (Z * InvoiceItem) :=
  filter (fun p => negb (fst p =? k)) d.

(** One round of the loop over [data['items']] in [update_invoice]. *)
Definition update_item (st : list (Z * InvoiceItem) * list InvoiceItem) (item_data : json)
  : result (list (Z * InvoiceItem) * list InvoiceItem) :=
  let (existing_items, new_items) := st in
  ok <- all_in item_fields item_data ;;
  check ok else_raise missing_item_field ;;
  item_id <- dict_get item_data "id" JNull ;;
  found <- (if truthy item_id then dict_find item_id existing_items else Ok None) ;;
  match found with
  | Some (k, _) =>
      it <- item_of_data (Some k) item_data ;;
      Ok (dict_del k existing_items, (new_items ++ [it])%list)
  | None =>
      it <- item_of_data None item_data ;;
      Ok (existing_items, (new_items ++ [it])%list)
  end.

(** [setattr(invoice, field, data[field])] for the plain columns. *)
Definition set_if_present (field : string) (setter : json -> Invoice -> Invoice)
    (data : dict) (i : Invoice) : Invoice :=
  match get field data with
  | Some v => setter v i
  | None => i
  end.

Definition invalid_status : exn := ValueError "not a valid InvoiceStatus".

(** [InvoiceStatus(v)] on a request value. *)
Definition InvoiceStatus_of (v : json) : result InvoiceStatus :=
  match v with
  | JStr s =>
      match InvoiceStatus_of_value s with
      | Some st => Ok st
      | None => Raise invalid_status
      end
  | _ => Raise invalid_status
  end.

(** The part of [update_invoice] inside [try].  The loop over
    [optional_fields] assigns the values of the request as they are. *)
Definition update_invoice_body (db : Db) (invoice : Invoice) (data : dict)
  : result (Invoice * Db) :=
  inv1 <- match get "issue_date" data with
          | Some j => d <- parse_date "issue_date" j ;; Ok (set_issue_date d invoice)
          | None => Ok invoice
          end ;;
  inv2 <- match get "due_date" data with
          | Some j =>
              due <- parse_date "due_date" j ;;
              check negb (date_ltb due (issue_date inv1))
                else_raise (ValueError "Due date cannot be before issue date") ;;
              Ok (set_due_date due inv1)
          | None => Ok inv1
          end ;;
  inv3 <- match get "status" data with
          | Some j => st <- InvoiceStatus_of j ;; Ok (set_status st inv2)
          | None => Ok inv2
          end ;;
  let inv4 :=
    set_if_present "terms" set_terms data
      (set_if_present "notes" set_notes data
         (set_if_present "currency" set_currency data
            (set_if_present "project_id" set_project_id data
               (set_if_present "client_id" set_client_id data inv3)))) in
  inv5 <- match get "items" data with
          | Some j =>
              entries <- iterate j ;;
              st <- for_each entries (existing_items_of (items inv4), []) update_item ;;
              Ok (set_items (snd st) inv4)
          | None => Ok inv4
          end ;;
  (* [calculate_totals]: a [tax_rate] set from the request is the JSON
     value, no [Decimal]; [self.tax_rate / 100] is a [float] or raises, and
     the arithmetic with the [Decimal] amounts raises [TypeError] *)
  check negb (has "tax_rate" data) else_raise TypeError ;;
  let stored := flush_items db (calculate_totals inv5) in
  Ok (stored, store_invoice stored db).

Definition update_invoice (db : Db) (invoice : Invoice) (data : dict)
  : result Invoice * Db :=
  transactional db
    (handlers "Invalid data: " "Failed to update invoice: "
       (update_invoice_body db invoice data)).

(** [InvoiceService.record_payment]; the part inside [try]. *)
Definition record_payment_body (db : Db) (invoice : Invoice) (amount : json)
    (payment_date : date) : result ((Invoice * Transaction) * Db) :=
  amount <- Decimal_str amount ;;
  check Qlt_bool 0 amount
    else_raise (ValueError "Payment amount must be greater than 0") ;;
  check Qle_bool amount (amount_due invoice)
    else_raise (ValueError "Payment amount cannot be greater than the amount due") ;;
  let invoice := calculate_totals (set_amount_paid (amount_paid invoice + amount)%Q invoice) in
  let transaction :=
    mkTransaction (next_id (map txn_id (transactions db))) payment_date amount
      ("Payment for invoice " ++ invoice_number invoice)
      (Some ("INV-" ++ NilZero.string_of_int (Z.to_int (id invoice))))
      true INCOME "service" (user_id invoice) (project_id invoice)
      (Some (id invoice)) in
  Ok (invoice, transaction, add_transaction transaction (store_invoice invoice db)).

Definition record_payment (db : Db) (invoice : Invoice) (amount : json)
    (payment_date : date) : result (Invoice * Transaction) * Db :=
  transactional db
    (handlers "" "Failed to record payment: "
       (record_payment_body db invoice amount payment_date)).

(** The e-mail address of the invoice's client
    ([invoice.client.email if invoice.client else None]) is an argument: the
    [Client] model is not part of the sources at hand. *)
Definition send_invoice (db : Db) (invoice : Invoice) (send_email : bool)
    (client_email : option string) : result bool * Db :=
  let db1 := if status_eqb (status invoice) DRAFT
             then store_invoice (set_status SENT invoice) db
             else db in
  if send_email then
    match client_email with
    | Some (String _ _) => (Ok true, db1)
    | _ => (Raise (Exception "Failed to send invoice: Client email not found"), db1)
    end
  else (Ok true, db1).

End Service.
End InvoiceService.

(** ** The invoice routes ([backend/app/routes/invoices.py]) *)

Record response : Type := mkResponse {
  code : Z;
  message : string;
  body : option Invoice
}.

Definition error_response (c : Z) (msg : string) : response := mkResponse c msg None.

Module InvoiceRoutes.
Section Routes.
Context {py : PyLib}.

Definition not_found : response := error_response 404 "Invoice not found".

Definition allowed_updates : list string := ["status"; "notes"; "terms"].

(** The response to a change of a locked field of a paid or partially paid
    invoice ([InvoiceLocked]). *)
Definition invoice_locked : response :=
  error_response 400
    "Cannot update paid/partially paid invoice details. Only status, notes, and terms can be updated.".

(** [PUT /api/invoices/<invoice_id>] *)
Definition update_invoice (db : Db) (current_user_id invoice_id : Z) (data : dict)
  : response * Db :=
  match find_invoice db invoice_id current_user_id with
  | None => (not_found, db)
  | Some invoice =>
      if (status_eqb (status invoice) PAID || status_eqb (status invoice) PARTIALLY_PAID)
         && existsb (fun field => negb (existsb (String.eqb field) allowed_updates))
                    (keys data)
      then (invoice_locked, db)
      else if has "invoice" data || has "self" data
      then (* [update_invoice(invoice=invoice, **data)]: a repeated keyword *)
        (error_response 500 "Failed to update invoice", db)
      else
        match InvoiceService.update_invoice db invoice data with
        | (Ok updated_invoice, db') =>
            (mkResponse 200 "Invoice updated successfully" (Some updated_invoice), db')
        | (Raise (ValueError msg), db') => (error_response 400 msg, db')
        | (Raise _, db') => (error_response 500 "Failed to update invoice", db')
        end
  end.

(** [POST /api/invoices/<invoice_id>/send] *)
Definition send_invoice (db : Db) (current_user_id invoice_id : Z) : response * Db :=
  match find_invoice db invoice_id current_user_id with
  | None => (not_found, db)
  | Some invoice =>
      let invoice := set_status SENT invoice in
      (mkResponse 200 "Invoice sent successfully" (Some invoice),
       store_invoice invoice db)
  end.

(** [float(j)] on a request value; [ValueError] and [TypeError] are handled
    alike by the caller. *)
Definition float_of (j : json) : option Q :=
  match j with
  | JNum q => Some q
  | JBool b => Some (if b then 1 else 0)%Q
  | JStr s => float_of_string s
  | _ => None
  end.

(** The response to a non-positive amount ([InvalidAmount]). *)
Definition invalid_amount : response :=
  error_response 400 "Amount must be greater than 0".

(** The response to a payment on a void invoice ([InvoiceVoid]). *)
Definition invoice_void : response :=
  error_response 400 "Cannot record payment for a void invoice".

(** [POST /api/invoices/<invoice_id>/record-payment] *)
Definition record_payment (db : Db) (current_user_id invoice_id : Z) (data : dict)
  : response * Db :=
  if negb (has "amount" data) || negb (has "payment_date" data)
  then (error_response 400 "Amount and payment_date are required", db)
  else
    match float_of (get_default "amount" JNull data) with
    | None => (error_response 400 "Invalid amount", db)
    | Some payment_amount =>
        if Qle_bool payment_amount 0 then (invalid_amount, db)
        else
          match find_invoice db invoice_id current_user_id with
          | None => (not_found, db)
          | Some invoice =>
              if status_eqb (status invoice) VOID then (invoice_void, db)
              else
                match parse_date "payment_date" (get_default "payment_date" JNull data) with
                | Raise (ValueError _) =>
                    (error_response 400 "Invalid payment_date format. Use YYYY-MM-DD", db)
                | Raise _ =>
                    (* not handled by the route *)
                    (error_response 500 "Internal Server Error", db)
                | Ok payment_date =>
                    match
                      (* [invoice.amount_paid += payment_amount], a [float] *)
                      paid <- Decimal_add_float (amount_paid invoice) payment_amount ;;
                      let invoice := calculate_totals (set_amount_paid paid invoice) in
                      let transaction :=
                        mkTransaction (next_id (map txn_id (transactions db)))
                          payment_date payment_amount
                          ("Payment for invoice " ++ invoice_number invoice)
                          None false INCOME "service" current_user_id
                          (project_id invoice) (Some (id invoice)) in
                      Ok (invoice, add_transaction transaction (store_invoice invoice db))
                    with
                    | Ok (invoice, db') =>
                        (mkResponse 200 "Payment recorded successfully" (Some invoice), db')
                    | Raise _ =>
                        (* [except Exception]: rollback *)
                        (error_response 500 "Failed to record payment", db)
                    end
                end
          end
    end.

(** The response to the deletion of a paid invoice. *)
Definition paid_not_deleted : response :=
  error_response 400 "Cannot delete a paid invoice".

(** [DELETE /api/invoices/<invoice_id>].  What the store does with the
    transactions that refer to the invoice ([Transaction.invoice_id]) is the
    argument [on_delete]: it yields the ledger after the deletion, or
    [None] when the store refuses the deletion, which the route answers
    with 500 after a rollback. *)
Definition delete_invoice (on_delete : Z -> list Transaction -> option (list Transaction))
    (db : Db) (current_user_id invoice_id : Z) : response * Db :=
  match find_invoice db invoice_id current_user_id with
  | None => (not_found, db)
  | Some invoice =>
      if status_eqb (status invoice) PAID then (paid_not_deleted, db)
      else
        match on_delete (id invoice) (transactions db) with
        | Some ledger =>
            (mkResponse 200 "Invoice deleted successfully" None,
             mkDb (filter (fun i => negb (id i =? id invoice)) (invoices db)) ledger)
        | None => (error_response 500 "Failed to delete invoice", db)
        end
  end.

(** [GET /api/invoices/<invoice_id>] *)
Definition get_invoice (db : Db) (current_user_id invoice_id : Z) : response :=
  match find_invoice db invoice_id current_user_id with
  | None => not_found
  | Some invoice => mkResponse 200 "" (Some invoice)
  end.

(** [POST /api/invoices].  [today] is the current date, which the service
    reads for the number of the invoice. *)
Definition create_invoice (db : Db) (current_user_id : Z) (data : dict) (today : date)
  : response * Db :=
  match InvoiceService.first_missing data with
  | Some field => (error_response 400 ("Missing required field: " ++ field), db)
  | None =>
      match get "items" data with
      | Some (JArr (_ :: _)) =>
          if has "user_id" data || has "self" data
          then (* [create_invoice(user_id=current_user_id, **data)]: a repeated keyword *)
            (error_response 500 "Failed to create invoice", db)
          else
            match InvoiceService.create_invoice db current_user_id data today with
            | (Ok invoice, db') =>
                (mkResponse 201 "Invoice created successfully" (Some invoice), db')
            | (Raise (ValueError msg), db') => (error_response 400 msg, db')
            | (Raise _, db') => (error_response 500 "Failed to create invoice", db')
            end
      | _ => (error_response 400 "At least one invoice item is required", db)
      end
  end.

End Routes.
End InvoiceRoutes.

(** ** Calendar arithmetic ([datetime.date], proleptic Gregorian) *)

Definition MINYEAR : Z := 1.
Definition MAXYEAR : Z := 9999.
Definition MAXORDINAL : Z := 3652059.

Definition is_leap (y : Z) : bool :=
  (y mod 4 =? 0) && (negb (y mod 100 =? 0) || (y mod 400 =? 0)).

Definition DAYS_IN_MONTH : list Z :=
  [-1; 31; 28; 31; 30; 31; 30; 31; 31; 30; 31; 30; 31].

Definition DAYS_BEFORE_MONTH : list Z :=
  [-1; 0; 31; 59; 90; 120; 151; 181; 212; 243; 273; 304; 334].

Definition days_in_month (y m : Z) : Z :=
  if (m =? 2) && is_leap y then 29 else nth (Z.to_nat m) DAYS_IN_MONTH 0.

Definition days_before_year (y : Z) : Z :=
  let y := y - 1 in y * 365 + y / 4 - y / 100 + y / 400.

Definition days_before_month (y m : Z) : Z :=
  nth (Z.to_nat m) DAYS_BEFORE_MONTH 0 + (if (2 <? m) && is_leap y then 1 else 0).

(** The values a [date] object can hold. *)
Definition valid_date (d : date) : Prop :=
  MINYEAR <= year d <= MAXYEAR /\ 1 <= month d <= 12
  /\ 1 <= day d <= days_in_month (year d) (month d).

Definition toordinal (d : date) : Z :=
  days_before_year (year d) + days_before_month (year d) (month d) + day d.

Definition fromordinal (n : Z) : date :=
  let n := n - 1 in
  let n400 := n / 146097 in
  let n := n mod 146097 in
  let n100 := n / 36524 in
  let n := n mod 36524 in
  let n4 := n / 1461 in
  let n := n mod 1461 in
  let n1 := n / 365 in
  let n := n mod 365 in
  let y := n400 * 400 + 1 + n100 * 100 + n4 * 4 + n1 in
  if (n1 =? 4) || (n100 =? 4) then mkdate (y - 1) 12 31
  else
    let leapyear := (n1 =? 3) && (negb (n4 =? 24) || (n100 =? 3)) in
    let m := (n + 50) / 32 in
    let preceding :=
      nth (Z.to_nat m) DAYS_BEFORE_MONTH 0 + (if (2 <? m) && leapyear then 1 else 0) in
    if n <? preceding then
      let m' := m - 1 in
      let preceding' :=
        preceding - (nth (Z.to_nat m') DAYS_IN_MONTH 0
                     + (if (m' =? 2) && leapyear then 1 else 0)) in
      mkdate y m' (n - preceding' + 1)
    else mkdate y m (n - preceding + 1).

(** [d - timedelta(days=n)]; out of range is an [OverflowError]. *)
Definition sub_days (d : date) (n : Z) : option date :=
  let o := toordinal d - n in
  if (0 <? o) && (o <=? MAXORDINAL) then Some (fromordinal o) else None.

(** [d.replace(year=y, month=m, day=1)]; [None] is its [ValueError]. *)
Definition first_of_month (y m : Z) : option date :=
  if (MINYEAR <=? y) && (y <=? MAXYEAR) && (1 <=? m) && (m <=? 12)
  then Some (mkdate y m 1) else None.

(** ['YYYY-MM']: [strftime('%Y-%m')] and [to_char(date, 'YYYY-MM')], which
    agree from the year 1000 on. *)
Definition year_month (d : date) : string :=
  zfill 4 (Z.to_N (year d)) ++ "-" ++ zfill 2 (Z.to_N (month d)).

(** The Monday of the first ISO week of a year. *)
Definition isoweek1monday (y : Z) : Z :=
  let firstday := toordinal (mkdate y 1 1) in
  let firstweekday := (firstday + 6) mod 7 in
  let week1monday := firstday - firstweekday in
  if 3 <? firstweekday then week1monday + 7 else week1monday.

(** ISO 8601 year and week number of a date. *)
Definition isocalendar (d : date) : Z * Z :=
  let y := year d in
  let today := toordinal d in
  let week := (today - isoweek1monday y) / 7 in
  if week <? 0 then (y - 1, (today - isoweek1monday (y - 1)) / 7 + 1)
  else if (52 <=? week) && (isoweek1monday (y + 1) <=? today) then (y + 1, 1)
  else (y, week + 1).

(** ['IYYY-IW'] *)
Definition iso_year_week (d : date) : string :=
  let (y, w) := isocalendar d in
  zfill 4 (Z.to_N y) ++ "-" ++ zfill 2 (Z.to_N w).

(** ** The reporting aggregator ([backend/app/routes/reports.py]) *)

(** A row of [query(period, Transaction.type, func.sum(Transaction.amount))
    ... .group_by('period', Transaction.type)]. *)
Record row (K : Type) : Type := mkRow {
  row_period : K;
  row_type : TransactionType;
  row_total : Q
}.
Arguments mkRow {K}.
Arguments row_period {K}.
Arguments row_type {K}.
Arguments row_total {K}.

Definition type_eqb (a b : TransactionType) : bool :=
  String.eqb (TransactionType_value a) (TransactionType_value b).

(** [Transaction.user_id == u, Transaction.date.between(start, end)] *)
Definition selected (u : Z) (start_date end_date : date) (t : Transaction) : bool :=
  (txn_user_id t =? u) && date_leb start_date (txn_date t)
  && date_leb (txn_date t) end_date.

Section Grouping.
Variable K : Type.
Variable K_eqb : K -> K -> bool.
Variable K_leb : K -> K -> bool.

(** Adding a transaction to its group. *)
Fixpoint add_to_group (k : K) (ty : TransactionType) (a : Q) (rows : list (row K))
  : list (row K) :=
  match rows with
  | [] => [mkRow k ty a]
  | r :: rows' =>
      if K_eqb (row_period r) k && type_eqb (row_type r) ty
      then mkRow k ty (row_total r + a)%Q :: rows'
      else r :: add_to_group k ty a rows'
  end.

(** [ORDER BY period], stable. *)
Fixpoint insert_row (r : row K) (rows : list (row K)) : list (row K) :=
  match rows with
  | [] => [r]
  | r' :: rows' =>
      if K_leb (row_period r') (row_period r)
      then r' :: insert_row r rows'
      else r :: r' :: rows'
  end.

Definition order_by_period (rows : list (row K)) : list (row K) :=
  fold_left (fun acc r => insert_row r acc) rows [].

(** The grouped query.  The query orders the rows by period only; the rows
    of one period come here in the order in which their first transaction
    is met. *)
Definition grouped (period_of : date -> K) (txns : list Transaction) : list (row K) :=
  order_by_period
    (fold_left
       (fun rows t => add_to_group (period_of (txn_date t)) (txn_type t) (txn_amount t) rows)
       txns []).

End Grouping.
Arguments add_to_group {K}.
Arguments insert_row {K}.
Arguments order_by_period {K}.
Arguments grouped {K}.

(** [l.index(x)]; [None] is its [ValueError]. *)
Fixpoint index (x : string) (l : list string) : option nat :=
  match l with
  | [] => None
  | y :: l' =>
      if String.eqb y x then Some O
      else match index x l' with Some i => Some (S i) | None => None end
  end.

(** [l[i] = f(l[i])] *)
Fixpoint update_nth {A} (i : nat) (f : A -> A) (l : list A) : list A :=
  match l, i with
  | [], _ => []
  | x :: l', O => f x :: l'
  | x :: l', S i' => x :: update_nth i' f l'
  end.

Module CashFlow.

Record entry : Type := mkEntry {
  period : string;
  income : Q;
  expense : Q;
  net : Q;
  running_balance : Q
}.

Record totals : Type := mkTotals {
  total_income : Q;
  total_expense : Q;
  net_cash_flow : Q;
  ending_balance : Q
}.

Inductive response : Type :=
| BadRequest (msg : string)
| ServerError (e : exn)
| Report (start_date end_date : date) (data : list entry) (tot : totals).

(** [start_date = (end_date - timedelta(days=30*months)).replace(day=1)] *)
Definition start_date_of (end_date : date) (months : Z) : option date :=
  match sub_days end_date (30 * months) with
  | Some d => Some (mkdate (year d) (month d) 1)
  | None => None
  end.

(** The loop [while current <= end_date] that lists the periods.  [None]
    when the rounds allowed are used up. *)
Fixpoint periods_loop (rounds : nat) (current end_date : date) (periods : list string)
  : option (result (list string)) :=
  match rounds with
  | O => None
  | S rounds' =>
      if date_leb current end_date then
        let periods := (periods ++ [year_month current])%list in
        let next :=
          if month current =? 12 then first_of_month (year current + 1) 1
          else first_of_month (year current) (month current + 1) in
        match next with
        | Some current' => periods_loop rounds' current' end_date periods
        | None => Some (Raise (ValueError "year or month out of range"))
        end
      else Some (Ok periods)
  end.

(** More rounds than the loop can take between two dates. *)
Definition rounds_for (start_date end_date : date) : nat :=
  S (Z.to_nat (12 * (year end_date - year start_date) + 13)).

Definition set_income (v : Q) (e : entry) : entry :=
  mkEntry (period e) v (expense e) (v - expense e)%Q (running_balance e).

Definition set_expense (v : Q) (e : entry) : entry :=
  mkEntry (period e) (income e) v (income e - v)%Q (running_balance e).

(** One round of the loop over [monthly_data]. *)
Definition fill (periods : list string) (cash_flow : list entry) (r : row string)
  : list entry :=
  match index (row_period r) periods with
  | Some idx =>
      if type_eqb (row_type r) INCOME
      then update_nth idx (set_income (row_total r)) cash_flow
      else update_nth idx (set_expense (row_total r)) cash_flow
  | None => cash_flow
  end.

(** The loop that accumulates the running balance. *)
Fixpoint accumulate (running : Q) (cash_flow : list entry) : list entry :=
  match cash_flow with
  | [] => []
  | e :: rest =>
      let running := (running + net e)%Q in
      mkEntry (period e) (income e) (expense e) (net e) running
        :: accumulate running rest
  end.

(** [GET /api/reports/cash-flow], from the check of [months] on; [end_date]
    and [months] are the parsed arguments of the request. *)
Definition cash_flow_report (txns : list Transaction) (current_user_id : Z)
    (end_date : date) (months : Z) : option response :=
  if months <=? 0 then Some (BadRequest "Months must be greater than 0")
  else
    match start_date_of end_date months with
    | None => Some (ServerError (Exception "OverflowError"))
    | Some start_date =>
        match periods_loop (rounds_for start_date end_date) start_date end_date [] with
        | None => None
        | Some (Raise e) => Some (ServerError e)
        | Some (Ok periods) =>
            let monthly_data :=
              grouped String.eqb String.leb year_month
                (filter (selected current_user_id start_date end_date) txns) in
            let cash_flow := map (fun p => mkEntry p 0 0 0 0) periods in
            let cash_flow := fold_left (fill periods) monthly_data cash_flow in
            let cash_flow := accumulate 0 cash_flow in
            let tot :=
              mkTotals (sum (map income cash_flow)) (sum (map expense cash_flow))
                (sum (map net cash_flow))
                (last (map running_balance cash_flow) 0%Q) in
            Some (Report start_date end_date cash_flow tot)
        end
    end.

End CashFlow.

Module IncomeExpense.

(** The value of the [period] column: a number for [year], a text for
    [month] and [week], a date for [day]. *)
Inductive period_key : Type :=
| KYear (y : Z)
| KText (s : string)
| KDate (d : date).

Definition key_eqb (a b : period_key) : bool :=
  match a, b with
  | KYear x, KYear y => x =? y
  | KText x, KText y => String.eqb x y
  | KDate x, KDate y => date_eqb x y
  | _, _ => false
  end.

(** The order of two keys of one report (they are of the same kind). *)
Definition key_leb (a b : period_key) : bool :=
  match a, b with
  | KYear x, KYear y => x <=? y
  | KText x, KText y => String.leb x y
  | KDate x, KDate y => date_leb x y
  | _, _ => false
  end.

Record entry : Type := mkEntry {
  period : period_key;
  income : Q;
  expense : Q;
  net : Q
}.

Record totals : Type := mkTotals {
  total_income : Q;
  total_expense : Q;
  net_income : Q
}.

Inductive response : Type :=
| BadRequest (msg : string)
| Report (data : list entry) (tot : totals) (start_date end_date : date)
         (group_by : string).

(** The [date_part] expression of a [group_by]. *)
Definition date_part (group_by : string) : option (date -> period_key) :=
  if String.eqb group_by "year" then Some (fun d => KYear (year d))
  else if String.eqb group_by "month" then Some (fun d => KText (year_month d))
  else if String.eqb group_by "week" then Some (fun d => KText (iso_year_week d))
  else if String.eqb group_by "day" then Some (fun d => KDate d)
  else None.

(** The update of [result[period]] by one row. *)
Definition apply_row (r : row period_key) (e : entry) : entry :=
  if type_eqb (row_type r) INCOME
  then mkEntry (period e) (income e + row_total r) (expense e)
               (income e + row_total r - expense e)%Q
  else mkEntry (period e) (income e) (expense e + row_total r)
               (income e - (expense e + row_total r))%Q.

(** One round of the loop over the rows; [result] keeps the order in which
    the periods were entered. *)
Fixpoint add_row (r : row period_key) (result : list entry) : list entry :=
  match result with
  | [] => [apply_row r (mkEntry (row_period r) 0 0 0)]
  | e :: result' =>
      if key_eqb (period e) (row_period r)
      then apply_row r e :: result'
      else e :: add_row r result'
  end.

(** [sorted(result.values(), key=lambda x: x['period'])] *)
Fixpoint insert_entry (e : entry) (l : list entry) : list entry :=
  match l with
  | [] => [e]
  | e' :: l' =>
      if key_leb (period e') (period e)
      then e' :: insert_entry e l'
      else e :: e' :: l'
  end.

Definition sorted (l : list entry) : list entry :=
  fold_left (fun acc e => insert_entry e acc) l [].

(** [GET /api/reports/income-expense]; [start_date] and [end_date] are the
    parsed (or default) dates of the request. *)
Definition income_expense_report (txns : list Transaction) (current_user_id : Z)
    (start_date end_date : date) (group_by : string) : response :=
  match date_part group_by with
  | None =>
      BadRequest "Invalid group_by parameter. Must be one of: day, week, month, year"
  | Some part =>
      let transactions :=
        grouped key_eqb key_leb part
          (filter (selected current_user_id start_date end_date) txns) in
      let result := fold_left (fun acc r => add_row r acc) transactions [] in
      let report_data := sorted result in
      let total_income := sum (map income report_data) in
      let total_expense := sum (map expense report_data) in
      Report report_data
        (mkTotals total_income total_expense (total_income - total_expense)%Q)
        start_date end_date group_by
  end.

End IncomeExpense.

(** ** Sums by group *)

(** [query(key, func.sum(Transaction.amount)).group_by(key)].  The queries
    of this kind have no [ORDER BY]; the rows come here in the order in
    which the first transaction of each group is met. *)
Section GroupSum.
Variable K : Type.
Variable K_eqb : K -> K -> bool.

Fixpoint add_amount (k : K) (a : Q) (rows : list (K * Q)) : list (K * Q) :=
  match rows with
  | [] => [(k, a)]
  | (k', total) :: rows' =>
      if K_eqb k' k then (k', (total + a)%Q) :: rows'
      else (k', total) :: add_amount k a rows'
  end.

Definition group_sum (key : Transaction -> K) (txns : list Transaction) : list (K * Q) :=
  fold_left (fun rows t => add_amount (key t) (txn_amount t) rows) txns [].

End GroupSum.
Arguments add_amount {K}.
Arguments group_sum {K}.

(** The values of [TransactionCategory], the type of the column
    [Transaction.category]. *)
Definition TransactionCategory_values : list string :=
  ["service"; "product_sale"; "interest"; "refund"; "other_income";
   "office_supplies"; "rent"; "utilities"; "salary"; "contractor"; "software";
   "hardware"; "travel"; "meals"; "marketing"; "professional_services";
   "insurance"; "taxes"; "other_expense"].

(** [Transaction.user_id == u, Transaction.type == ty,
    Transaction.date.between(start, end)] *)
Definition selected_of_type (ty : TransactionType) (u : Z) (start_date end_date : date)
    (t : Transaction) : bool :=
  (txn_user_id t =? u) && type_eqb (txn_type t) ty
  && date_leb start_date (txn_date t) && date_leb (txn_date t) end_date.

Module ProfitLoss.

Record line : Type := mkLine {
  line_category : string;
  line_amount : Q
}.

Record totals : Type := mkTotals {
  total_income : Q;
  total_expenses : Q;
  net_profit : Q
}.

Record report : Type := mkReport {
  start_date : date;
  end_date : date;
  income : list line;
  expenses : list line;
  tot : totals
}.

(** [GET /api/reports/profit-loss]; [start_date] and [end_date] are the
    parsed (or default) dates of the request. *)
Definition profit_loss_report (txns : list Transaction) (current_user_id : Z)
    (start_date end_date : date) : report :=
  let income :=
    group_sum String.eqb category
      (filter (selected_of_type INCOME current_user_id start_date end_date) txns) in
  let expenses :=
    group_sum String.eqb category
      (filter (selected_of_type EXPENSE current_user_id start_date end_date) txns) in
  let total_income := sum (map snd income) in
  let total_expenses := sum (map snd expenses) in
  let net_profit := (total_income - total_expenses)%Q in
  mkReport start_date end_date
    (map (fun r => mkLine (fst r) (snd r)) income)
    (map (fun r => mkLine (fst r) (snd r)) expenses)
    (mkTotals total_income total_expenses net_profit).

End ProfitLoss.

Module TaxSummary.

(** A dictionary of amounts by name. *)
Definition buckets : Type := list (string * Q).

Definition bucket_has (k : string) (d : buckets) : bool :=
  existsb (fun p => String.eqb (fst p) k) d.

Definition bucket_get (k : string) (d : buckets) : option Q :=
  option_map snd (find (fun p => String.eqb (fst p) k) d).

(** [d[k] += a], for a key of [d] (the report adds under no other key). *)
Fixpoint bucket_add (k : string) (a : Q) (d : buckets) : buckets :=
  match d with
  | [] => []
  | (k', v) :: d' =>
      if String.eqb k' k then (k', (v + a)%Q) :: d' else (k', v) :: bucket_add k a d'
  end.

Record tax_categories : Type := mkTaxCategories {
  income : buckets;
  expenses : buckets;
  net_profit : Q;
  estimated_tax : Q
}.

Record report : Type := mkReport {
  fiscal_year : Z;
  start_date : date;
  end_date : date;
  categories : tax_categories
}.

Definition initial : tax_categories :=
  mkTaxCategories
    [("service", 0%Q); ("product_sale", 0%Q); ("other_income", 0%Q); ("total", 0%Q)]
    [("office_supplies", 0%Q); ("rent", 0%Q); ("utilities", 0%Q); ("salary", 0%Q);
     ("contractor", 0%Q); ("software", 0%Q); ("hardware", 0%Q); ("travel", 0%Q);
     ("meals", 0%Q); ("marketing", 0%Q); ("professional_services", 0%Q);
     ("insurance", 0%Q); ("taxes", 0%Q); ("other_expense", 0%Q); ("total", 0%Q)]
    0 0.

Definition group_eqb (a b : TransactionType * string) : bool :=
  type_eqb (fst a) (fst b) && String.eqb (snd a) (snd b).

(** One round of the loop over the rows of the query. *)
Definition add_row (tc : tax_categories) (r : (TransactionType * string) * Q)
  : tax_categories :=
  let '((txn_type, category), amount) := r in
  if type_eqb txn_type INCOME then
    let income :=
      if bucket_has category (income tc)
      then bucket_add category amount (income tc)
      else bucket_add "other_income" amount (income tc) in
    mkTaxCategories (bucket_add "total" amount income) (expenses tc)
      (net_profit tc) (estimated_tax tc)
  else
    let expenses :=
      if bucket_has category (expenses tc)
      then bucket_add category amount (expenses tc)
      else bucket_add "other_expense" amount (expenses tc) in
    mkTaxCategories (income tc) (bucket_add "total" amount expenses)
      (net_profit tc) (estimated_tax tc).

(** ['total'] of a dictionary of the report. *)
Definition total_of (d : buckets) : Q :=
  match bucket_get "total" d with Some v => v | None => 0%Q end.

(** [GET /api/reports/tax-summary]; [fiscal_year] is the parsed (or
    default) year of the request.  [datetime(fiscal_year, 1, 1)] raises for a
    year outside [MINYEAR .. MAXYEAR], and the route does not catch it. *)
Definition tax_summary_report (txns : list Transaction) (current_user_id : Z)
    (fiscal_year : Z) : result report :=
  check (MINYEAR <=? fiscal_year) && (fiscal_year <=? MAXYEAR)
    else_raise (ValueError ("year " ++ NilZero.string_of_int (Z.to_int fiscal_year)
                            ++ " is out of range")) ;;
  let start_date := mkdate fiscal_year 1 1 in
  let end_date := mkdate fiscal_year 12 31 in
  let transactions :=
    group_sum group_eqb (fun t => (txn_type t, category t))
      (filter (selected current_user_id start_date end_date) txns) in
  let tc := fold_left add_row transactions initial in
  let net_profit := (total_of (income tc) - total_of (expenses tc))%Q in
  let estimated_tax := (net_profit * (30 # 100))%Q in
  Ok (mkReport fiscal_year start_date end_date
        (mkTaxCategories (income tc) (expenses tc) net_profit estimated_tax)).

End TaxSummary.

(** ** The summary of the invoices ([GET /api/invoices/summary]) *)

Module InvoiceSummary.

Record group : Type := mkGroup {
  count : Z;
  amount : Q
}.

Record summary : Type := mkSummary {
  total_invoices : Z;
  total_amount : Q;
  total_paid : Q;
  total_due : Q;
  by_status : list (string * group);
  by_client : list (string * group)
}.

Inductive response : Type :=
| BadRequest (msg : string)
| Summary (s : summary).

(** [if k not in d: d[k] = {'count': 0, 'amount': 0}], then
    [d[k]['count'] += 1] and [d[k]['amount'] += a]. *)
Fixpoint bump (k : string) (a : Q) (d : list (string * group)) : list (string * group) :=
  match d with
  | [] => [(k, mkGroup (0 + 1) (0 + a)%Q)]
  | (k', g) :: d' =>
      if String.eqb k' k then (k', mkGroup (count g + 1) (amount g + a)%Q) :: d'
      else (k', g) :: bump k a d'
  end.

(** One round of the loop over the invoices.  The name of the invoice's
    client ([invoice.client.name if invoice.client else 'Unknown']) is the
    argument [client_name]: the [Client] model is not part of the sources at
    hand. *)
Definition add_invoice (client_name : Invoice -> string) (s : summary) (invoice : Invoice)
  : summary :=
  mkSummary (total_invoices s)
    (total_amount s + total invoice)%Q
    (total_paid s + amount_paid invoice)%Q
    (total_due s + amount_due invoice)%Q
    (bump (InvoiceStatus_value (status invoice)) (total invoice) (by_status s))
    (bump (client_name invoice) (total invoice) (by_client s)).

(** A date argument of the request: absent or empty, a date, or an error. *)
Definition date_arg {py : PyLib} (arg : option string) : result (option date) :=
  match arg with
  | None | Some EmptyString => Ok None
  | Some s =>
      match strptime s with
      | Some d => Ok (Some d)
      | None => Raise (ValueError "time data does not match format '%Y-%m-%d'")
      end
  end.

(** [query.filter(Invoice.issue_date >= start_date)], when there is one. *)
Definition from_date (start_date : option date) (i : Invoice) : bool :=
  match start_date with Some d => date_leb d (issue_date i) | None => true end.

Definition to_date (end_date : option date) (i : Invoice) : bool :=
  match end_date with Some d => date_leb (issue_date i) d | None => true end.

Definition get_invoice_summary {py : PyLib} (client_name : Invoice -> string) (db : Db)
    (current_user_id : Z) (start_date end_date : option string) : response :=
  match date_arg start_date with
  | Raise _ => BadRequest "Invalid start_date format. Use YYYY-MM-DD"
  | Ok start_date =>
      match date_arg end_date with
      | Raise _ => BadRequest "Invalid end_date format. Use YYYY-MM-DD"
      | Ok end_date =>
          let invoices :=
            filter (to_date end_date)
              (filter (from_date start_date)
                 (filter (fun i => user_id i =? current_user_id) (invoices db))) in
          Summary
            (fold_left (add_invoice client_name) invoices
               (mkSummary (Z.of_nat (List.length invoices)) 0 0 0 [] []))
      end
  end.

End InvoiceSummary.

(** * Vocabulary of the properties *)

(** The derived money fields of an invoice are those of its items and
    payments. *)
Definition totals_consistent (i : Invoice) : Prop :=
  subtotal i = sum (map amount (items i))
  /\ tax_amount i = (subtotal i * (tax_rate i / 100))%Q
  /\ total i = (subtotal i + tax_amount i)%Q
  /\ amount_due i = (total i - amount_paid i)%Q.

(** The amount of an item is that of its quantity, price and tax rate. *)
Definition item_consistent (it : InvoiceItem) : Prop :=
  amount it = (quantity it * unit_price it * (1 + item_tax_rate it / 100))%Q.

(** An invoice of user 1 with one item of 270.00, nothing paid. *)
Definition invoice_270 (st : InvoiceStatus) : Invoice :=
  mkInvoice 1 "INV-202401-0001" (mkdate 2024 1 1) (mkdate 2024 1 31) st
    JNull JNull 0 270 0 270 0 270 (JStr "USD") 1 (JNum 7) JNull
    [mkItem (Some 1) (JStr "Design") 1 270 0 270].

(** The same invoice, paid in full. *)
Definition invoice_paid : Invoice :=
  mkInvoice 1 "INV-202401-0001" (mkdate 2024 1 1) (mkdate 2024 1 31) PAID
    JNull JNull 0 270 0 270 270 0 (JStr "USD") 1 (JNum 7) JNull
    [mkItem (Some 1) (JStr "Design") 1 270 0 270].

(** A string of digits. *)
Definition all_digits (s : string) : Prop :=
  forallb is_digit (list_ascii_of_string s) = true.

(** The year, the month and the sequence number an invoice number stands
    for, as [_generate_invoice_number] reads it. *)
Definition parsed (s : string) : option (N * N * N) :=
  match match_invoice_number s with
  | Some (g1, g2, g3) =>
      match int_of_digits g1, int_of_digits g2, int_of_digits g3 with
      | Some y, Some m, Some n => Some (y, m, n)
      | _, _, _ => None
      end
  | None => None
  end.

(** The calendar months from the month [m] of the year [y] on, [n] of
    them. *)
Fixpoint month_seq (y m : Z) (n : nat) : list (Z * Z) :=
  match n with
  | O => []
  | S n' => (y, m) :: (if m =? 12 then month_seq (y + 1) 1 n' else month_seq y (m + 1) n')
  end.

(** The calendar months from that of a date through that of another. *)
Definition months_between (first last : date) : list (Z * Z) :=
  month_seq (year first) (month first)
    (Z.to_nat (12 * (year last - year first) + (month last - month first) + 1)).

Definition month_name (ym : Z * Z) : string :=
  year_month (mkdate (fst ym) (snd ym) 1).

(** The start of the cash-flow window in the words of the specification:
    the first day of the month that is [months] months before [end_date]. *)
Definition spec_start_date (end_date : date) (months : Z) : date :=
  let months_since_0 := 12 * year end_date + (month end_date - 1) - months in
  mkdate (months_since_0 / 12) (months_since_0 mod 12 + 1) 1.

(** The periods of the cash-flow report in the words of the specification. *)
Definition spec_periods (end_date : date) (months : Z) : list string :=
  map month_name (months_between (spec_start_date end_date months) end_date).

(** ** Inputs of the scenarios *)

(** An invoice of user 2. *)
Definition other_users_invoice : Invoice :=
  mkInvoice 2 "INV-202401-0002" (mkdate 2024 1 5) (mkdate 2024 2 5) DRAFT
    JNull JNull 0 80 0 80 0 80 (JStr "USD") 2 (JNum 3) JNull
    [mkItem (Some 2) (JStr "Audit") 1 80 0 80].

(** A library for the examples: dates written [YYYY-MM-DD] with all their
    digits, numbers written as strings of digits. *)
Definition valid_dateb (d : date) : bool :=
  (MINYEAR <=? year d) && (year d <=? MAXYEAR) && (1 <=? month d) && (month d <=? 12)
  && (1 <=? day d) && (day d <=? days_in_month (year d) (month d)).

Definition example_strptime (s : string) : option date :=
  match take_digits 4 s with
  | Some (y, r1) =>
      match strip_prefix "-" r1 with
      | Some r2 =>
          match take_digits 2 r2 with
          | Some (m, r3) =>
              match strip_prefix "-" r3 with
              | Some r4 =>
                  match take_digits 2 r4 with
                  | Some (d, EmptyString) =>
                      match int_of_digits y, int_of_digits m, int_of_digits d with
                      | Some y, Some m, Some d =>
                          let r := mkdate (Z.of_N y) (Z.of_N m) (Z.of_N d) in
                          if valid_dateb r then Some r else None
                      | _, _, _ => None
                      end
                  | _ => None
                  end
              | None => None
              end
          | None => None
          end
      | None => None
      end
  | None => None
  end.

Definition example_number (s : string) : option Q :=
  match s with
  | EmptyString => None
  | _ => if forallb is_digit (list_ascii_of_string s)
         then option_map (fun n => inject_Z (Z.of_N n)) (int_of_digits s)
         else None
  end.

Definition example_lib : PyLib :=
  Build_PyLib example_strptime example_number example_number.

Definition empty_db : Db := mkDb [] [].

(** The request of the scenario: two items, (2, 100.00, 10%) and
    (1, 50.00, 0%), and no tax on the invoice. *)
Definition scenario_design : json :=
  JObj [("description", JStr "Design"); ("quantity", JNum 2);
        ("unit_price", JNum 100); ("tax_rate", JNum 10)].

Definition scenario_hosting : json :=
  JObj [("description", JStr "Hosting"); ("quantity", JNum 1);
        ("unit_price", JNum 50); ("tax_rate", JNum 0)].

Definition scenario_items : json := JArr [scenario_design; scenario_hosting].

Definition scenario_data (client : json) (issue due : string) : dict :=
  [("client_id", client); ("issue_date", JStr issue); ("due_date", JStr due);
   ("tax_rate", JNum 0); ("items", scenario_items)].

(** A store for the numbering: user 1 has the invoices 5 and 2, stored in
    this order, and user 2 has the invoice 9, stored last. *)
Definition numbered (ident : Z) (number : string) (u : Z) : Invoice :=
  mkInvoice ident number (mkdate 2024 1 1) (mkdate 2024 1 31) DRAFT
    JNull JNull 0 0 0 0 0 0 (JStr "USD") u (JNum 7) JNull [].

Definition numbering_db : Db :=
  mkDb [numbered 5 "INV-202401-0007" 1; numbered 2 "INV-202401-0003" 1;
        numbered 9 "INV-202401-0042" 2] [].

(** [route_step u db db']: a request of the user [u] to one of the invoice
    routes took the store from [db] to [db']. *)
Inductive route_step {py : PyLib} (u : Z) : Db -> Db -> Prop :=
| step_update db invoice_id data r db' :
    InvoiceRoutes.update_invoice db u invoice_id data = (r, db') ->
    route_step u db db'
| step_send db invoice_id r db' :
    InvoiceRoutes.send_invoice db u invoice_id = (r, db') ->
    route_step u db db'
| step_payment db invoice_id data r db' :
    InvoiceRoutes.record_payment db u invoice_id data = (r, db') ->
    route_step u db db'
| step_delete on_delete db invoice_id r db' :
    InvoiceRoutes.delete_invoice on_delete db u invoice_id = (r, db') ->
    route_step u db db'
| step_create db data today r db' :
    InvoiceRoutes.create_invoice db u data today = (r, db') ->
    route_step u db db'.

(** The primary keys and the numbers of the stored invoices are distinct. *)
Definition keys_unique (db : Db) : Prop :=
  NoDup (map id (invoices db)) /\ NoDup (map invoice_number (invoices db)).

(** The sum of a quantity over the elements that pass a test. *)
Definition sum_where {A} (value : A -> Q) (test : A -> bool) (l : list A) : Q :=
  sum (map value (filter test l)).

(** The transactions of a report: those of the user with a date in the
    window. *)
Definition in_window (u : Z) (start_date end_date : date) (txns : list Transaction)
  : list Transaction :=
  filter (selected u start_date end_date) txns.

(** Entries in ascending order of their periods. *)
Definition ascending (data : list IncomeExpense.entry) : Prop :=
  Sorted (fun a b => IncomeExpense.key_leb (IncomeExpense.period a) (IncomeExpense.period b) = true)
    data.

(** A ledger of two users over two months. *)
Definition scenario_ledger : list Transaction :=
  [mkTransaction 1 (mkdate 2024 2 3) 200 "Retainer" None false INCOME "service"
     1 JNull None;
   mkTransaction 2 (mkdate 2024 1 15) 500 "Consulting" None false INCOME "service"
     1 JNull None;
   mkTransaction 3 (mkdate 2024 1 20) 120 "Rent" None false EXPENSE "rent"
     1 JNull None;
   mkTransaction 4 (mkdate 2024 1 25) 50 "To savings" None false TRANSFER "other_expense"
     1 JNull None;
   mkTransaction 5 (mkdate 2024 1 21) 999 "Other user" None false EXPENSE "rent"
     2 JNull None].

(** The amount under a name of a dictionary of the tax summary. *)
Definition bucket_value (k : string) (d : TaxSummary.buckets) : Q :=
  match TaxSummary.bucket_get k d with Some v => v | None => 0%Q end.

(** The entries of a dictionary of the tax summary other than its total. *)
Definition named (d : TaxSummary.buckets) : TaxSummary.buckets :=
  filter (fun p => negb (String.eqb (fst p) "total")) d.

(** The name under which the tax summary adds the amount of a row: the
    category when the dictionary of its side has it, the rest entry of the
    side otherwise. *)
Definition income_bucket (category : string) : string :=
  if TaxSummary.bucket_has category (TaxSummary.income TaxSummary.initial)
  then category else "other_income".

Definition expense_bucket (category : string) : string :=
  if TaxSummary.bucket_has category (TaxSummary.expenses TaxSummary.initial)
  then category else "other_expense".

(** A ledger of one year with interest income and a transfer. *)
Definition tax_ledger : list Transaction :=
  [mkTransaction 1 (mkdate 2024 2 3) 200 "Retainer" None false INCOME "service"
     1 JNull None;
   mkTransaction 2 (mkdate 2024 3 15) 40 "Interest" None false INCOME "interest"
     1 JNull None;
   mkTransaction 3 (mkdate 2024 1 20) 120 "Rent" None false EXPENSE "rent"
     1 JNull None;
   mkTransaction 4 (mkdate 2024 1 25) 50 "To savings" None false TRANSFER "other_expense"
     1 JNull None;
   mkTransaction 5 (mkdate 2023 12 31) 75 "Last year" None false INCOME "service"
     1 JNull None].

(** What a row adds under a name, on each side. *)
Definition income_share (k : string) (r : (TransactionType * string) * Q) : Q :=
  if type_eqb (fst (fst r)) INCOME
  then (if String.eqb k (income_bucket (snd (fst r))) then snd r else 0)
       + (if String.eqb k "total" then snd r else 0)
  else 0.

Definition expense_share (k : string) (r : (TransactionType * string) * Q) : Q :=
  if type_eqb (fst (fst r)) INCOME
  then 0
  else (if String.eqb k (expense_bucket (snd (fst r))) then snd r else 0)
       + (if String.eqb k "total" then snd r else 0).

(** The sum of a list of counts. *)
Definition Zsum (l : list Z) : Z := fold_right Z.add 0 l.

(** The invoices of a summary: those of the user, issued within the
    dates that are given. *)
Definition summarised (db : Db) (u : Z) (start_date end_date : option date)
  : list Invoice :=
  filter (InvoiceSummary.to_date end_date)
    (filter (InvoiceSummary.from_date start_date)
       (filter (fun i => user_id i =? u) (invoices db))).

(** The name of the client of an invoice, for the scenarios. *)
Definition example_client_name (i : Invoice) : string :=
  match client_id i with
  | JNum 7 => "Acme"
  | _ => "Unknown"
  end.

(** A store with two invoices of user 1, one paid and one sent, and one
    invoice of user 2. *)
Definition summary_db : Db :=
  mkDb
    [invoice_paid;
     mkInvoice 3 "INV-202402-0001" (mkdate 2024 2 10) (mkdate 2024 3 10) SENT
       JNull JNull 0 100 0 100 0 100 (JStr "USD") 1 (JNum 9) JNull
       [mkItem (Some 3) (JStr "Hosting") 1 100 0 100];
     other_users_invoice]
    [].

(** The sum of the amounts of the transactions of a type in a month, among
    the transactions of a report. *)
Definition of_month (ty : TransactionType) (name : string) (window : list Transaction) : Q :=
  sum_where txn_amount
    (fun t => String.eqb (year_month (txn_date t)) name && type_eqb (txn_type t) ty)
    window.

(** * Properties *)

(** ** Totals and status *)

Lemma calculate_totals_consistent (i : Invoice) :
  totals_consistent (calculate_totals i).
Proof. repeat split. Qed.

Lemma flush_items_amounts (db : Db) (i : Invoice) :
  map amount (items (flush_items db i)) = map amount (items i).
Proof.
  unfold flush_items. simpl.
  generalize (next_id (all_item_ids db)).
  induction (items i) as [|it l IH]; intros n; simpl; [reflexivity|].
  destruct (item_id it); simpl; now rewrite IH.
Qed.

Lemma flush_items_consistent (db : Db) (i : Invoice) :
  totals_consistent i -> totals_consistent (flush_items db i).
Proof.
  unfold totals_consistent. rewrite flush_items_amounts. auto.
Qed.

(** C5: [calculate_totals] sets the status to PAID when the recomputed
    amount due is at most zero, otherwise to PARTIALLY_PAID when something
    was paid, and otherwise leaves it as it was. *)
Theorem calculate_totals_status (i : Invoice) :
  let i' := calculate_totals i in
  amount_due i' = (sum (map amount (items i))
                   + sum (map amount (items i)) * (tax_rate i / 100)
                   - amount_paid i)%Q
  /\ ((amount_due i' <= 0)%Q -> status i' = PAID)
  /\ (~ (amount_due i' <= 0)%Q -> (0 < amount_paid i)%Q -> status i' = PARTIALLY_PAID)
  /\ (~ (amount_due i' <= 0)%Q -> ~ (0 < amount_paid i)%Q -> status i' = status i).
Proof.
  cbn zeta. unfold calculate_totals; simpl.
  set (due := (_ - amount_paid i)%Q).
  split; [reflexivity|].
  destruct (Qle_bool due 0) eqn:Hd.
  - apply Qle_bool_iff in Hd. repeat split; intros; try reflexivity; contradiction.
  - assert (~ (due <= 0)%Q) by (intro H; apply Qle_bool_iff in H; congruence).
    unfold Qlt_bool.
    destruct (Qle_bool (amount_paid i) 0) eqn:Hp; simpl.
    + apply Qle_bool_iff in Hp.
      repeat split; intros; try reflexivity; try contradiction.
      exfalso. eapply Qlt_not_le; eauto.
    + assert (0 < amount_paid i)%Q.
      { apply Qnot_le_lt. intro Hq. apply Qle_bool_iff in Hq. congruence. }
      repeat split; intros; try reflexivity; contradiction.
Qed.

Lemma calculate_totals_status_witness :
  status (calculate_totals (set_status SENT invoice_paid)) = PAID
  /\ status (calculate_totals
               (set_amount_paid 100 (invoice_270 SENT))) = PARTIALLY_PAID
  /\ status (calculate_totals (invoice_270 VIEWED)) = VIEWED.
Proof.
  split; [|split].
  - apply (calculate_totals_status (set_status SENT invoice_paid)).
    vm_compute. discriminate.
  - apply (calculate_totals_status (set_amount_paid 100 (invoice_270 SENT)));
      [vm_compute; intros H; now apply H|reflexivity].
  - apply (calculate_totals_status (invoice_270 VIEWED));
      vm_compute; intros H; [now apply H|discriminate H].
Defined.

(** ** Inversion of the exception monad *)

Lemma bind_Ok {A B} (r : result A) (k : A -> result B) (b : B) :
  bind r k = Ok b -> exists a, r = Ok a /\ k a = Ok b.
Proof. destruct r as [a|e]; simpl; [eauto | discriminate]. Qed.

Lemma handlers_Ok {A} (p f : string) (r : result A) (a : A) :
  handlers p f r = Ok a -> r = Ok a.
Proof. destruct r as [x|[]]; simpl; congruence. Qed.

Lemma transactional_Ok {A} (db db' : Db) (r : result (A * Db)) (a : A) :
  transactional db r = (Ok a, db') -> r = Ok (a, db').
Proof. destruct r as [[x d]|e]; simpl; congruence. Qed.

Lemma transactional_Raise {A} (db db' : Db) (r : result (A * Db)) (e : exn) :
  transactional db r = (Raise e, db') -> db' = db.
Proof. destruct r as [[x d]|e']; simpl; congruence. Qed.

(** Peels the binds and checks of a successful run. *)
Ltac invert_ok H :=
  repeat match type of H with
  | bind _ _ = Ok _ =>
      let a := fresh "v" in let E := fresh "E" in
      apply bind_Ok in H; destruct H as (a & E & H)
  | (if ?b then _ else Raise _) = Ok _ =>
      let E := fresh "E" in destruct b eqn:E; [|discriminate H]
  | (match ?x with Some _ => _ | None => Raise _ end) = Ok _ =>
      let E := fresh "E" in destruct x eqn:E; [|discriminate H]
  end.

Lemma for_each_invariant {A S} (P : S -> Prop) (body : S -> A -> result S) :
  (forall s x s', P s -> body s x = Ok s' -> P s') ->
  forall xs s s', P s -> for_each xs s body = Ok s' -> P s'.
Proof.
  intros Hbody. induction xs as [|x xs IH]; simpl; intros s s' Hs H.
  - congruence.
  - invert_ok H. eauto.
Qed.

(** ** Item amounts *)

Section ServiceFacts.
Context {py : PyLib}.

Lemma item_of_data_consistent ident item_data it :
  InvoiceService.item_of_data ident item_data = Ok it -> item_consistent it.
Proof.
  unfold InvoiceService.item_of_data. intros H. invert_ok H.
  injection H as <-. reflexivity.
Qed.

Lemma new_item_consistent item_data it :
  InvoiceService.new_item item_data = Ok it -> item_consistent it.
Proof.
  unfold InvoiceService.new_item. intros H. invert_ok H.
  eapply item_of_data_consistent; eauto.
Qed.

Lemma update_item_consistent st item_data st' :
  Forall item_consistent (snd st) ->
  InvoiceService.update_item st item_data = Ok st' ->
  Forall item_consistent (snd st').
Proof.
  destruct st as [ex acc]. unfold InvoiceService.update_item. simpl.
  intros Hacc H. invert_ok H.
  destruct v1 as [[k old]|]; invert_ok H; injection H as <-; simpl;
    apply Forall_app; split; auto; constructor; auto;
    eapply item_of_data_consistent; eauto.
Qed.

Lemma assign_item_ids_consistent l : forall n,
  Forall item_consistent l -> Forall item_consistent (assign_item_ids n l).
Proof.
  induction l as [|it l IH]; simpl; intros n H; [constructor|].
  inversion H; subst. destruct (item_id it); constructor; auto.
Qed.

(** [calculate_totals] raises on the new object, whose [amount_paid] is
    [None]: the body of [create_invoice] never reaches the commit. *)
Lemma create_invoice_body_raises db u data today :
  exists e, InvoiceService.create_invoice_body db u data today = Raise e.
Proof.
  destruct (InvoiceService.create_invoice_body db u data today) as [r|e] eqn:H;
    [exfalso|eauto].
  unfold InvoiceService.create_invoice_body in H. invert_ok H.
  match goal with
  | E : calculate_totals_of None _ = Ok _ |- _ => discriminate E
  end.
Qed.

Lemma create_invoice_raises db u data today :
  exists e, InvoiceService.create_invoice db u data today = (Raise e, db).
Proof.
  unfold InvoiceService.create_invoice.
  destruct (InvoiceService.first_missing data); [eauto|].
  destruct (get "items" data) as [[| | | |[|x l]|]|]; eauto.
  destruct (create_invoice_body_raises db u data today) as (e & ->).
  destruct e; cbn [handlers transactional]; eauto.
Qed.

Lemma update_invoice_body_Ok db invoice data inv db' :
  InvoiceService.update_invoice_body db invoice data = Ok (inv, db') ->
  totals_consistent inv
  /\ db' = store_invoice inv db
  /\ id inv = id invoice
  /\ amount_paid inv = amount_paid invoice
  /\ (Forall item_consistent (items invoice) \/ has "items" data = true ->
      Forall item_consistent (items inv)).
Proof.
  unfold InvoiceService.update_invoice_body. intros H.
  apply bind_Ok in H. destruct H as (inv1 & E1 & H).
  apply bind_Ok in H. destruct H as (inv2 & E2 & H).
  apply bind_Ok in H. destruct H as (inv3 & E3 & H).
  apply bind_Ok in H. destruct H as (inv5 & E5 & H).
  set (inv4 := InvoiceService.set_if_present "terms" _ _ _) in *.
  assert (K1 : items inv1 = items invoice /\ id inv1 = id invoice
               /\ amount_paid inv1 = amount_paid invoice).
  { destruct (get "issue_date" data); invert_ok E1; injection E1 as <-; auto. }
  assert (K2 : items inv2 = items inv1 /\ id inv2 = id inv1
               /\ amount_paid inv2 = amount_paid inv1).
  { destruct (get "due_date" data); invert_ok E2; injection E2 as <-; auto. }
  assert (K3 : items inv3 = items inv2 /\ id inv3 = id inv2
               /\ amount_paid inv3 = amount_paid inv2).
  { destruct (get "status" data); invert_ok E3; injection E3 as <-; auto. }
  assert (K4 : items inv4 = items inv3 /\ id inv4 = id inv3
               /\ amount_paid inv4 = amount_paid inv3).
  { subst inv4. unfold InvoiceService.set_if_present.
    destruct (get "terms" data), (get "notes" data), (get "currency" data),
      (get "project_id" data), (get "client_id" data); auto. }
  assert (K5 : id inv5 = id inv4 /\ amount_paid inv5 = amount_paid inv4
               /\ (Forall item_consistent (items inv4) \/ has "items" data = true ->
                   Forall item_consistent (items inv5))).
  { unfold has. destruct (get "items" data) as [j|].
    - invert_ok E5. injection E5 as <-. simpl. repeat split. intros _.
      eapply (for_each_invariant (fun st => Forall item_consistent (snd st)));
        [| |exact E0]; [|constructor].
      intros s x s' Hs Hb. eapply update_item_consistent; eauto.
    - injection E5 as <-. repeat split. intros [Hi|Hi]; [exact Hi|discriminate]. }
  invert_ok H. injection H as <- <-.
  destruct K1 as (I1 & A1 & P1), K2 as (I2 & A2 & P2), K3 as (I3 & A3 & P3),
    K4 as (I4 & A4 & P4), K5 as (A5 & P5 & I5).
  split; [apply flush_items_consistent; repeat split|].
  split; [reflexivity|].
  split; [simpl; congruence|].
  split; [simpl; congruence|].
  intros Hc. simpl. apply assign_item_ids_consistent. apply I5.
  destruct Hc as [Hc|Hc]; [left|right; exact Hc].
  rewrite I4, I3, I2, I1. exact Hc.
Qed.

Lemma update_invoice_Ok db invoice data inv db' :
  InvoiceService.update_invoice db invoice data = (Ok inv, db') ->
  InvoiceService.update_invoice_body db invoice data = Ok (inv, db').
Proof.
  unfold InvoiceService.update_invoice.
  intros H. apply transactional_Ok in H. now apply handlers_Ok in H.
Qed.

Lemma record_payment_body_Ok db invoice amount payment_date inv t db' :
  InvoiceService.record_payment_body db invoice amount payment_date = Ok (inv, t, db') ->
  exists a, Decimal_str amount = Ok a
    /\ (0 < a)%Q /\ (a <= amount_due invoice)%Q
    /\ inv = calculate_totals (set_amount_paid (amount_paid invoice + a)%Q invoice)
    /\ db' = add_transaction t (store_invoice inv db)
    /\ txn_amount t = a /\ txn_type t = INCOME /\ category t = "service"
    /\ txn_invoice_id t = Some (id invoice)
    /\ txn_project_id t = project_id invoice.
Proof.
  unfold InvoiceService.record_payment_body. intros H. invert_ok H.
  injection H as <- <- <-. exists v. repeat split; auto.
  - unfold Qlt_bool in E0. apply Qnot_le_lt. intro Hq.
    apply Qle_bool_iff in Hq. rewrite Hq in E0. discriminate.
  - now apply Qle_bool_iff.
Qed.

Lemma record_payment_Ok db invoice amount payment_date inv t db' :
  InvoiceService.record_payment db invoice amount payment_date = (Ok (inv, t), db') ->
  InvoiceService.record_payment_body db invoice amount payment_date = Ok (inv, t, db').
Proof.
  unfold InvoiceService.record_payment.
  intros H. apply transactional_Ok in H. now apply handlers_Ok in H.
Qed.

End ServiceFacts.

(** ** The routes, case by case *)

Section RouteFacts.
Context {py : PyLib}.

Lemma route_update_invoice_body db u invoice_id data r inv db' :
  InvoiceRoutes.update_invoice db u invoice_id data = (r, db') ->
  body r = Some inv ->
  exists invoice,
    find_invoice db invoice_id u = Some invoice
    /\ InvoiceService.update_invoice db invoice data = (Ok inv, db').
Proof.
  unfold InvoiceRoutes.update_invoice.
  destruct (find_invoice db invoice_id u) as [invoice|];
    [|intros [= <- <-]; discriminate].
  destruct (_ && _); [intros [= <- <-]; discriminate|].
  destruct (_ || _); [intros [= <- <-]; discriminate|].
  destruct (InvoiceService.update_invoice db invoice data) as [[x|[]] d] eqn:E;
    intros [= <- <-]; simpl; try discriminate.
  intros [= ->]. eauto.
Qed.

(** The route that records a payment answers no request with 200, and
    stores nothing. *)
Lemma route_record_payment_cases db u invoice_id data :
  let (r, db') := InvoiceRoutes.record_payment db u invoice_id data in
  body r = None /\ code r <> 200 /\ db' = db.
Proof.
  unfold InvoiceRoutes.record_payment.
  destruct (_ || _); [repeat split; discriminate|].
  destruct (InvoiceRoutes.float_of _) as [a|] eqn:Ea; [|repeat split; discriminate].
  destruct (Qle_bool a 0) eqn:Hle; [repeat split; discriminate|].
  destruct (find_invoice db invoice_id u) as [invoice|] eqn:Ef;
    [|repeat split; discriminate].
  destruct (status_eqb (status invoice) VOID) eqn:Ev; [repeat split; discriminate|].
  destruct (parse_date _ _) as [d|[]] eqn:Ed; repeat split; discriminate.
Qed.

End RouteFacts.

(** ** Totals after a commit *)

(** C1: the four formulas hold of the invoice as [calculate_totals] leaves
    it in memory, but not of what the store holds and returns after the
    commit, where each [Numeric(12, 2)] column is rounded on its own.  A
    payment of 0.005 on an invoice of 270.00 leaves [amount_paid] 0.01,
    [total] 270.00 and [amount_due] 270.00 (269.995 rounded): the amount
    due is not the total less the amount paid. *)
Theorem payment_totals_after_commit {py : PyLib} :
  exists inv t db',
    InvoiceService.record_payment (mkDb [invoice_270 SENT] []) (invoice_270 SENT)
      (JNum (5 # 1000)) (mkdate 2024 2 1) = (Ok (inv, t), db')
    /\ totals_consistent inv
    /\ total (persisted inv) = 270%Q
    /\ amount_paid (persisted inv) = (1 # 100)%Q
    /\ amount_due (persisted inv) = 270%Q
    /\ ~ (amount_due (persisted inv)
          == total (persisted inv) - amount_paid (persisted inv))%Q.
Proof.
  eexists. eexists. eexists. split; [reflexivity|].
  split; [apply calculate_totals_consistent|].
  vm_compute. repeat split. intros H. discriminate H.
Qed.

(** ** The scenario of creation *)

Lemma create_invoice_type_error {py : PyLib} db u data today x l s1 s2 d1 d2 rate its :
  InvoiceService.first_missing data = None ->
  get "items" data = Some (JArr (x :: l)) ->
  get "issue_date" data = Some (JStr s1) -> strptime s1 = Some d1 ->
  get "due_date" data = Some (JStr s2) -> strptime s2 = Some d2 ->
  date_ltb d2 d1 = false ->
  Decimal_str (get_default "tax_rate" (JNum 0) data) = Ok rate ->
  for_each (x :: l) []
    (fun acc item_data =>
       it <- InvoiceService.new_item item_data ;; Ok (acc ++ [it])%list) = Ok its ->
  InvoiceService.create_invoice db u data today
  = (Raise (Exception ("Failed to create invoice: " ++ str_exn TypeError)), db).
Proof.
  intros H Hitems Hi H1 Hd H2 Hlt Hrate Hits.
  unfold InvoiceService.create_invoice, InvoiceService.create_invoice_body.
  rewrite H, Hitems. unfold get_default in *. rewrite Hi, Hd, Hitems.
  cbn [parse_date]. rewrite H1, H2. cbn [bind]. rewrite Hlt. cbn [negb].
  rewrite Hrate. cbn [bind iterate]. rewrite Hits. reflexivity.
Qed.

(** C8: the two items of the scenario get the amounts
    [quantity * unit_price * (1 + tax_rate / 100)], 220 and 50, but no
    invoice comes of them: [calculate_totals] runs on the new object before
    it is stored, while its [amount_paid] is [None], and raises
    [TypeError]; [create_invoice] rolls back and raises its own exception.
    Nothing is stored: there is no invoice with subtotal, total and amount
    due 270.00 and status DRAFT. *)
Theorem scenario_invoice_not_created {py : PyLib} (db : Db) (u : Z) (client : json)
    (issue due : string) (d1 d2 : date) (today : date) :
  strptime issue = Some d1 -> strptime due = Some d2 -> date_ltb d2 d1 = false ->
  (exists design hosting,
      InvoiceService.new_item scenario_design = Ok design
      /\ InvoiceService.new_item scenario_hosting = Ok hosting
      /\ item_consistent design /\ item_consistent hosting
      /\ (amount design == 220)%Q /\ (amount hosting == 50)%Q)
  /\ InvoiceService.create_invoice db u (scenario_data client issue due) today
     = (Raise (Exception ("Failed to create invoice: " ++ str_exn TypeError)), db)
  /\ forall inv db',
       InvoiceService.create_invoice db u (scenario_data client issue due) today
       <> (Ok inv, db').
Proof.
  intros H1 H2 Hlt.
  assert (E : InvoiceService.create_invoice db u (scenario_data client issue due) today
              = (Raise (Exception ("Failed to create invoice: " ++ str_exn TypeError)),
                 db)).
  { eapply (create_invoice_type_error db u _ today scenario_design [scenario_hosting]
              issue due d1 d2 0); try reflexivity; eassumption. }
  split; [|split; [exact E|intros inv db'; rewrite E; discriminate]].
  eexists. eexists. split; [reflexivity|]. split; [reflexivity|].
  split; [reflexivity|]. split; [reflexivity|]. split; vm_compute; reflexivity.
Qed.

Lemma scenario_invoice_not_created_witness :
  InvoiceService.create_invoice (py := example_lib) empty_db 1
    (scenario_data (JNum 7) "2024-01-01" "2024-01-31") (mkdate 2024 1 15)
  = (Raise (Exception ("Failed to create invoice: " ++ str_exn TypeError)), empty_db).
Proof.
  apply (scenario_invoice_not_created (py := example_lib) empty_db 1 (JNum 7)
           "2024-01-01" "2024-01-31" (mkdate 2024 1 1) (mkdate 2024 1 31)
           (mkdate 2024 1 15)); reflexivity.
Defined.

(** ** The lock on paid invoices *)



Lemma status_eqb_eq (a b : InvoiceStatus) : status_eqb a b = true <-> a = b.
Proof. destruct a, b; split; intros H; try reflexivity; discriminate H. Qed.



(** ** Sending an invoice *)

Lemma find_invoice_Some (db : Db) (invoice_id u : Z) (invoice : Invoice) :
  find_invoice db invoice_id u = Some invoice ->
  id invoice = invoice_id /\ user_id invoice = u /\ In invoice (invoices db).
Proof.
  unfold find_invoice. intros H. apply find_some in H. destruct H as (Hin & H).
  apply andb_true_iff in H. destruct H as (H1 & H2).
  apply Z.eqb_eq in H1, H2. auto.
Qed.

Lemma find_invoice_store (db : Db) (invoice_id u : Z) (invoice inv' : Invoice) :
  find_invoice db invoice_id u = Some invoice ->
  id inv' = id invoice -> user_id inv' = user_id invoice ->
  find_invoice (store_invoice inv' db) invoice_id u = Some inv'.
Proof.
  intros Hf Hid Hu. destruct (find_invoice_Some _ _ _ _ Hf) as (Ei & Eu & _).
  revert Hf. unfold find_invoice, store_invoice. cbn [invoices].
  induction (invoices db) as [|i l IH]; cbn [find map]; [discriminate|].
  destruct (id i =? id inv') eqn:E.
  - intros _. rewrite Hid, Hu, Ei, Eu, !Z.eqb_refl. reflexivity.
  - destruct ((id i =? invoice_id) && (user_id i =? u)) eqn:E2; [|exact IH].
    intros [= ->]. rewrite Hid, Z.eqb_refl in E. discriminate.
Qed.

(** C10: [POST /api/invoices/<id>/send] leaves the invoice with the status
    SENT whatever its status was, PAID, VOID and UNCOLLECTIBLE included,
    whereas [InvoiceService.send_invoice] changes the status of a DRAFT
    only. *)
Theorem route_send_ignores_status (db : Db) (u invoice_id : Z) (invoice : Invoice) :
  find_invoice db invoice_id u = Some invoice ->
  (exists sent,
      InvoiceRoutes.send_invoice db u invoice_id
        = (mkResponse 200 "Invoice sent successfully" (Some sent), store_invoice sent db)
      /\ status sent = SENT
      /\ find_invoice (store_invoice sent db) invoice_id u = Some sent)
  /\ (forall send_email client_email,
        snd (InvoiceService.send_invoice db invoice send_email client_email)
        = if status_eqb (status invoice) DRAFT
          then store_invoice (set_status SENT invoice) db
          else db).
Proof.
  intros Hf. split.
  - unfold InvoiceRoutes.send_invoice. rewrite Hf.
    exists (set_status SENT invoice). split; [reflexivity|]. split; [reflexivity|].
    eapply find_invoice_store; [exact Hf|reflexivity|reflexivity].
  - intros send_email client_email. unfold InvoiceService.send_invoice.
    destruct send_email; [destruct client_email as [[|c s]|]|]; reflexivity.
Qed.

Lemma route_send_ignores_status_witness :
  (exists sent,
      InvoiceRoutes.send_invoice (mkDb [invoice_paid] []) 1 1
        = (mkResponse 200 "Invoice sent successfully" (Some sent),
           store_invoice sent (mkDb [invoice_paid] []))
      /\ status sent = SENT
      /\ find_invoice (store_invoice sent (mkDb [invoice_paid] [])) 1 1 = Some sent)
  /\ (forall send_email client_email,
        snd (InvoiceService.send_invoice (mkDb [invoice_paid] []) invoice_paid
               send_email client_email)
        = mkDb [invoice_paid] []).
Proof.
  exact (route_send_ignores_status (mkDb [invoice_paid] []) 1 1 invoice_paid eq_refl).
Defined.

(** The route sends a VOID and an UNCOLLECTIBLE invoice alike. *)
Example route_send_terminal :
  map (fun st => option_map status
                   (body (fst (InvoiceRoutes.send_invoice (mkDb [invoice_270 st] []) 1 1))))
      [PAID; VOID; UNCOLLECTIBLE]
  = [Some SENT; Some SENT; Some SENT].
Proof. reflexivity. Qed.

(** ** Recording a payment *)

Section PaymentFacts.
Context {py : PyLib}.






End PaymentFacts.



(** The route gives the same answer to a payment within the amount due:
    the failure is not a refusal of the overpayment. *)
Example route_payment_within_due :
  InvoiceRoutes.record_payment (py := example_lib) (mkDb [invoice_270 SENT] []) 1 1
    [("amount", JNum 100); ("payment_date", JStr "2024-02-01")]
  = (error_response 500 "Failed to record payment", mkDb [invoice_270 SENT] []).
Proof. reflexivity. Qed.

(** C6, at the service: [InvoiceService.record_payment] has no check of the
    status.  A payment on a VOID invoice is recorded, and the invoice comes
    out PAID or PARTIALLY_PAID. *)
Theorem service_records_payment_on_void {py : PyLib} (db : Db) (invoice : Invoice)
    (amount : json) (a : Q) (payment_date : date) :
  status invoice = VOID ->
  Decimal_str amount = Ok a ->
  (0 < a)%Q -> (a <= amount_due invoice)%Q -> (0 <= amount_paid invoice)%Q ->
  exists inv t,
    InvoiceService.record_payment db invoice amount payment_date
      = (Ok (inv, t), add_transaction t (store_invoice inv db))
    /\ amount_paid inv = (amount_paid invoice + a)%Q
    /\ (status inv = PAID \/ status inv = PARTIALLY_PAID).
Proof.
  intros Hvoid Ha Hpos Hle Hpaid.
  unfold InvoiceService.record_payment, InvoiceService.record_payment_body.
  rewrite Ha. cbn [bind]. unfold Qlt_bool at 1.
  destruct (Qle_bool a 0) eqn:E0.
  { apply Qle_bool_iff in E0. exfalso. exact (Qlt_not_le _ _ Hpos E0). }
  cbn [negb]. apply Qle_bool_iff in Hle. rewrite Hle.
  cbn [handlers transactional]. eexists. eexists. split; [reflexivity|].
  split; [reflexivity|].
  unfold calculate_totals. cbn [status amount_paid set_amount_paid items tax_rate].
  match goal with
  | |- context [Qle_bool ?due 0] => destruct (Qle_bool due 0); [left; reflexivity|]
  end.
  unfold Qlt_bool.
  destruct (Qle_bool (amount_paid invoice + a) 0) eqn:E1; [|right; reflexivity].
  apply Qle_bool_iff in E1. exfalso.
  apply (Qlt_not_le 0 (amount_paid invoice + a)); [|exact E1].
  apply (Qlt_le_trans _ (0 + a)); [now rewrite Qplus_0_l|].
  now apply Qplus_le_l.
Qed.

Lemma service_records_payment_on_void_witness :
  exists inv t,
    InvoiceService.record_payment (py := example_lib) (mkDb [invoice_270 VOID] [])
      (invoice_270 VOID) (JNum 100) (mkdate 2024 2 1)
      = (Ok (inv, t), add_transaction t (store_invoice inv (mkDb [invoice_270 VOID] [])))
    /\ amount_paid inv = (amount_paid (invoice_270 VOID) + 100)%Q
    /\ (status inv = PAID \/ status inv = PARTIALLY_PAID).
Proof.
  apply (service_records_payment_on_void (py := example_lib) (mkDb [invoice_270 VOID] [])
           (invoice_270 VOID) (JNum 100) 100 (mkdate 2024 2 1));
    try reflexivity; vm_compute; discriminate.
Defined.

(** ** Invoice numbers *)

Lemma string_of_uint_digits (d : Decimal.uint) :
  all_digits (NilEmpty.string_of_uint d).
Proof.
  unfold all_digits. induction d; simpl; auto.
Qed.

Lemma zeros_digits (k : nat) : all_digits (zeros k).
Proof. unfold all_digits. induction k; simpl; auto. Qed.

Lemma all_digits_app (s t : string) :
  all_digits s -> all_digits t -> all_digits (s ++ t).
Proof.
  unfold all_digits. induction s as [|c s IH]; simpl; intros Hs Ht; [exact Ht|].
  apply andb_true_iff in Hs. destruct Hs as (Hc & Hs).
  rewrite Hc. simpl. auto.
Qed.

Lemma zfill_digits (w : nat) (n : N) : all_digits (zfill w n).
Proof.
  unfold zfill. apply all_digits_app; [apply zeros_digits|apply string_of_uint_digits].
Qed.

Lemma take_digits_app (g r : string) :
  all_digits g -> take_digits (String.length g) (g ++ r) = Some (g, r).
Proof.
  unfold all_digits. induction g as [|c g IH]; simpl; intros H; [reflexivity|].
  apply andb_true_iff in H. destruct H as (Hc & Hg).
  rewrite Hc, IH by exact Hg. reflexivity.
Qed.

Lemma span_digits_all (g : string) :
  all_digits g -> span_digits g = (g, "").
Proof.
  unfold all_digits. induction g as [|c g IH]; simpl; intros H; [reflexivity|].
  apply andb_true_iff in H. destruct H as (Hc & Hg).
  rewrite Hc, IH by exact Hg. reflexivity.
Qed.

Lemma uint_of_string_zeros (k : nat) (s : string) (d : Decimal.uint) :
  NilEmpty.uint_of_string s = Some d ->
  exists d', NilEmpty.uint_of_string (zeros k ++ s) = Some d'
             /\ N.of_uint d' = N.of_uint d.
Proof.
  intros H. induction k as [|k (d' & E & Hd)]; simpl; [eauto|].
  rewrite E. simpl. eauto.
Qed.

Lemma int_of_digits_str_N (n : N) : int_of_digits (str_N n) = Some n.
Proof.
  unfold int_of_digits, str_N. rewrite NilEmpty.usu. simpl.
  now rewrite DecimalN.Unsigned.of_to.
Qed.

Lemma int_of_digits_zfill (w : nat) (n : N) : int_of_digits (zfill w n) = Some n.
Proof.
  unfold int_of_digits, zfill, str_N.
  destruct (uint_of_string_zeros
              (w - String.length (NilEmpty.string_of_uint (N.to_uint n)))
              _ _ (NilEmpty.usu (N.to_uint n))) as (d' & E & Hd).
  rewrite E. simpl. rewrite Hd. now rewrite DecimalN.Unsigned.of_to.
Qed.

Lemma zfill_nonempty (w : nat) (n : N) : zfill w n <> "".
Proof.
  intros H.
  assert (Hs : str_N n = "").
  { unfold zfill in H. destruct (zeros _); [exact H|discriminate]. }
  pose proof (int_of_digits_str_N n) as E. rewrite Hs in E.
  injection E as <-. discriminate Hs.
Qed.

(** The values of a range of numbers satisfy a test that holds of each. *)
Lemma N_range_forallb (P : N -> bool) (lo : N) (n : nat) :
  forallb P (map (fun k => (lo + N.of_nat k)%N) (seq 0 n)) = true ->
  forall x, (lo <= x < lo + N.of_nat n)%N -> P x = true.
Proof.
  intros H x Hx. rewrite forallb_forall in H. apply H.
  apply in_map_iff. exists (N.to_nat (x - lo)). split; [lia|].
  apply in_seq. lia.
Qed.

Lemma year_four_digits (y : N) :
  (1000 <= y <= 9999)%N -> String.length (str_N y) = 4%nat.
Proof.
  intros Hy. apply Nat.eqb_eq.
  apply (N_range_forallb (fun y => (String.length (str_N y) =? 4)%nat) 1000 (N.to_nat 9000));
    [vm_compute; reflexivity|lia].
Qed.

Lemma month_two_digits (m : N) :
  (m <= 99)%N -> String.length (zfill 2 m) = 2%nat.
Proof.
  intros Hm. apply Nat.eqb_eq.
  apply (N_range_forallb (fun m => (String.length (zfill 2 m) =? 2)%nat) 0 100);
    [vm_compute; reflexivity|lia].
Qed.

Lemma match_format (y m n : N) :
  (1000 <= y <= 9999)%N -> (m <= 99)%N ->
  match_invoice_number (format_invoice_number y m n)
  = Some (str_N y, zfill 2 m, zfill 4 n).
Proof.
  intros Hy Hm. unfold match_invoice_number, format_invoice_number.
  change (strip_prefix "INV-" ("INV-" ++ ?r)) with (Some r).
  cbv beta iota.
  rewrite <- (year_four_digits y Hy) at 1.
  rewrite take_digits_app by apply string_of_uint_digits.
  rewrite <- (month_two_digits m Hm) at 1.
  rewrite take_digits_app by apply zfill_digits.
  change (strip_prefix "-" ("-" ++ ?r)) with (Some r).
  cbv beta iota.
  rewrite span_digits_all by apply zfill_digits. cbn [fst].
  destruct (zfill 4 n) eqn:E; [|reflexivity].
  exfalso. exact (zfill_nonempty _ _ E).
Qed.

Lemma parsed_format (y m n : N) :
  (1000 <= y <= 9999)%N -> (m <= 99)%N ->
  parsed (format_invoice_number y m n) = Some (y, m, n).
Proof.
  intros Hy Hm. unfold parsed. rewrite match_format by assumption.
  now rewrite int_of_digits_str_N, !int_of_digits_zfill.
Qed.

Lemma next_sequence_parsed (inv : Invoice) (y m : N) :
  next_sequence (Some inv) y m
  = match parsed (invoice_number inv) with
    | Some (y', m', n) => if ((y' =? y) && (m' =? m))%N then (n + 1)%N else 1%N
    | None => 1%N
    end.
Proof.
  unfold next_sequence, parsed.
  destruct (String.eqb_spec (invoice_number inv) "") as [->|_]; [reflexivity|].
  destruct (match_invoice_number (invoice_number inv)) as [[[g1 g2] g3]|]; [|reflexivity].
  destruct (int_of_digits g1), (int_of_digits g2), (int_of_digits g3); reflexivity.
Qed.

Lemma latest_invoice_In (l : list Invoice) (u : Z) :
  forall best b,
    fold_left
      (fun best i =>
         if user_id i =? u then
           match best with
           | None => Some i
           | Some b => if id b <? id i then Some i else Some b
           end
         else best) l best = Some b ->
    In b l \/ best = Some b.
Proof.
  induction l as [|i l IH]; simpl; intros best b H; [auto|].
  apply IH in H. destruct H as [H|H]; [auto|].
  destruct (user_id i =? u); [|auto].
  destruct best as [b0|].
  - destruct (id b0 <? id i); injection H as <-; auto.
  - injection H as <-; auto.
Qed.

Lemma next_id_above (ids : list Z) (z : Z) : In z ids -> z < next_id ids.
Proof.
  unfold next_id. induction ids as [|a ids IH]; simpl; [tauto|].
  intros [->|H]; [lia|]. apply IH in H. lia.
Qed.

Lemma NoDup_map_inj {A B} (f : A -> B) (l : list A) (x y : A) :
  NoDup (map f l) -> In x l -> In y l -> f x = f y -> x = y.
Proof.
  induction l as [|a l IH]; simpl; intros Hnd Hx Hy Hf; [contradiction|].
  inversion Hnd as [|? ? Hnot Hnd']; subst.
  destruct Hx as [->|Hx], Hy as [->|Hy]; auto.
  - exfalso. apply Hnot. rewrite Hf. now apply in_map.
  - exfalso. apply Hnot. rewrite <- Hf. now apply in_map.
Qed.

(** [latest_invoice] is an invoice of the user with the greatest primary
    key among the invoices of the user, if the user has one. *)
Lemma latest_invoice_fold (u : Z) (l : list Invoice) :
  forall best,
    match best with Some b0 => user_id b0 = u | None => True end ->
    match fold_left
            (fun best i =>
               if user_id i =? u then
                 match best with
                 | None => Some i
                 | Some b => if id b <? id i then Some i else Some b
                 end
               else best) l best with
    | None => best = None /\ forall j, In j l -> user_id j <> u
    | Some b =>
        (In b l \/ best = Some b) /\ user_id b = u
        /\ (forall j, In j l -> user_id j = u -> id j <= id b)
        /\ (forall b0, best = Some b0 -> id b0 <= id b)
    end.
Proof.
  induction l as [|i l IH]; intros best Hbest; cbn [fold_left].
  - destruct best as [b0|].
    + split; [right; reflexivity|]. split; [exact Hbest|].
      split; [intros j []|]. intros b1 [= <-]. lia.
    + split; [reflexivity|intros j []].
  - destruct (Z.eqb_spec (user_id i) u) as [Hu|Hu].
    + destruct best as [b0|].
      * destruct (Z.ltb_spec (id b0) (id i)) as [Hlt|Hge].
        -- specialize (IH (Some i) Hu).
           destruct (fold_left _ l (Some i)) as [b|]; [|destruct IH; discriminate].
           destruct IH as (Hin & Hb & Hmax & Hbest').
           specialize (Hbest' i eq_refl).
           split; [destruct Hin as [Hin|[= <-]]; left; [right|left]; auto|].
           split; [exact Hb|]. split.
           ++ intros j [<-|Hj] Hj'; [exact Hbest'|now apply Hmax].
           ++ intros b1 [= <-]. lia.
        -- specialize (IH (Some b0) Hbest).
           destruct (fold_left _ l (Some b0)) as [b|]; [|destruct IH; discriminate].
           destruct IH as (Hin & Hb & Hmax & Hbest').
           specialize (Hbest' b0 eq_refl).
           split; [destruct Hin as [Hin|Hin]; [left; right; exact Hin|right; exact Hin]|].
           split; [exact Hb|]. split.
           ++ intros j [<-|Hj] Hj'; [lia|now apply Hmax].
           ++ intros b1 [= <-]. exact Hbest'.
      * specialize (IH (Some i) Hu).
        destruct (fold_left _ l (Some i)) as [b|]; [|destruct IH; discriminate].
        destruct IH as (Hin & Hb & Hmax & Hbest').
        specialize (Hbest' i eq_refl).
        split; [destruct Hin as [Hin|[= <-]]; left; [right|left]; auto|].
        split; [exact Hb|]. split.
        -- intros j [<-|Hj] Hj'; [exact Hbest'|now apply Hmax].
        -- intros b1 Hb1. discriminate Hb1.
    + specialize (IH best Hbest).
      destruct (fold_left _ l best) as [b|].
      * destruct IH as (Hin & Hb & Hmax & Hbest').
        split; [destruct Hin as [Hin|Hin]; [left; right; exact Hin|right; exact Hin]|].
        split; [exact Hb|]. split; [|exact Hbest'].
        intros j [<-|Hj] Hj'; [contradiction|now apply Hmax].
      * destruct IH as (Hn & Hnone). split; [exact Hn|].
        intros j [<-|Hj]; [exact Hu|now apply Hnone].
Qed.

Lemma latest_invoice_spec (db : Db) (u : Z) :
  match latest_invoice db u with
  | None => forall j, In j (invoices db) -> user_id j <> u
  | Some b =>
      In b (invoices db) /\ user_id b = u
      /\ forall j, In j (invoices db) -> user_id j = u -> id j <= id b
  end.
Proof.
  pose proof (latest_invoice_fold u (invoices db) None I) as H.
  unfold latest_invoice. destruct (fold_left _ (invoices db) None) as [b|].
  - destruct H as ([Hin|Hin] & Hu & Hmax & _); [auto|discriminate].
  - tauto.
Qed.

(** With distinct primary keys, the invoice of the user with the greatest
    key is the one [latest_invoice] yields. *)
Lemma latest_invoice_greatest (db : Db) (u : Z) (inv : Invoice) :
  NoDup (map id (invoices db)) ->
  In inv (invoices db) -> user_id inv = u ->
  (forall j, In j (invoices db) -> user_id j = u -> id j <= id inv) ->
  latest_invoice db u = Some inv.
Proof.
  intros Hnd Hin Hu Hmax. pose proof (latest_invoice_spec db u) as H.
  destruct (latest_invoice db u) as [b|].
  - destruct H as (Hb & Hbu & Hbmax). f_equal.
    apply (NoDup_map_inj id (invoices db)); auto.
    specialize (Hmax b Hb Hbu). specialize (Hbmax inv Hin Hu). lia.
  - exfalso. exact (H inv Hin Hu).
Qed.

Lemma latest_invoice_none (db : Db) (u : Z) :
  (forall j, In j (invoices db) -> user_id j <> u) -> latest_invoice db u = None.
Proof.
  intros Hnone. pose proof (latest_invoice_spec db u) as H.
  destruct (latest_invoice db u) as [b|]; [|reflexivity].
  destruct H as (Hb & Hbu & _). exfalso. exact (Hnone b Hb Hbu).
Qed.

(** C4: the number of a new invoice is [INV-], the current year, the
    current month on two digits, [-] and a sequence number padded to four
    digits.  The sequence number is 1 when the user has no invoice.
    Otherwise it is read from the invoice of the user with the greatest
    primary key, whatever the order of the stored invoices and whatever
    the invoices of other users: one more than the sequence number of that
    invoice when its number parses with the current year and month, and 1
    when it parses with another year or month or does not parse.  Hence,
    when that invoice carries the number issued with the sequence number
    [n], the next number in the same month has [n + 1] and the next number
    in another month has 1. *)
Theorem invoice_number_sequence (db : Db) (u : Z) (today : date) :
  1000 <= year today <= 9999 -> 1 <= month today <= 12 ->
  NoDup (map id (invoices db)) ->
  let y := Z.to_N (year today) in
  let m := Z.to_N (month today) in
  let number := generate_invoice_number db u today in
  (exists sequence,
      number = "INV-" ++ str_N y ++ zfill 2 m ++ "-" ++ zfill 4 sequence
      /\ String.length (str_N y) = 4%nat /\ String.length (zfill 2 m) = 2%nat)
  /\ ((forall j, In j (invoices db) -> user_id j <> u) ->
      number = format_invoice_number y m 1)
  /\ (forall inv,
        In inv (invoices db) -> user_id inv = u ->
        (forall j, In j (invoices db) -> user_id j = u -> id j <= id inv) ->
        match parsed (invoice_number inv) with
        | Some (y', m', n) =>
            (y' = y /\ m' = m -> number = format_invoice_number y m (n + 1))
            /\ (~ (y' = y /\ m' = m) -> number = format_invoice_number y m 1)
        | None => number = format_invoice_number y m 1
        end)
  /\ (forall inv y' m' n,
        In inv (invoices db) -> user_id inv = u ->
        (forall j, In j (invoices db) -> user_id j = u -> id j <= id inv) ->
        (1000 <= y' <= 9999)%N -> (1 <= m' <= 12)%N ->
        invoice_number inv = format_invoice_number y' m' n ->
        (y' = y /\ m' = m -> number = format_invoice_number y m (n + 1))
        /\ (~ (y' = y /\ m' = m) -> number = format_invoice_number y m 1)).
Proof.
  intros Hy Hm Hnd y m number.
  assert (Hparsed : forall inv,
             In inv (invoices db) -> user_id inv = u ->
             (forall j, In j (invoices db) -> user_id j = u -> id j <= id inv) ->
             number
             = format_invoice_number y m
                 match parsed (invoice_number inv) with
                 | Some (y', m', n) =>
                     if ((y' =? y) && (m' =? m))%N then (n + 1)%N else 1%N
                 | None => 1%N
                 end).
  { intros inv Hin Hu Hmax. subst number. unfold generate_invoice_number.
    rewrite (latest_invoice_greatest db u inv Hnd Hin Hu Hmax), next_sequence_parsed.
    reflexivity. }
  assert (Hcases : forall inv,
             In inv (invoices db) -> user_id inv = u ->
             (forall j, In j (invoices db) -> user_id j = u -> id j <= id inv) ->
             match parsed (invoice_number inv) with
             | Some (y', m', n) =>
                 (y' = y /\ m' = m -> number = format_invoice_number y m (n + 1))
                 /\ (~ (y' = y /\ m' = m) -> number = format_invoice_number y m 1)
             | None => number = format_invoice_number y m 1
             end).
  { intros inv Hin Hu Hmax. rewrite (Hparsed inv Hin Hu Hmax).
    destruct (parsed (invoice_number inv)) as [[[y' m'] n]|]; [|reflexivity].
    split.
    - intros [-> ->]. now rewrite !N.eqb_refl.
    - intros Hne. destruct (N.eqb_spec y' y); [|reflexivity].
      destruct (N.eqb_spec m' m); [|reflexivity]. exfalso. auto. }
  split; [|split; [|split]].
  - eexists. split; [reflexivity|]. split.
    + apply year_four_digits. subst y. lia.
    + apply month_two_digits. subst m. lia.
  - intros Hnone. subst number. unfold generate_invoice_number.
    now rewrite (latest_invoice_none db u Hnone).
  - exact Hcases.
  - intros inv y' m' n Hin Hu Hmax Hy' Hm' Hn.
    pose proof (Hcases inv Hin Hu Hmax) as H.
    rewrite Hn, parsed_format in H by lia. exact H.
Qed.

Lemma invoice_number_sequence_witness :
  generate_invoice_number numbering_db 1 (mkdate 2024 1 20) = "INV-202401-0008"
  /\ generate_invoice_number numbering_db 1 (mkdate 2024 2 3) = "INV-202402-0001"
  /\ generate_invoice_number numbering_db 3 (mkdate 2024 1 20) = "INV-202401-0001".
Proof.
  assert (Hnd : NoDup (map id (invoices numbering_db))).
  { repeat (constructor; [cbn; intuition discriminate|]). constructor. }
  assert (Hin : In (numbered 5 "INV-202401-0007" 1) (invoices numbering_db))
    by (left; reflexivity).
  assert (Hmax : forall j, In j (invoices numbering_db) -> user_id j = 1 ->
                           id j <= id (numbered 5 "INV-202401-0007" 1)).
  { intros j [<-|[<-|[<-|[]]]] Hj; cbn in *; lia. }
  assert (Hn : invoice_number (numbered 5 "INV-202401-0007" 1)
               = format_invoice_number 2024 1 7) by reflexivity.
  split; [|split].
  - destruct (invoice_number_sequence numbering_db 1 (mkdate 2024 1 20))
      as (_ & _ & _ & H); [cbn; lia|cbn; lia|exact Hnd|].
    destruct (H _ 2024%N 1%N 7%N Hin eq_refl Hmax) as (Hsame & _); [lia|lia|exact Hn|].
    rewrite Hsame by (split; reflexivity). reflexivity.
  - destruct (invoice_number_sequence numbering_db 1 (mkdate 2024 2 3))
      as (_ & _ & _ & H); [cbn; lia|cbn; lia|exact Hnd|].
    destruct (H _ 2024%N 1%N 7%N Hin eq_refl Hmax) as (_ & Hother); [lia|lia|exact Hn|].
    rewrite Hother; [reflexivity|]. intros [_ Hm]. discriminate Hm.
  - destruct (invoice_number_sequence numbering_db 3 (mkdate 2024 1 20))
      as (_ & Hnone & _); [cbn; lia|cbn; lia|exact Hnd|].
    rewrite Hnone; [reflexivity|].
    intros j [<-|[<-|[<-|[]]]]; cbn; discriminate.
Defined.

(** ** The cash-flow report *)

Example thirty_days_before_march_31 :
  sub_days (mkdate 2024 3 31) 30 = Some (mkdate 2024 3 1).
Proof. reflexivity. Qed.

Example ninety_days_before_may_1 :
  sub_days (mkdate 2023 5 1) 90 = Some (mkdate 2023 1 31).
Proof. reflexivity. Qed.

Example ordinal_round_trip :
  map (fun d => fromordinal (toordinal d))
      [mkdate 1 1 1; mkdate 2000 2 29; mkdate 2023 12 31; mkdate 2024 2 29;
       mkdate 2100 3 1; mkdate 9999 12 31]
  = [mkdate 1 1 1; mkdate 2000 2 29; mkdate 2023 12 31; mkdate 2024 2 29;
     mkdate 2100 3 1; mkdate 9999 12 31]
  /\ toordinal (mkdate 9999 12 31) = MAXORDINAL.
Proof. split; reflexivity. Qed.

Example iso_weeks :
  map iso_year_week [mkdate 2024 12 30; mkdate 2021 1 3; mkdate 2024 1 1]
  = ["2025-01"; "2020-53"; "2024-01"].
Proof. reflexivity. Qed.

Lemma fromordinal_range (o : Z) :
  1 <= o -> 1 <= year (fromordinal o) /\ 1 <= month (fromordinal o) <= 12.
Proof.
  intros Ho. unfold fromordinal. cbv zeta.
  set (n0 := o - 1).
  set (n1 := n0 mod 146097).
  set (n2 := n1 mod 36524).
  set (n3 := n2 mod 1461).
  set (n := n3 mod 365).
  assert (H0 : 0 <= n0 / 146097) by (apply Z.div_pos; lia).
  assert (B1 : 0 <= n1 < 146097) by (apply Z.mod_pos_bound; lia).
  assert (H1 : 0 <= n1 / 36524) by (apply Z.div_pos; lia).
  assert (B2 : 0 <= n2 < 36524) by (apply Z.mod_pos_bound; lia).
  assert (H2 : 0 <= n2 / 1461) by (apply Z.div_pos; lia).
  assert (B3 : 0 <= n3 < 1461) by (apply Z.mod_pos_bound; lia).
  assert (H3 : 0 <= n3 / 365) by (apply Z.div_pos; lia).
  assert (B : 0 <= n < 365) by (apply Z.mod_pos_bound; lia).
  clearbody n n3 n2 n1 n0.
  destruct ((n3 / 365 =? 4) || (n1 / 36524 =? 4)) eqn:E.
  - cbn [year month]. apply orb_true_iff in E.
    rewrite !Z.eqb_eq in E. lia.
  - set (m := (n + 50) / 32).
    assert (Hm : 1 <= m <= 12).
    { subst m. split.
      - apply Z.div_le_lower_bound; lia.
      - assert ((n + 50) / 32 < 13); [apply Z.div_lt_upper_bound; lia|lia]. }
    set (leapyear := (n3 / 365 =? 3) && _).
    assert (Hcases : m = 1 \/ m = 2 \/ m = 3 \/ m = 4 \/ m = 5 \/ m = 6 \/ m = 7
                     \/ m = 8 \/ m = 9 \/ m = 10 \/ m = 11 \/ m = 12) by lia.
    assert (Hfirst : m = 1 -> (n <? nth (Z.to_nat m) DAYS_BEFORE_MONTH 0
                                   + (if (2 <? m) && leapyear then 1 else 0)) = false).
    { intros ->. simpl. apply Z.ltb_ge. lia. }
    match goal with
    | |- context [if ?c then _ else _] => destruct c eqn:Ec
    end; cbn [year month]; split; lia.
Qed.

Lemma date_leb_months (a b : date) :
  day a = 1 -> 1 <= day b -> 1 <= month a <= 12 -> 1 <= month b <= 12 ->
  date_leb a b = true <-> 12 * year a + month a <= 12 * year b + month b.
Proof.
  intros Ha Hb Hma Hmb. unfold date_leb, date_ltb, date_eqb. rewrite Ha.
  rewrite !orb_true_iff, !andb_true_iff, !orb_true_iff, !andb_true_iff,
    !Z.ltb_lt, !Z.eqb_eq.
  lia.
Qed.

Lemma month_seq_step (y m : Z) (k : Z) :
  0 <= k ->
  month_seq y m (Z.to_nat (k + 1))
  = (y, m) :: (if m =? 12 then month_seq (y + 1) 1 (Z.to_nat k)
               else month_seq y (m + 1) (Z.to_nat k)).
Proof.
  intros Hk. replace (Z.to_nat (k + 1)) with (S (Z.to_nat k)) by lia. reflexivity.
Qed.

Lemma periods_loop_spec (end_date : date) :
  1 <= day end_date -> 1 <= month end_date <= 12 -> year end_date <= MAXYEAR ->
  (year end_date < MAXYEAR \/ month end_date < 12) ->
  forall rounds current periods,
    day current = 1 -> 1 <= month current <= 12 -> MINYEAR <= year current ->
    Z.max 0 (12 * (year end_date - year current) + (month end_date - month current) + 1)
    < Z.of_nat rounds ->
    CashFlow.periods_loop rounds current end_date periods
    = Some (Ok (periods ++ map month_name (months_between current end_date))%list).
Proof.
  intros Hde Hme Hye Hdec. unfold MAXYEAR, MINYEAR in *.
  induction rounds as [|rounds IH]; intros current periods Hd Hm Hy Hr; [lia|].
  cbn [CashFlow.periods_loop].
  pose proof (date_leb_months current end_date Hd Hde Hm Hme) as Hleb.
  unfold months_between.
  set (k := 12 * (year end_date - year current) + (month end_date - month current)) in *.
  destruct (date_leb current end_date).
  - assert (Hk : 0 <= k) by (subst k; lia).
    rewrite (month_seq_step _ _ k Hk). cbn [map].
    change (month_name (year current, month current)) with (year_month current).
    unfold first_of_month, MINYEAR, MAXYEAR.
    destruct (Z.eqb_spec (month current) 12) as [E|E].
    + assert (Hnext : (1 <=? year current + 1) && (year current + 1 <=? 9999)
                      && (1 <=? 1) && (1 <=? 12) = true).
      { rewrite !andb_true_iff, !Z.leb_le. subst k. lia. }
      rewrite Hnext.
      rewrite IH; [|reflexivity|cbn [year month]; lia|cbn [year month]; lia
                 |cbn [year month]; subst k; lia].
      unfold months_between. cbn [year month].
      replace (12 * (year end_date - (year current + 1)) + (month end_date - 1) + 1)
        with k by (subst k; lia).
      now rewrite <- List.app_assoc.
    + assert (Hnext : (1 <=? year current) && (year current <=? 9999)
                      && (1 <=? month current + 1) && (month current + 1 <=? 12) = true).
      { rewrite !andb_true_iff, !Z.leb_le. subst k. lia. }
      rewrite Hnext.
      rewrite IH; [|reflexivity|cbn [year month]; lia|cbn [year month]; lia
                 |cbn [year month]; subst k; lia].
      unfold months_between. cbn [year month].
      replace (12 * (year end_date - year current) + (month end_date - (month current + 1)) + 1)
        with k by (subst k; lia).
      now rewrite <- List.app_assoc.
  - assert (Hk : k + 1 <= 0).
    { destruct (Z.le_gt_cases (k + 1) 0) as [H|H]; [exact H|].
      assert (false = true); [|discriminate]. apply Hleb. subst k. lia. }
    replace (Z.to_nat (k + 1)) with O by lia. cbn [month_seq map].
    now rewrite List.app_nil_r.
Qed.

Lemma start_date_of_range (end_date : date) (months : Z) (start_date : date) :
  CashFlow.start_date_of end_date months = Some start_date ->
  day start_date = 1 /\ 1 <= month start_date <= 12 /\ MINYEAR <= year start_date.
Proof.
  unfold CashFlow.start_date_of, sub_days.
  destruct ((0 <? toordinal end_date - 30 * months)
            && (toordinal end_date - 30 * months <=? MAXORDINAL)) eqn:E; [|discriminate].
  apply andb_true_iff in E. destruct E as (E & _). apply Z.ltb_lt in E.
  destruct (fromordinal_range (toordinal end_date - 30 * months)) as (Hy & Hm); [lia|].
  revert Hy Hm. generalize (fromordinal (toordinal end_date - 30 * months)).
  intros d Hy Hm [= <-]. unfold MINYEAR. auto.
Qed.

(** *** Rows come from transactions *)

Section GroupingFacts.
Context {K : Type} (K_eqb K_leb : K -> K -> bool) (period_of : date -> K).

Lemma insert_row_In (x r : row K) (l : list (row K)) :
  In r (insert_row K_leb x l) -> r = x \/ In r l.
Proof.
  induction l as [|y l IH]; simpl; [intuition auto|].
  destruct (K_leb (row_period y) (row_period x)); simpl; [|intuition auto].
  intros [->|H]; [auto|]. apply IH in H. tauto.
Qed.

Lemma order_by_period_In (r : row K) (l : list (row K)) :
  In r (order_by_period K_leb l) -> In r l.
Proof.
  unfold order_by_period.
  assert (H : forall acc, In r (fold_left (fun acc r => insert_row K_leb r acc) l acc) ->
                          In r l \/ In r acc).
  { induction l as [|x l IH]; simpl; intros acc H; [tauto|].
    apply IH in H. destruct H as [H|H]; [tauto|].
    apply insert_row_In in H. destruct H as [->|H]; auto. }
  intros Hin. apply H in Hin. simpl in Hin. tauto.
Qed.

Lemma add_to_group_In (k : K) (ty : TransactionType) (a : Q) (r : row K)
    (rows : list (row K)) :
  In r (add_to_group K_eqb k ty a rows) -> row_period r = k \/ In r rows.
Proof.
  induction rows as [|x rows IH]; simpl.
  - intros [<-|[]]. left. reflexivity.
  - destruct (K_eqb (row_period x) k && type_eqb (row_type x) ty); simpl.
    + intros [<-|H]; [left; reflexivity|tauto].
    + intros [->|H]; [auto|]. apply IH in H. tauto.
Qed.

Lemma grouped_In (txns : list Transaction) (r : row K) :
  In r (grouped K_eqb K_leb period_of txns) ->
  exists t, In t txns /\ row_period r = period_of (txn_date t).
Proof.
  unfold grouped.
  assert (G : forall rows,
             In r (fold_left
                     (fun rows t => add_to_group K_eqb (period_of (txn_date t))
                                      (txn_type t) (txn_amount t) rows) txns rows) ->
             (exists t, In t txns /\ row_period r = period_of (txn_date t)) \/ In r rows).
  { induction txns as [|t txns IH]; simpl; intros rows Hin; [tauto|].
    apply IH in Hin. destruct Hin as [(t' & Ht & E)|Hin].
    { left. exists t'. split; [right; exact Ht|exact E]. }
    apply add_to_group_In in Hin. destruct Hin as [E|Hin]; [|tauto].
    left. exists t. split; [left; reflexivity|exact E]. }
  intros H. apply order_by_period_In in H.
  apply G in H. destruct H as [H|[]]. exact H.
Qed.

End GroupingFacts.

(** *** Filling the entries *)

Lemma index_nth_error (x : string) (l : list string) (i : nat) :
  index x l = Some i -> nth_error l i = Some x.
Proof.
  revert i. induction l as [|y l IH]; simpl; intros i; [discriminate|].
  destruct (String.eqb_spec y x) as [->|_].
  - intros [= <-]. reflexivity.
  - destruct (index x l) as [j|]; [|discriminate].
    intros [= <-]. simpl. auto.
Qed.

Lemma update_nth_other {A} (f : A -> A) (l : list A) (i k : nat) :
  i <> k -> nth_error (update_nth i f l) k = nth_error l k.
Proof.
  revert i k. induction l as [|x l IH]; intros [|i] [|k] H; simpl; auto; congruence.
Qed.

Lemma update_nth_map {A B} (g : A -> B) (f : A -> A) (l : list A) (i : nat) :
  (forall x, g (f x) = g x) -> map g (update_nth i f l) = map g l.
Proof.
  intros Hg. revert i. induction l as [|x l IH]; intros [|i]; simpl; auto.
  - now rewrite Hg.
  - now rewrite IH.
Qed.

Lemma fill_periods (periods : list string) (rows : list (row string)) :
  forall cash_flow,
    map CashFlow.period (fold_left (CashFlow.fill periods) rows cash_flow)
    = map CashFlow.period cash_flow.
Proof.
  induction rows as [|r rows IH]; simpl; intros cash_flow; [reflexivity|].
  rewrite IH. unfold CashFlow.fill.
  destruct (index (row_period r) periods); [|reflexivity].
  destruct (type_eqb (row_type r) INCOME); now apply update_nth_map.
Qed.

Lemma fill_untouched (periods : list string) (rows : list (row string))
    (k : nat) (p : string) :
  nth_error periods k = Some p ->
  (forall r, In r rows -> row_period r <> p) ->
  forall cash_flow,
    nth_error (fold_left (CashFlow.fill periods) rows cash_flow) k
    = nth_error cash_flow k.
Proof.
  intros Hk. induction rows as [|r rows IH]; simpl; intros Hrows cash_flow; [reflexivity|].
  rewrite IH by auto. unfold CashFlow.fill.
  destruct (index (row_period r) periods) as [i|] eqn:E; [|reflexivity].
  apply index_nth_error in E.
  assert (i <> k).
  { intros ->. rewrite Hk in E. injection E as ->. now apply (Hrows r); [left|]. }
  destruct (type_eqb (row_type r) INCOME); now apply update_nth_other.
Qed.

(** *** The running balance *)

Lemma accumulate_nth_error (cash_flow : list CashFlow.entry) :
  forall running k,
    nth_error (CashFlow.accumulate running cash_flow) k
    = option_map
        (fun e => CashFlow.mkEntry (CashFlow.period e) (CashFlow.income e)
                    (CashFlow.expense e) (CashFlow.net e)
                    (fold_left Qplus (firstn (S k) (map CashFlow.net cash_flow)) running))
        (nth_error cash_flow k).
Proof.
  induction cash_flow as [|e l IH]; intros running [|k]; try reflexivity.
  cbn [CashFlow.accumulate nth_error map]. rewrite IH. reflexivity.
Qed.

Lemma accumulate_fields (cash_flow : list CashFlow.entry) :
  forall running,
    map CashFlow.period (CashFlow.accumulate running cash_flow) = map CashFlow.period cash_flow
    /\ map CashFlow.net (CashFlow.accumulate running cash_flow) = map CashFlow.net cash_flow.
Proof.
  induction cash_flow as [|e l IH]; intros running; simpl; [auto|].
  destruct (IH (running + CashFlow.net e)%Q) as (-> & ->). auto.
Qed.

Lemma firstn_snoc {A} (l : list A) (k : nat) (x : A) :
  nth_error l k = Some x -> firstn (S k) l = (firstn k l ++ [x])%list.
Proof.
  revert k. induction l as [|y l IH]; intros [|k]; simpl; try discriminate.
  - intros [= ->]. reflexivity.
  - intros H. f_equal. now apply IH.
Qed.


Lemma valid_dateb_correct (d : date) : valid_dateb d = true -> valid_date d.
Proof.
  unfold valid_dateb, valid_date. rewrite !andb_true_iff, !Z.leb_le. tauto.
Qed.

(** C3, as the code has it: for [months > 0], the periods of the cash-flow
    report are the calendar months from the month of the day that lies
    [30 * months] days before [end_date], through the month of [end_date], in
    order; a month without transactions has income, expense and net 0; the
    running balance of a period is the sum of the nets of the periods up to
    and including it, so that a period with net 0 carries the balance of the
    period before it. *)
Theorem cash_flow_report_periods (txns : list Transaction) (u : Z)
    (end_date : date) (months : Z) (start_date : date) :
  valid_date end_date -> 0 < months ->
  CashFlow.start_date_of end_date months = Some start_date ->
  (year end_date < MAXYEAR \/ month end_date < 12) ->
  exists data tot,
    CashFlow.cash_flow_report txns u end_date months
    = Some (CashFlow.Report start_date end_date data tot)
    /\ map CashFlow.period data = map month_name (months_between start_date end_date)
    /\ (forall k e,
          nth_error data k = Some e ->
          (forall t, In t txns -> selected u start_date end_date t = true ->
                     year_month (txn_date t) <> CashFlow.period e) ->
          CashFlow.income e = 0%Q /\ CashFlow.expense e = 0%Q /\ CashFlow.net e = 0%Q)
    /\ (forall k e,
          nth_error data k = Some e ->
          CashFlow.running_balance e = sum (firstn (S k) (map CashFlow.net data)))
    /\ (forall k e e',
          nth_error data k = Some e -> nth_error data (S k) = Some e' ->
          CashFlow.net e' = 0%Q ->
          (CashFlow.running_balance e' == CashFlow.running_balance e)%Q).
Proof.
  intros (Hy & Hm & Hd) Hmonths Hstart Hdec.
  destruct (start_date_of_range _ _ _ Hstart) as (Sd & Sm & Sy).
  unfold CashFlow.cash_flow_report.
  destruct (Z.leb_spec months 0) as [|_]; [lia|].
  rewrite Hstart.
  rewrite (periods_loop_spec end_date) by
    (unfold CashFlow.rounds_for, MAXYEAR, MINYEAR in *; try tauto; try lia).
  cbn [app].
  set (periods := map month_name (months_between start_date end_date)).
  set (rows := grouped String.eqb String.leb year_month _).
  set (filled := fold_left (CashFlow.fill periods) rows _).
  set (data := CashFlow.accumulate 0 filled).
  assert (Hperiods : map CashFlow.period data = periods).
  { subst data filled. rewrite (proj1 (accumulate_fields _ _)), fill_periods, map_map.
    apply map_id. }
  assert (Hnets : map CashFlow.net data = map CashFlow.net filled).
  { subst data. apply accumulate_fields. }
  assert (Hrun : forall k e, nth_error data k = Some e ->
                 CashFlow.running_balance e = sum (firstn (S k) (map CashFlow.net data))).
  { intros k e He. subst data. rewrite accumulate_nth_error in He.
    destruct (nth_error filled k); [|discriminate]. injection He as <-.
    rewrite (proj2 (accumulate_fields _ _)). reflexivity. }
  exists data. eexists. split; [reflexivity|]. split; [exact Hperiods|].
  split; [|split; [exact Hrun|]].
  - intros k e He Hnone.
    assert (Hp : nth_error periods k = Some (CashFlow.period e)).
    { rewrite <- Hperiods. now apply map_nth_error. }
    assert (Hk : nth_error filled k = Some (CashFlow.mkEntry (CashFlow.period e) 0 0 0 0)).
    { subst filled. rewrite (fill_untouched periods rows k (CashFlow.period e) Hp).
      - exact (map_nth_error (fun p => CashFlow.mkEntry p 0 0 0 0) _ _ Hp).
      - intros r Hr. subst rows. apply grouped_In in Hr.
        destruct Hr as (t & Ht & ->). apply filter_In in Ht. destruct Ht as (Ht & Hsel).
        now apply Hnone. }
    subst data. rewrite accumulate_nth_error, Hk in He. injection He as <-.
    repeat split.
  - intros k e e' He He' Hnet.
    rewrite (Hrun _ _ He), (Hrun _ _ He').
    rewrite (firstn_snoc _ (S k) (CashFlow.net e')) by now apply map_nth_error.
    unfold sum. rewrite fold_left_app. cbn [fold_left]. rewrite Hnet.
    apply Qplus_0_r.
Qed.

Lemma cash_flow_report_periods_witness :
  exists data tot,
    CashFlow.cash_flow_report
      [mkTransaction 1 (mkdate 2024 1 10) 500 "Consulting" None false INCOME "service"
         1 JNull None;
       mkTransaction 2 (mkdate 2024 1 20) 120 "Rent" None false EXPENSE "rent"
         1 JNull None]
      1 (mkdate 2024 3 31) 3
    = Some (CashFlow.Report (mkdate 2024 1 1) (mkdate 2024 3 31) data tot)
    /\ map CashFlow.period data = ["2024-01"; "2024-02"; "2024-03"]
    /\ map (fun e => Qeq_bool (CashFlow.running_balance e) 380) data = [true; true; true].
Proof.
  destruct (cash_flow_report_periods
              [mkTransaction 1 (mkdate 2024 1 10) 500 "Consulting" None false INCOME
                 "service" 1 JNull None;
               mkTransaction 2 (mkdate 2024 1 20) 120 "Rent" None false EXPENSE "rent"
                 1 JNull None]
              1 (mkdate 2024 3 31) 3 (mkdate 2024 1 1))
    as (data & tot & E & Hp & _).
  - apply valid_dateb_correct. reflexivity.
  - lia.
  - reflexivity.
  - left. unfold MAXYEAR. cbn [year]. lia.
  - exists data, tot. split; [exact E|]. split; [rewrite Hp; reflexivity|].
    vm_compute in E. injection E as <- _. reflexivity.
Defined.

(** C3 as it is stated fails.  With [end_date] 2024-03-31 and [months] 1 the
    day thirty days back is 2024-03-01: the report has the one period
    2024-03, where the month before that of [end_date] is February.  With
    [end_date] 2024-06-15 and [months] 3 the report has four periods. *)
Lemma cash_flow_report_periods_counterexample :
  (exists data tot,
      CashFlow.cash_flow_report [] 1 (mkdate 2024 3 31) 1
      = Some (CashFlow.Report (mkdate 2024 3 1) (mkdate 2024 3 31) data tot)
      /\ map CashFlow.period data = ["2024-03"]
      /\ spec_periods (mkdate 2024 3 31) 1 = ["2024-02"; "2024-03"]
      /\ map CashFlow.period data <> spec_periods (mkdate 2024 3 31) 1)
  /\ (exists data tot,
        CashFlow.cash_flow_report [] 1 (mkdate 2024 6 15) 3
        = Some (CashFlow.Report (mkdate 2024 3 1) (mkdate 2024 6 15) data tot)
        /\ List.length data = 4%nat).
Proof.
  split.
  - eexists. eexists. split; [vm_compute; reflexivity|].
    split; [reflexivity|]. split; [vm_compute; reflexivity|].
    vm_compute. discriminate.
  - eexists. eexists. split; [vm_compute; reflexivity|]. reflexivity.
Qed.

(** ** The income and expense report *)

(** C7, at a transfer: the loop of [income_expense_report] adds the total of
    every row whose type is not [income] to the expense of its period.  A
    single transfer of 50.00 in January 2024 gives a period with expense
    50.00 and net -50.00, and a total expense of 50.00, where there is no
    transaction of type expense. *)
Theorem transfer_counted_as_expense :
  exists e tot,
    IncomeExpense.income_expense_report
      [mkTransaction 1 (mkdate 2024 1 15) 50 "To savings" None false TRANSFER
         "other_expense" 1 JNull None]
      1 (mkdate 2024 1 1) (mkdate 2024 1 31) "month"
    = IncomeExpense.Report [e] tot (mkdate 2024 1 1) (mkdate 2024 1 31) "month"
    /\ IncomeExpense.period e = IncomeExpense.KText "2024-01"
    /\ (IncomeExpense.income e == 0)%Q
    /\ (IncomeExpense.expense e == 50)%Q
    /\ (IncomeExpense.net e == -50)%Q
    /\ (IncomeExpense.total_expense tot == 50)%Q
    /\ (IncomeExpense.net_income tot == -50)%Q.
Proof.
  eexists. eexists. split; [vm_compute; reflexivity|].
  repeat split.
Qed.

(** Income and expenses of one month, for comparison: the periods come in
    ascending order and the net of each is income less expense. *)
Example income_expense_two_months :
  match
    IncomeExpense.income_expense_report
      [mkTransaction 1 (mkdate 2024 2 3) 200 "Retainer" None false INCOME "service"
         1 JNull None;
       mkTransaction 2 (mkdate 2024 1 15) 500 "Consulting" None false INCOME "service"
         1 JNull None;
       mkTransaction 3 (mkdate 2024 1 20) 120 "Rent" None false EXPENSE "rent"
         1 JNull None;
       mkTransaction 4 (mkdate 2024 1 21) 999 "Other user" None false EXPENSE "rent"
         2 JNull None]
      1 (mkdate 2024 1 1) (mkdate 2024 12 31) "month"
  with
  | IncomeExpense.Report data tot _ _ _ =>
      map IncomeExpense.period data
      = [IncomeExpense.KText "2024-01"; IncomeExpense.KText "2024-02"]
      /\ map (fun e => Qeq_bool (IncomeExpense.net e) (IncomeExpense.income e - IncomeExpense.expense e)) data
         = [true; true]
      /\ map (fun e => Qeq_bool (IncomeExpense.net e) 380 || Qeq_bool (IncomeExpense.net e) 200) data
         = [true; true]
      /\ Qeq_bool (IncomeExpense.net_income tot) 580 = true
  | IncomeExpense.BadRequest _ => False
  end.
Proof. vm_compute. repeat split. Qed.

(** * Further properties of the invoice engine *)

(** ** Totals *)

(** X1.  Recomputing the totals twice gives what recomputing them once gives. *)
Theorem calculate_totals_idempotent (i : Invoice) :
  calculate_totals (calculate_totals i) = calculate_totals i.
Proof.
  unfold calculate_totals. cbn [items tax_rate amount_paid status id invoice_number
    issue_date due_date notes terms currency user_id client_id project_id].
  destruct (Qle_bool _ 0); [reflexivity|].
  destruct (Qlt_bool 0 (amount_paid i)); reflexivity.
Qed.

(** The status [calculate_totals] leaves, by the sign of the amount due and
    of the amount paid. *)
Lemma status_after_totals (i : Invoice) :
  ((amount_due (calculate_totals i) <= 0)%Q -> status (calculate_totals i) = PAID)
  /\ (~ (amount_due (calculate_totals i) <= 0)%Q -> (0 < amount_paid i)%Q ->
      status (calculate_totals i) = PARTIALLY_PAID)
  /\ (~ (amount_due (calculate_totals i) <= 0)%Q -> ~ (0 < amount_paid i)%Q ->
      status (calculate_totals i) = status i).
Proof.
  unfold calculate_totals; simpl.
  set (due := (_ - amount_paid i)%Q).
  destruct (Qle_bool due 0) eqn:Hd.
  - apply Qle_bool_iff in Hd. repeat split; intros; try reflexivity; contradiction.
  - assert (~ (due <= 0)%Q) by (intro H; apply Qle_bool_iff in H; congruence).
    unfold Qlt_bool.
    destruct (Qle_bool (amount_paid i) 0) eqn:Hp; simpl.
    + apply Qle_bool_iff in Hp.
      repeat split; intros; try reflexivity; try contradiction.
      exfalso. eapply Qlt_not_le; eauto.
    + assert (0 < amount_paid i)%Q.
      { apply Qnot_le_lt. intro Hq. apply Qle_bool_iff in Hq. congruence. }
      repeat split; intros; try reflexivity; contradiction.
Qed.

(** ** Rounding to the columns *)



(** Amounts with two places are not changed by the rounding. *)
Example Numeric_2_values :
  map Numeric_2 [(5 # 1000); (269995 # 1000); 270; (1 # 3); - (5 # 1000); (2 # 1000)]%Q
  = [(1 # 100); 270; 270; (33 # 100); - (1 # 100); 0]%Q.
Proof. reflexivity. Qed.

(** ** Payments through the service *)

Section ServicePayments.
Context {py : PyLib}.




End ServicePayments.



(** ** The ledger entry of a payment *)



(** ** Refused payments *)



(** ** Creating an invoice *)


Lemma all_in_object (ks : list string) (o : dict) :
  all_in ks (JObj o) = Ok (forallb (fun k => has k o) ks).
Proof.
  induction ks as [|k ks IH]; simpl; [reflexivity|].
  destruct (has k o); [exact IH|reflexivity].
Qed.

Lemma new_item_missing_field {py : PyLib} (o : dict) (k : string) :
  In k item_fields -> has k o = false ->
  InvoiceService.new_item (JObj o) = Raise missing_item_field.
Proof.
  intros Hk Hm. unfold InvoiceService.new_item. rewrite all_in_object.
  assert (E : forallb (fun k => has k o) item_fields = false).
  { apply not_true_is_false. intros H. rewrite forallb_forall in H.
    rewrite (H k Hk) in Hm. discriminate. }
  rewrite E. reflexivity.
Qed.

Lemma for_each_items_stop {py : PyLib} (good rest : list json) (bad : json) (e : exn) :
  Forall (fun j => exists it, InvoiceService.new_item j = Ok it) good ->
  InvoiceService.new_item bad = Raise e ->
  forall acc,
    for_each (good ++ bad :: rest)%list acc
      (fun acc item_data =>
         it <- InvoiceService.new_item item_data ;; Ok (acc ++ [it])%list)
    = Raise e.
Proof.
  intros Hgood Hbad. induction Hgood as [|j good (it & Hj) _ IH]; intros acc; simpl.
  - rewrite Hbad. reflexivity.
  - rewrite Hj. simpl. apply IH.
Qed.

(** X6.  [create_invoice] checks its input in this order, and stores nothing when
    a check fails: the keys [client_id], [issue_date], [due_date] and [items]
    are present (the first one missing is named); [items] is a list that is
    not empty; the due date is not before the issue date. *)
Theorem create_invoice_validation {py : PyLib} (db : Db) (u : Z) (data : dict) (today : date) :
  (forall field,
      InvoiceService.first_missing data = Some field ->
      In field InvoiceService.required_fields /\ has field data = false
      /\ InvoiceService.create_invoice db u data today
         = (Raise (ValueError ("Missing required field: " ++ field)), db))
  /\ (InvoiceService.first_missing data = None ->
      (forall x l, get "items" data <> Some (JArr (x :: l))) ->
      InvoiceService.create_invoice db u data today
      = (Raise (ValueError "At least one invoice item is required"), db))
  /\ (forall x l s1 s2 d1 d2,
        InvoiceService.first_missing data = None ->
        get "items" data = Some (JArr (x :: l)) ->
        get "issue_date" data = Some (JStr s1) -> strptime s1 = Some d1 ->
        get "due_date" data = Some (JStr s2) -> strptime s2 = Some d2 ->
        date_ltb d2 d1 = true ->
        InvoiceService.create_invoice db u data today
        = (Raise (ValueError "Invalid data: Due date cannot be before issue date"), db)).
Proof.
  split; [|split].
  - intros field H. unfold InvoiceService.create_invoice. rewrite H.
    apply find_some in H. destruct H as (Hin & Hneg).
    apply negb_true_iff in Hneg. auto.
  - intros H Hitems. unfold InvoiceService.create_invoice. rewrite H.
    destruct (get "items" data) as [[| | | |[|x l]|]|]; try reflexivity.
    exfalso. now apply (Hitems x l).
  - intros x l s1 s2 d1 d2 H Hitems Hi H1 Hd H2 Hlt.
    unfold InvoiceService.create_invoice, InvoiceService.create_invoice_body.
    rewrite H, Hitems. unfold get_default. rewrite Hi, Hd.
    cbn [parse_date]. rewrite H1, H2. cbn [bind]. rewrite Hlt. reflexivity.
Qed.

Lemma create_invoice_validation_witness :
  InvoiceService.create_invoice (py := example_lib) empty_db 1
    [("client_id", JNum 7); ("due_date", JStr "2024-01-31"); ("items", JArr [])]
    (mkdate 2024 1 15)
  = (Raise (ValueError "Missing required field: issue_date"), empty_db)
  /\ InvoiceService.create_invoice (py := example_lib) empty_db 1
       (scenario_data (JNum 7) "2024-01-31" "2024-01-01") (mkdate 2024 1 15)
     = (Raise (ValueError "Invalid data: Due date cannot be before issue date"), empty_db).
Proof.
  split.
  - destruct (create_invoice_validation (py := example_lib) empty_db 1
                [("client_id", JNum 7); ("due_date", JStr "2024-01-31"); ("items", JArr [])]
                (mkdate 2024 1 15)) as (H & _).
    destruct (H "issue_date" eq_refl) as (_ & _ & E). exact E.
  - destruct (create_invoice_validation (py := example_lib) empty_db 1
                (scenario_data (JNum 7) "2024-01-31" "2024-01-01")
                (mkdate 2024 1 15)) as (_ & _ & H).
    eapply H; reflexivity.
Defined.

(** X7.  [create_invoice] stores nothing when an item of the request lacks one of
    [description], [quantity] and [unit_price], the items before it being in
    order: it raises the error that names the three keys. *)
Theorem create_invoice_item_fields {py : PyLib} (db : Db) (u : Z) (data : dict) (today : date)
    (s1 s2 : string) (d1 d2 : date) (rate : Q) (good rest : list json) (o : dict)
    (k : string) :
  InvoiceService.first_missing data = None ->
  get "issue_date" data = Some (JStr s1) -> strptime s1 = Some d1 ->
  get "due_date" data = Some (JStr s2) -> strptime s2 = Some d2 ->
  date_ltb d2 d1 = false ->
  Decimal_str (get_default "tax_rate" (JNum 0) data) = Ok rate ->
  get "items" data = Some (JArr (good ++ JObj o :: rest)%list) ->
  Forall (fun j => exists it, InvoiceService.new_item j = Ok it) good ->
  In k item_fields -> has k o = false ->
  InvoiceService.create_invoice db u data today
  = (Raise (ValueError
              "Invalid data: Each item must have description, quantity, and unit_price"),
     db).
Proof.
  intros H Hi H1 Hd H2 Hlt Hrate Hitems Hgood Hk Hm.
  remember (good ++ JObj o :: rest)%list as entries eqn:He.
  destruct entries as [|x l]; [destruct good; discriminate He|].
  unfold InvoiceService.create_invoice, InvoiceService.create_invoice_body.
  rewrite H, Hitems.
  unfold get_default in *. rewrite Hi, Hd, Hitems.
  cbn [parse_date]. rewrite H1, H2. cbn [bind]. rewrite Hlt. cbn [negb].
  rewrite Hrate. cbn [bind iterate]. rewrite He.
  rewrite (for_each_items_stop good rest (JObj o) missing_item_field Hgood
             (new_item_missing_field o k Hk Hm)).
  reflexivity.
Qed.

Lemma create_invoice_item_fields_witness :
  InvoiceService.create_invoice (py := example_lib) empty_db 1
    [("client_id", JNum 7); ("issue_date", JStr "2024-01-01");
     ("due_date", JStr "2024-01-31");
     ("items", JArr [JObj [("description", JStr "Design"); ("quantity", JNum 2);
                           ("unit_price", JNum 100)];
                     JObj [("description", JStr "Hosting"); ("quantity", JNum 1)]])]
    (mkdate 2024 1 15)
  = (Raise (ValueError
              "Invalid data: Each item must have description, quantity, and unit_price"),
     empty_db).
Proof.
  apply (create_invoice_item_fields (py := example_lib) empty_db 1 _ _
           "2024-01-01" "2024-01-31" (mkdate 2024 1 1) (mkdate 2024 1 31) 0
           [JObj [("description", JStr "Design"); ("quantity", JNum 2);
                  ("unit_price", JNum 100)]]
           [] [("description", JStr "Hosting"); ("quantity", JNum 1)] "unit_price");
    try reflexivity.
  - constructor; [|constructor]. eexists. reflexivity.
  - right. right. left. reflexivity.
Defined.

(** X8.  [create_invoice] never returns an invoice and never changes the
    store: whatever the request, it raises.  A request that passes the
    checks is stopped by [calculate_totals], which runs before the new
    invoice is stored and raises [TypeError]; the method rolls back and
    raises its own exception. *)
Theorem create_invoice_never_succeeds {py : PyLib} (db : Db) (u : Z) (data : dict)
    (today : date) :
  (exists e, InvoiceService.create_invoice db u data today = (Raise e, db))
  /\ (forall inv db', InvoiceService.create_invoice db u data today <> (Ok inv, db'))
  /\ (forall x l s1 s2 d1 d2 rate its,
        InvoiceService.first_missing data = None ->
        get "items" data = Some (JArr (x :: l)) ->
        get "issue_date" data = Some (JStr s1) -> strptime s1 = Some d1 ->
        get "due_date" data = Some (JStr s2) -> strptime s2 = Some d2 ->
        date_ltb d2 d1 = false ->
        Decimal_str (get_default "tax_rate" (JNum 0) data) = Ok rate ->
        for_each (x :: l) []
          (fun acc item_data =>
             it <- InvoiceService.new_item item_data ;; Ok (acc ++ [it])%list) = Ok its ->
        InvoiceService.create_invoice db u data today
        = (Raise (Exception ("Failed to create invoice: " ++ str_exn TypeError)), db)).
Proof.
  destruct (create_invoice_raises db u data today) as (e & E).
  split; [eauto|]. split; [intros inv db'; rewrite E; discriminate|].
  intros x l s1 s2 d1 d2 rate its. apply create_invoice_type_error.
Qed.

Lemma create_invoice_never_succeeds_witness :
  InvoiceService.create_invoice (py := example_lib) (mkDb [invoice_paid] []) 2
    (scenario_data (JNum 7) "2024-03-01" "2024-03-31") (mkdate 2024 3 1)
  = (Raise (Exception ("Failed to create invoice: " ++ str_exn TypeError)),
     mkDb [invoice_paid] []).
Proof.
  destruct (create_invoice_never_succeeds (py := example_lib) (mkDb [invoice_paid] []) 2
              (scenario_data (JNum 7) "2024-03-01" "2024-03-31") (mkdate 2024 3 1))
    as (_ & _ & H).
  eapply (H scenario_design [scenario_hosting] "2024-03-01" "2024-03-31"
            (mkdate 2024 3 1) (mkdate 2024 3 31) 0%Q); reflexivity.
Defined.

(** ** Updating an invoice *)

Lemma update_invoice_body_shape {py : PyLib} db invoice data inv db' :
  InvoiceService.update_invoice_body db invoice data = Ok (inv, db') ->
  exists pre,
    inv = flush_items db (calculate_totals pre)
    /\ db' = store_invoice inv db
    /\ id pre = id invoice /\ invoice_number pre = invoice_number invoice
    /\ user_id pre = user_id invoice /\ amount_paid pre = amount_paid invoice
    /\ match get "items" data with
       | None => items pre = items invoice
       | Some j =>
           exists entries st,
             iterate j = Ok entries
             /\ for_each entries (InvoiceService.existing_items_of (items invoice), [])
                  InvoiceService.update_item = Ok st
             /\ items pre = snd st
       end.
Proof.
  unfold InvoiceService.update_invoice_body. intros H.
  apply bind_Ok in H. destruct H as (inv1 & E1 & H).
  apply bind_Ok in H. destruct H as (inv2 & E2 & H).
  apply bind_Ok in H. destruct H as (inv3 & E3 & H).
  apply bind_Ok in H. destruct H as (inv5 & E5 & H).
  set (inv4 := InvoiceService.set_if_present "terms" _ _ _) in *.
  assert (K1 : items inv1 = items invoice /\ id inv1 = id invoice
               /\ invoice_number inv1 = invoice_number invoice
               /\ user_id inv1 = user_id invoice
               /\ amount_paid inv1 = amount_paid invoice).
  { destruct (get "issue_date" data); invert_ok E1; injection E1 as <-; auto 6. }
  assert (K2 : items inv2 = items inv1 /\ id inv2 = id inv1
               /\ invoice_number inv2 = invoice_number inv1
               /\ user_id inv2 = user_id inv1
               /\ amount_paid inv2 = amount_paid inv1).
  { destruct (get "due_date" data); invert_ok E2; injection E2 as <-; auto 6. }
  assert (K3 : items inv3 = items inv2 /\ id inv3 = id inv2
               /\ invoice_number inv3 = invoice_number inv2
               /\ user_id inv3 = user_id inv2
               /\ amount_paid inv3 = amount_paid inv2).
  { destruct (get "status" data); invert_ok E3; injection E3 as <-; auto 6. }
  assert (K4 : items inv4 = items inv3 /\ id inv4 = id inv3
               /\ invoice_number inv4 = invoice_number inv3
               /\ user_id inv4 = user_id inv3
               /\ amount_paid inv4 = amount_paid inv3).
  { subst inv4. unfold InvoiceService.set_if_present.
    destruct (get "terms" data), (get "notes" data), (get "currency" data),
      (get "project_id" data), (get "client_id" data); auto 6. }
  destruct K1 as (I1 & A1 & N1 & U1 & P1), K2 as (I2 & A2 & N2 & U2 & P2),
    K3 as (I3 & A3 & N3 & U3 & P3), K4 as (I4 & A4 & N4 & U4 & P4).
  assert (Hitems : items inv4 = items invoice) by congruence.
  invert_ok H. injection H as <- <-.
  exists inv5. split; [reflexivity|]. split; [reflexivity|].
  destruct (get "items" data) as [j|].
  - invert_ok E5. injection E5 as <-. cbn [id invoice_number user_id amount_paid items set_items].
    repeat split; try congruence.
    exists v, v0. rewrite <- Hitems. auto.
  - injection E5 as <-. repeat split; congruence.
Qed.

(** X9.  An update never changes the primary key, the number, the owner or the
    amount paid of an invoice. *)
Theorem update_keeps_identity {py : PyLib} (db : Db) (invoice : Invoice) (data : dict)
    (inv : Invoice) (db' : Db) :
  InvoiceService.update_invoice db invoice data = (Ok inv, db') ->
  id inv = id invoice /\ invoice_number inv = invoice_number invoice
  /\ user_id inv = user_id invoice /\ amount_paid inv = amount_paid invoice.
Proof.
  intros H. apply update_invoice_Ok in H. apply update_invoice_body_shape in H.
  destruct H as (pre & -> & _ & Hi & Hn & Hu & Hp & _).
  repeat split; assumption.
Qed.

Lemma update_keeps_identity_witness :
  match InvoiceService.update_invoice (py := example_lib) (mkDb [invoice_paid] [])
          invoice_paid [("notes", JStr "Thank you"); ("client_id", JNum 9)] with
  | (Ok inv, db') =>
      id inv = 1 /\ invoice_number inv = "INV-202401-0001"
      /\ user_id inv = 1 /\ amount_paid inv = 270%Q
  | _ => False
  end.
Proof.
  destruct (InvoiceService.update_invoice _ _ _) as [[inv|e] db'] eqn:E;
    [|vm_compute in E; discriminate E].
  exact (update_keeps_identity (py := example_lib) _ _ _ _ _ E).
Defined.

(** X10.  An invoice on which something was paid comes out of an update PAID or
    PARTIALLY_PAID, whatever status the request names. *)
Theorem update_status_follows_payments {py : PyLib} (db : Db) (invoice : Invoice)
    (data : dict) (inv : Invoice) (db' : Db) :
  InvoiceService.update_invoice db invoice data = (Ok inv, db') ->
  (0 < amount_paid invoice)%Q ->
  status inv = PAID \/ status inv = PARTIALLY_PAID.
Proof.
  intros H Hpaid. apply update_invoice_Ok in H. apply update_invoice_body_shape in H.
  destruct H as (pre & -> & _ & _ & _ & _ & Hp & _).
  cbn [flush_items set_items status].
  destruct (status_after_totals pre) as (H1 & H2 & _).
  destruct (Qlt_le_dec 0 (amount_due (calculate_totals pre))) as [Hd|Hd].
  - right. apply H2.
    + intros Hle. exact (Qlt_not_le _ _ Hd Hle).
    + now rewrite Hp.
  - left. now apply H1.
Qed.

Lemma update_status_follows_payments_witness :
  match InvoiceService.update_invoice (py := example_lib) (mkDb [invoice_paid] [])
          invoice_paid [("status", JStr "void")] with
  | (Ok inv, db') => status inv = PAID \/ status inv = PARTIALLY_PAID
  | _ => False
  end.
Proof.
  destruct (InvoiceService.update_invoice _ _ _) as [[inv|e] db'] eqn:E;
    [|vm_compute in E; discriminate E].
  apply (update_status_follows_payments (py := example_lib) _ _ _ _ _ E).
  reflexivity.
Defined.

Lemma update_items_length {py : PyLib} (entries : list json) :
  forall st st',
    for_each entries st InvoiceService.update_item = Ok st' ->
    List.length (snd st') = (List.length (snd st) + List.length entries)%nat.
Proof.
  induction entries as [|j entries IH]; simpl; intros st st' H.
  - injection H as <-. lia.
  - apply bind_Ok in H. destruct H as (st1 & E & H).
    apply IH in H. rewrite H.
    destruct st as [ex acc]. unfold InvoiceService.update_item in E.
    invert_ok E.
    destruct v1 as [[k old]|]; invert_ok E; injection E as <-; simpl;
      rewrite length_app; simpl; lia.
Qed.

Lemma assign_item_ids_length (l : list InvoiceItem) :
  forall n, List.length (assign_item_ids n l) = List.length l.
Proof.
  induction l as [|it l IH]; intros n; simpl; [reflexivity|].
  destruct (item_id it); simpl; now rewrite IH.
Qed.

(** X11.  An update that names [items] replaces the items of the invoice by one
    item for each entry of the request.  With an empty list the invoice is
    left without items and with a subtotal of 0, and it comes out PAID when
    nothing negative was paid. *)
Theorem update_replaces_items {py : PyLib} (db : Db) (invoice : Invoice) (data : dict)
    (entries : list json) (inv : Invoice) (db' : Db) :
  get "items" data = Some (JArr entries) ->
  InvoiceService.update_invoice db invoice data = (Ok inv, db') ->
  List.length (items inv) = List.length entries
  /\ (entries = [] ->
      items inv = [] /\ subtotal inv = 0%Q
      /\ ((0 <= amount_paid invoice)%Q -> status inv = PAID)).
Proof.
  intros Hitems H. apply update_invoice_Ok in H. apply update_invoice_body_shape in H.
  destruct H as (pre & -> & _ & _ & _ & _ & Hp & Hshape).
  rewrite Hitems in Hshape. destruct Hshape as (entries' & st & Hit & Hfor & Hst).
  injection Hit as <-.
  cbn [flush_items set_items items calculate_totals subtotal status].
  split.
  - rewrite assign_item_ids_length, Hst.
    apply update_items_length in Hfor. rewrite Hfor. reflexivity.
  - intros ->. simpl in Hfor. injection Hfor as <-. simpl in Hst. rewrite Hst.
    split; [reflexivity|]. split; [reflexivity|].
    intros Hpaid.
    destruct (status_after_totals pre) as (H1 & _).
    unfold calculate_totals in H1.
    cbn [amount_due status items tax_rate amount_paid] in H1.
    rewrite Hst in H1. apply H1. rewrite Hp. cbn [map sum fold_left].
    apply (Qplus_le_l _ _ (amount_paid invoice)). ring_simplify. exact Hpaid.
Qed.

Lemma update_replaces_items_witness :
  match InvoiceService.update_invoice (py := example_lib) (mkDb [invoice_270 DRAFT] [])
          (invoice_270 DRAFT) [("items", JArr [])] with
  | (Ok inv, db') => items inv = [] /\ subtotal inv = 0%Q /\ status inv = PAID
  | _ => False
  end.
Proof.
  destruct (InvoiceService.update_invoice _ _ _) as [[inv|e] db'] eqn:E;
    [|vm_compute in E; discriminate E].
  destruct (update_replaces_items (py := example_lib) _ _ [("items", JArr [])] [] _ _
              eq_refl E)
    as (_ & H).
  destruct (H eq_refl) as (Hi & Hs & Hst).
  repeat split; auto. apply Hst. vm_compute. discriminate.
Defined.

(** ** Keys of the stored invoices *)

Lemma store_invoice_keys (db : Db) (invoice inv : Invoice) :
  NoDup (map id (invoices db)) -> In invoice (invoices db) ->
  id inv = id invoice -> invoice_number inv = invoice_number invoice ->
  map id (invoices (store_invoice inv db)) = map id (invoices db)
  /\ map invoice_number (invoices (store_invoice inv db))
     = map invoice_number (invoices db).
Proof.
  intros Hnd Hin Hid Hnum. unfold store_invoice. cbn [invoices].
  rewrite !map_map. split; apply map_ext_in; intros i Hi;
    destruct (Z.eqb_spec (id i) (id inv)) as [E|E]; try reflexivity.
  - symmetry. exact E.
  - assert (i = invoice) by (eapply NoDup_map_inj; eauto; congruence).
    subst i. exact Hnum.
Qed.

Lemma keys_unique_store (db : Db) (invoice inv : Invoice) :
  keys_unique db -> In invoice (invoices db) ->
  id inv = id invoice -> invoice_number inv = invoice_number invoice ->
  keys_unique (store_invoice inv db).
Proof.
  intros (H1 & H2) Hin Hid Hnum. unfold keys_unique.
  destruct (store_invoice_keys db invoice inv H1 Hin Hid Hnum) as (-> & ->). auto.
Qed.

Lemma NoDup_snoc {A} (l : list A) (x : A) :
  NoDup l -> ~ In x l -> NoDup (l ++ [x]).
Proof.
  intros Hl Hx. apply NoDup_app; [exact Hl|constructor; [tauto|constructor]|].
  intros a Ha [->|[]]. contradiction.
Qed.

Lemma filter_map_NoDup {A B} (key : A -> B) (keep : A -> bool) (rows : list A) :
  NoDup (map key rows) -> NoDup (map key (filter keep rows)).
Proof.
  intros Hnd. induction rows as [|r rows IH]; cbn [filter map]; [constructor|].
  cbn [map] in Hnd. apply NoDup_cons_iff in Hnd. destruct Hnd as (Hnot & Hnd).
  destruct (keep r); cbn [map]; [|now apply IH].
  apply NoDup_cons; [|now apply IH].
  rewrite in_map_iff. intros (x & Hx & Hin).
  apply filter_In in Hin. apply Hnot. rewrite <- Hx. apply in_map. tauto.
Qed.

(** ** The route that creates an invoice, case by case *)

Lemma create_invoice_Raise {py : PyLib} db u data today e db' :
  InvoiceService.create_invoice db u data today = (Raise e, db') -> db' = db.
Proof.
  unfold InvoiceService.create_invoice.
  destruct (InvoiceService.first_missing data); [congruence|].
  destruct (get "items" data) as [[| | | |[|x l]|]|]; try congruence.
  apply transactional_Raise.
Qed.

(** The route that creates an invoice answers no request with 201, and
    stores nothing. *)
Lemma route_create_cases {py : PyLib} (db : Db) (u : Z) (data : dict) (today : date) :
  let (r, db') := InvoiceRoutes.create_invoice db u data today in
  (code r = 400 \/ code r = 500) /\ body r = None /\ db' = db.
Proof.
  unfold InvoiceRoutes.create_invoice.
  destruct (InvoiceService.first_missing data) as [field|]; [cbn; auto|].
  destruct (get "items" data) as [[| | | |[|x l]|]|]; try (cbn; auto).
  destruct (has "user_id" data || has "self" data); [cbn; auto|].
  destruct (create_invoice_raises db u data today) as (e & ->).
  destruct e; cbn; auto.
Qed.

Section KeyFacts.
Context {py : PyLib}.

Lemma route_update_cases db u invoice_id data :
  let (r, db') := InvoiceRoutes.update_invoice db u invoice_id data in
  (body r = None /\ code r <> 200 /\ db' = db)
  \/ (exists invoice inv,
        find_invoice db invoice_id u = Some invoice
        /\ InvoiceService.update_invoice db invoice data = (Ok inv, db')
        /\ r = mkResponse 200 "Invoice updated successfully" (Some inv)).
Proof.
  unfold InvoiceRoutes.update_invoice.
  destruct (find_invoice db invoice_id u) as [invoice|] eqn:Ef;
    [|left; repeat split; discriminate].
  destruct (_ && _); [left; repeat split; discriminate|].
  destruct (_ || _); [left; repeat split; discriminate|].
  destruct (InvoiceService.update_invoice db invoice data) as [[x|e] d] eqn:E.
  - right. exists invoice, x. auto.
  - assert (d = db).
    { unfold InvoiceService.update_invoice in E. now apply transactional_Raise in E. }
    subst d. destruct e; left; (split; [reflexivity|split; [discriminate|reflexivity]]).
Qed.

Lemma service_update_keys db invoice data inv db' :
  keys_unique db -> In invoice (invoices db) ->
  InvoiceService.update_invoice db invoice data = (Ok inv, db') ->
  keys_unique db'.
Proof.
  intros Hk Hin H. apply update_invoice_Ok in H. apply update_invoice_body_shape in H.
  destruct H as (pre & -> & -> & Hi & Hn & _).
  apply (keys_unique_store db invoice); auto.
Qed.

Lemma service_payment_keys db invoice amount payment_date inv t db' :
  keys_unique db -> In invoice (invoices db) ->
  InvoiceService.record_payment db invoice amount payment_date = (Ok (inv, t), db') ->
  keys_unique db'.
Proof.
  intros Hk Hin H. apply record_payment_Ok in H. apply record_payment_body_Ok in H.
  destruct H as (a & _ & _ & _ & -> & -> & _).
  apply (keys_unique_store db invoice); auto.
Qed.

Lemma route_step_keys u db db' :
  route_step u db db' -> keys_unique db -> keys_unique db'.
Proof.
  intros [d0 iid data r d1 H|d0 iid r d1 H|d0 iid data r d1 H|od d0 iid r d1 H
         |d0 data today r d1 H] Hk.
  - pose proof (route_update_cases d0 u iid data) as C. rewrite H in C.
    destruct C as [(_ & _ & ->)|(invoice & inv & Hf & Hs & _)]; [exact Hk|].
    apply find_invoice_Some in Hf. eapply service_update_keys; eauto. tauto.
  - unfold InvoiceRoutes.send_invoice in H.
    destruct (find_invoice d0 iid u) as [invoice|] eqn:Hf; injection H as _ <-;
      [|exact Hk].
    apply find_invoice_Some in Hf.
    apply (keys_unique_store d0 invoice); auto. tauto.
  - pose proof (route_record_payment_cases d0 u iid data) as C. rewrite H in C.
    destruct C as (_ & _ & ->). exact Hk.
  - unfold InvoiceRoutes.delete_invoice in H.
    destruct (find_invoice d0 iid u) as [invoice|]; [|injection H as _ <-; exact Hk].
    destruct (status_eqb (status invoice) PAID); [injection H as _ <-; exact Hk|].
    destruct (od (id invoice) (transactions d0)); injection H as _ <-; [|exact Hk].
    destruct Hk as (H1 & H2). split; cbn [invoices]; now apply filter_map_NoDup.
  - pose proof (route_create_cases d0 u data today) as C. rewrite H in C.
    destruct C as (_ & _ & ->). exact Hk.
Qed.

End KeyFacts.

(** X12.  The primary keys and the numbers of the stored invoices stay distinct
    when a stored invoice is updated or paid through the service, and after
    every request to the routes. *)
Theorem keys_stay_unique {py : PyLib} (db : Db) :
  keys_unique db ->
  (forall invoice data inv db',
      In invoice (invoices db) ->
      InvoiceService.update_invoice db invoice data = (Ok inv, db') -> keys_unique db')
  /\ (forall invoice amount payment_date inv t db',
        In invoice (invoices db) ->
        InvoiceService.record_payment db invoice amount payment_date = (Ok (inv, t), db') ->
        keys_unique db')
  /\ (forall u db', route_step u db db' -> keys_unique db').
Proof.
  intros Hk. split; [|split].
  - intros invoice data inv db' Hin H. eapply service_update_keys; eauto.
  - intros invoice amount payment_date inv t db' Hin H.
    eapply service_payment_keys; eauto.
  - intros u db' H. eapply route_step_keys; eauto.
Qed.

Lemma keys_stay_unique_witness :
  match InvoiceService.record_payment (py := example_lib)
          (mkDb [invoice_270 SENT; other_users_invoice] []) (invoice_270 SENT)
          (JNum 100) (mkdate 2024 2 1) with
  | (Ok (inv, t), db') => keys_unique db'
  | _ => False
  end
  /\ match InvoiceService.update_invoice (py := example_lib)
            (mkDb [invoice_270 SENT; other_users_invoice] []) (invoice_270 SENT)
            [("items", JArr [scenario_design])] with
     | (Ok inv, db') => keys_unique db'
     | _ => False
     end
  /\ keys_unique
       (snd (InvoiceRoutes.send_invoice (mkDb [invoice_270 SENT; other_users_invoice] [])
               2 2)).
Proof.
  assert (Hk : keys_unique (mkDb [invoice_270 SENT; other_users_invoice] [])).
  { split; (constructor; [cbn; intuition discriminate|]);
      (constructor; [intros []|constructor]). }
  destruct (keys_stay_unique (py := example_lib) _ Hk) as (Hu & Hp & Hr).
  split; [|split].
  - destruct (InvoiceService.record_payment _ _ _ _) as [[[inv t]|e] db'] eqn:E;
      [|vm_compute in E; discriminate E].
    exact (Hp _ _ _ _ _ _ (or_introl eq_refl) E).
  - destruct (InvoiceService.update_invoice _ _ _) as [[inv|e] db'] eqn:E;
      [|vm_compute in E; discriminate E].
    exact (Hu _ _ _ _ (or_introl eq_refl) E).
  - apply (Hr 2). eapply step_send. apply surjective_pairing.
Defined.

(** ** Reading invoice numbers back *)

Lemma span_digits_app (g s : string) :
  all_digits g ->
  match s with String c _ => is_digit c = false | EmptyString => True end ->
  span_digits (g ++ s) = (g, s).
Proof.
  unfold all_digits. intros Hg Hs. induction g as [|c g IH]; simpl.
  - destruct s as [|c s]; [reflexivity|]. simpl. now rewrite Hs.
  - simpl in Hg. apply andb_true_iff in Hg. destruct Hg as (Hc & Hg).
    rewrite Hc, IH by exact Hg. reflexivity.
Qed.

Lemma string_app_assoc (s t u : string) : ((s ++ t) ++ u = s ++ (t ++ u))%string.
Proof. induction s as [|c s IH]; simpl; [reflexivity|now rewrite IH]. Qed.

(** X13.  The number written for a year of four digits, a month and a sequence
    number is read back as that year, month and sequence number, also when
    text that does not start with a digit follows it. *)
Theorem invoice_number_round_trip (y m n : N) (suffix : string) :
  (1000 <= y <= 9999)%N -> (m <= 99)%N ->
  match suffix with String c _ => is_digit c = false | EmptyString => True end ->
  parsed (format_invoice_number y m n ++ suffix) = Some (y, m, n).
Proof.
  intros Hy Hm Hs. unfold parsed, match_invoice_number, format_invoice_number.
  rewrite !string_app_assoc.
  change (strip_prefix "INV-" ("INV-" ++ ?r)) with (Some r).
  cbv beta iota.
  rewrite <- (year_four_digits y Hy) at 1.
  rewrite take_digits_app by apply string_of_uint_digits.
  rewrite <- (month_two_digits m Hm) at 1.
  rewrite take_digits_app by apply zfill_digits.
  change (strip_prefix "-" ("-" ++ ?r)) with (Some r).
  cbv beta iota.
  rewrite span_digits_app by (auto using zfill_digits). cbn [fst].
  destruct (zfill 4 n) eqn:E; [exfalso; exact (zfill_nonempty _ _ E)|].
  rewrite <- E.
  now rewrite int_of_digits_str_N, !int_of_digits_zfill.
Qed.

Lemma invoice_number_round_trip_witness :
  parsed "INV-202401-0042" = Some (2024, 1, 42)%N
  /\ parsed "INV-202401-0042 (copy)" = Some (2024, 1, 42)%N.
Proof.
  split.
  - apply (invoice_number_round_trip 2024 1 42 ""); [lia|lia|exact I].
  - apply (invoice_number_round_trip 2024 1 42 " (copy)"); [lia|lia|reflexivity].
Defined.

(** ** One user's invoices and another user's requests *)

Lemma find_invoice_other_user (db : Db) (u : Z) (i : Invoice) :
  NoDup (map id (invoices db)) -> In i (invoices db) -> user_id i <> u ->
  find_invoice db (id i) u = None.
Proof.
  intros Hnd Hin Hu. unfold find_invoice.
  destruct (find _ (invoices db)) as [j|] eqn:E; [|reflexivity].
  apply find_some in E. destruct E as (Hj & E).
  apply andb_true_iff in E. destruct E as (E1 & E2).
  apply Z.eqb_eq in E1, E2.
  assert (j = i) by (eapply NoDup_map_inj; eauto). subst j. contradiction.
Qed.

Lemma store_invoice_keeps_others (db : Db) (invoice inv i : Invoice) :
  NoDup (map id (invoices db)) -> In invoice (invoices db) -> In i (invoices db) ->
  id inv = id invoice -> i <> invoice ->
  In i (invoices (store_invoice inv db)).
Proof.
  intros Hnd Hinv Hi Hid Hne. unfold store_invoice. cbn [invoices].
  apply in_map_iff. exists i. split; [|exact Hi].
  destruct (Z.eqb_spec (id i) (id inv)) as [E|E]; [|reflexivity].
  exfalso. apply Hne. eapply NoDup_map_inj; eauto. congruence.
Qed.

(** X14.  The invoice of a user is not found by the requests of another user:
    reading, updating, sending and deleting it is answered with 404, a
    payment on it is refused, and the store stays as it is. *)
Theorem other_users_invoice_not_found {py : PyLib} (db : Db) (u : Z) (i : Invoice) :
  NoDup (map id (invoices db)) -> In i (invoices db) -> user_id i <> u ->
  InvoiceRoutes.get_invoice db u (id i) = InvoiceRoutes.not_found
  /\ (forall data,
        InvoiceRoutes.update_invoice db u (id i) data = (InvoiceRoutes.not_found, db))
  /\ InvoiceRoutes.send_invoice db u (id i) = (InvoiceRoutes.not_found, db)
  /\ (forall on_delete,
        InvoiceRoutes.delete_invoice on_delete db u (id i) = (InvoiceRoutes.not_found, db))
  /\ (forall data,
        snd (InvoiceRoutes.record_payment db u (id i) data) = db
        /\ code (fst (InvoiceRoutes.record_payment db u (id i) data)) <> 200).
Proof.
  intros Hnd Hin Hu.
  pose proof (find_invoice_other_user db u i Hnd Hin Hu) as Hf.
  unfold InvoiceRoutes.get_invoice, InvoiceRoutes.update_invoice,
    InvoiceRoutes.send_invoice, InvoiceRoutes.delete_invoice.
  rewrite Hf. repeat split.
  - pose proof (route_record_payment_cases db u (id i) data) as C.
    destruct (InvoiceRoutes.record_payment db u (id i) data) as [r db'].
    destruct C as (_ & _ & ->). reflexivity.
  - pose proof (route_record_payment_cases db u (id i) data) as C.
    destruct (InvoiceRoutes.record_payment db u (id i) data) as [r db'].
    destruct C as (_ & Hc & _). exact Hc.
Qed.

Lemma other_users_invoice_not_found_witness :
  InvoiceRoutes.get_invoice (mkDb [invoice_paid] []) 2 1 = InvoiceRoutes.not_found
  /\ InvoiceRoutes.send_invoice (mkDb [invoice_paid] []) 2 1
     = (InvoiceRoutes.not_found, mkDb [invoice_paid] []).
Proof.
  destruct (other_users_invoice_not_found (py := example_lib) (mkDb [invoice_paid] []) 2
              invoice_paid) as (H1 & _ & H3 & _).
  - constructor; [intros []|constructor].
  - left. reflexivity.
  - discriminate.
  - split; assumption.
Defined.

(** X15.  Whatever a user asks of the invoice routes, the invoices of the other
    users stay in the store as they are. *)
Theorem routes_keep_other_users_invoices {py : PyLib} (u : Z) (db db' : Db) (i : Invoice) :
  route_step u db db' ->
  NoDup (map id (invoices db)) -> In i (invoices db) -> user_id i <> u ->
  In i (invoices db').
Proof.
  intros Hstep Hnd Hin Hu.
  assert (Hstore : forall invoice inv iid,
             find_invoice db iid u = Some invoice -> id inv = id invoice ->
             In i (invoices (store_invoice inv db))).
  { intros invoice inv iid Hf Hid. apply find_invoice_Some in Hf.
    destruct Hf as (_ & Hfu & Hfin).
    apply (store_invoice_keeps_others db invoice); auto. congruence. }
  revert Hnd Hin Hu Hstore.
  destruct Hstep as [d0 iid data r d1 H|d0 iid r d1 H|d0 iid data r d1 H|od d0 iid r d1 H
                    |d0 data today r d1 H];
    intros Hnd Hin Hu Hstore.
  - pose proof (route_update_cases d0 u iid data) as C. rewrite H in C.
    destruct C as [(_ & _ & ->)|(invoice & inv & Hf & Hs & _)]; [exact Hin|].
    apply update_invoice_Ok in Hs. apply update_invoice_body_shape in Hs.
    destruct Hs as (pre & -> & -> & Hid & _).
    eapply Hstore; eauto.
  - unfold InvoiceRoutes.send_invoice in H.
    destruct (find_invoice d0 iid u) as [invoice|] eqn:Hf; injection H as _ <-;
      [|exact Hin].
    eapply Hstore; eauto.
  - pose proof (route_record_payment_cases d0 u iid data) as C. rewrite H in C.
    destruct C as (_ & _ & ->). exact Hin.
  - unfold InvoiceRoutes.delete_invoice in H.
    destruct (find_invoice d0 iid u) as [invoice|] eqn:Hf; [|injection H as _ <-; exact Hin].
    destruct (status_eqb (status invoice) PAID); [injection H as _ <-; exact Hin|].
    destruct (od (id invoice) (transactions d0)); injection H as _ <-; [|exact Hin].
    cbn [invoices]. apply filter_In. split; [exact Hin|].
    apply negb_true_iff. apply Z.eqb_neq. intros E.
    apply find_invoice_Some in Hf. destruct Hf as (_ & Hfu & Hfin).
    assert (i = invoice) by (eapply NoDup_map_inj; eauto). congruence.
  - pose proof (route_create_cases d0 u data today) as C. rewrite H in C.
    destruct C as (_ & _ & ->). exact Hin.
Qed.

Lemma routes_keep_other_users_invoices_witness :
  In other_users_invoice
     (invoices (snd (InvoiceRoutes.record_payment (py := example_lib)
                       (mkDb [invoice_270 SENT; other_users_invoice] []) 1 1
                       [("amount", JNum 100); ("payment_date", JStr "2024-02-01")]))).
Proof.
  apply (routes_keep_other_users_invoices (py := example_lib) 1
           (mkDb [invoice_270 SENT; other_users_invoice] [])).
  - eapply step_payment. apply surjective_pairing.
  - constructor; [intros [H|[]]; discriminate H|constructor; [intros []|constructor]].
  - right. left. reflexivity.
  - discriminate.
Defined.

(** ** Deleting an invoice *)

(** X16.  A PAID invoice is not deleted.  Any other invoice of the user, a
    PARTIALLY_PAID one included, is deleted when the store accepts it: it is
    no longer found, and the other invoices stay. *)
Theorem delete_invoice_gate
    (on_delete : Z -> list Transaction -> option (list Transaction))
    (db : Db) (u invoice_id : Z) (invoice : Invoice) :
  find_invoice db invoice_id u = Some invoice ->
  (status invoice = PAID ->
   InvoiceRoutes.delete_invoice on_delete db u invoice_id
   = (InvoiceRoutes.paid_not_deleted, db))
  /\ (forall ledger,
        status invoice <> PAID ->
        on_delete (id invoice) (transactions db) = Some ledger ->
        exists db',
          InvoiceRoutes.delete_invoice on_delete db u invoice_id
          = (mkResponse 200 "Invoice deleted successfully" None, db')
          /\ transactions db' = ledger
          /\ find_invoice db' invoice_id u = None
          /\ (forall i, In i (invoices db) -> id i <> invoice_id -> In i (invoices db')))
  /\ (status invoice <> PAID ->
      on_delete (id invoice) (transactions db) = None ->
      InvoiceRoutes.delete_invoice on_delete db u invoice_id
      = (error_response 500 "Failed to delete invoice", db)).
Proof.
  intros Hf. destruct (find_invoice_Some _ _ _ _ Hf) as (Hid & _ & _).
  unfold InvoiceRoutes.delete_invoice. rewrite Hf. split; [|split].
  - intros ->. reflexivity.
  - intros ledger Hs Hod.
    destruct (status_eqb (status invoice) PAID) eqn:E;
      [apply status_eqb_eq in E; contradiction|].
    rewrite Hod. eexists. split; [reflexivity|]. split; [reflexivity|]. split.
    + unfold find_invoice. cbn [invoices].
      destruct (find _ (filter _ _)) as [j|] eqn:Ej; [|reflexivity].
      apply find_some in Ej. destruct Ej as (Hj & Ej).
      apply filter_In in Hj. destruct Hj as (_ & Hj).
      apply andb_true_iff in Ej. destruct Ej as (Ej & _).
      apply Z.eqb_eq in Ej. apply negb_true_iff in Hj. apply Z.eqb_neq in Hj.
      congruence.
    + intros i Hi Hne. cbn [invoices]. apply filter_In. split; [exact Hi|].
      apply negb_true_iff. apply Z.eqb_neq. congruence.
  - intros Hs Hod.
    destruct (status_eqb (status invoice) PAID) eqn:E;
      [apply status_eqb_eq in E; contradiction|].
    rewrite Hod. reflexivity.
Qed.

Lemma delete_invoice_gate_witness :
  InvoiceRoutes.delete_invoice (fun _ ledger => Some ledger) (mkDb [invoice_paid] []) 1 1
  = (InvoiceRoutes.paid_not_deleted, mkDb [invoice_paid] [])
  /\ exists db',
      InvoiceRoutes.delete_invoice (fun _ ledger => Some ledger)
        (mkDb [invoice_270 PARTIALLY_PAID] []) 1 1
      = (mkResponse 200 "Invoice deleted successfully" None, db')
      /\ find_invoice db' 1 1 = None.
Proof.
  split.
  - apply (delete_invoice_gate (fun _ ledger => Some ledger)
             (mkDb [invoice_paid] []) 1 1 invoice_paid eq_refl).
    reflexivity.
  - destruct (delete_invoice_gate (fun _ ledger => Some ledger)
                (mkDb [invoice_270 PARTIALLY_PAID] []) 1 1 (invoice_270 PARTIALLY_PAID)
                eq_refl) as (_ & H & _).
    destruct (H [] ltac:(discriminate) eq_refl) as (db' & E & _ & Hn & _).
    exists db'. split; assumption.
Defined.

(** ** Sending through the service *)

(** X17.  When the e-mail cannot be sent because the client has no address, the
    service raises, but a DRAFT has already been stored as SENT: the failure
    does not undo the change of status. *)
Theorem send_failure_keeps_sent (db : Db) (invoice : Invoice) (client_email : option string) :
  find_invoice db (id invoice) (user_id invoice) = Some invoice ->
  status invoice = DRAFT ->
  client_email = None \/ client_email = Some "" ->
  exists db',
    InvoiceService.send_invoice db invoice true client_email
    = (Raise (Exception "Failed to send invoice: Client email not found"), db')
    /\ option_map status (find_invoice db' (id invoice) (user_id invoice)) = Some SENT.
Proof.
  intros Hf Hs He. unfold InvoiceService.send_invoice. rewrite Hs. cbn [status_eqb].
  eexists. split.
  - destruct He as [-> | ->]; reflexivity.
  - change (status_eqb DRAFT DRAFT) with true. cbv iota.
    rewrite (find_invoice_store db _ _ invoice (set_status SENT invoice) Hf eq_refl eq_refl).
    reflexivity.
Qed.

Lemma send_failure_keeps_sent_witness :
  exists db',
    InvoiceService.send_invoice (mkDb [invoice_270 DRAFT] []) (invoice_270 DRAFT) true None
    = (Raise (Exception "Failed to send invoice: Client email not found"), db')
    /\ option_map status (find_invoice db' 1 1) = Some SENT.
Proof.
  apply (send_failure_keeps_sent (mkDb [invoice_270 DRAFT] []) (invoice_270 DRAFT) None);
    [reflexivity|reflexivity|left; reflexivity].
Defined.

(** * Further properties of the reports *)

(** ** Sums of amounts *)

Lemma sum_from (l : list Q) (a : Q) : (fold_left Qplus l a == a + sum l)%Q.
Proof.
  unfold sum. revert a. induction l as [|x l IH]; intros a; simpl.
  - ring.
  - rewrite IH, (IH (0 + x)%Q). ring.
Qed.

Lemma sum_cons (x : Q) (l : list Q) : (sum (x :: l) == x + sum l)%Q.
Proof. unfold sum at 1. simpl. rewrite sum_from. ring. Qed.

Lemma sum_nil : sum [] = 0%Q.
Proof. reflexivity. Qed.

Lemma sum_app (l l' : list Q) : (sum (l ++ l') == sum l + sum l')%Q.
Proof.
  induction l as [|x l IH]; simpl.
  - rewrite sum_nil. ring.
  - rewrite !sum_cons, IH. ring.
Qed.

Lemma sum_where_cons {A} (value : A -> Q) (test : A -> bool) (x : A) (l : list A) :
  (sum_where value test (x :: l)
   == (if test x then value x else 0) + sum_where value test l)%Q.
Proof.
  unfold sum_where. simpl. destruct (test x); simpl.
  - apply sum_cons.
  - ring.
Qed.

Lemma sum_where_nil {A} (value : A -> Q) (test : A -> bool) :
  sum_where value test [] = 0%Q.
Proof. reflexivity. Qed.

Lemma sum_where_ext {A} (value : A -> Q) (test test' : A -> bool) (l : list A) :
  (forall x, In x l -> test x = test' x) ->
  sum_where value test l = sum_where value test' l.
Proof.
  intros H. unfold sum_where. f_equal. f_equal.
  induction l as [|x l IH]; [reflexivity|]. cbn [filter].
  rewrite (H x (or_introl eq_refl)), IH; [reflexivity|].
  intros y Hy. apply H. right. exact Hy.
Qed.

Lemma type_eqb_eq (a b : TransactionType) : type_eqb a b = true <-> a = b.
Proof. destruct a, b; split; intros H; try reflexivity; discriminate H. Qed.

(** ** Groups and their totals *)

Section GroupTotals.
Context {K : Type} (K_eqb K_leb : K -> K -> bool).
Hypothesis K_eqb_eq : forall a b, K_eqb a b = true <-> a = b.

Lemma add_to_group_sum (test : row K -> bool) (k : K) (ty : TransactionType) (a : Q)
    (rows : list (row K)) :
  (forall r r', row_period r = row_period r' -> row_type r = row_type r' ->
                test r = test r') ->
  (sum_where row_total test (add_to_group K_eqb k ty a rows)
   == sum_where row_total test rows + (if test (mkRow k ty a) then a else 0))%Q.
Proof.
  intros Htest. induction rows as [|r rows IH]; simpl.
  - rewrite sum_where_cons, !sum_where_nil. cbn [row_total]. ring.
  - destruct (K_eqb (row_period r) k && type_eqb (row_type r) ty) eqn:E.
    + apply andb_true_iff in E. destruct E as (E1 & E2).
      apply K_eqb_eq in E1. apply type_eqb_eq in E2.
      rewrite !sum_where_cons. cbn [row_total].
      rewrite (Htest (mkRow k ty (row_total r + a)) (mkRow k ty a)) by reflexivity.
      rewrite (Htest r (mkRow k ty a)) by (simpl; auto).
      destruct (test (mkRow k ty a)); ring.
    + rewrite !sum_where_cons, IH. ring.
Qed.

Lemma insert_row_sum (test : row K -> bool) (r : row K) (rows : list (row K)) :
  (sum_where row_total test (insert_row K_leb r rows)
   == sum_where row_total test (r :: rows))%Q.
Proof.
  induction rows as [|x rows IH]; simpl; [reflexivity|].
  destruct (K_leb (row_period x) (row_period r)).
  - rewrite sum_where_cons, IH, !sum_where_cons. ring.
  - reflexivity.
Qed.

Lemma order_by_period_sum (test : row K -> bool) (rows : list (row K)) :
  (sum_where row_total test (order_by_period K_leb rows)
   == sum_where row_total test rows)%Q.
Proof.
  unfold order_by_period.
  assert (H : forall acc,
             (sum_where row_total test
                (fold_left (fun acc r => insert_row K_leb r acc) rows acc)
              == sum_where row_total test rows + sum_where row_total test acc)%Q).
  { induction rows as [|x rows IH]; intros acc; simpl.
    - rewrite sum_where_nil. ring.
    - rewrite IH, insert_row_sum, !sum_where_cons. ring. }
  rewrite H, sum_where_nil. ring.
Qed.

(** The totals of the rows of the grouped query are the sums of the amounts
    of the transactions of the groups. *)
Lemma grouped_sum (period_of : date -> K) (test : K -> TransactionType -> bool)
    (txns : list Transaction) :
  (sum_where row_total (fun r => test (row_period r) (row_type r))
     (grouped K_eqb K_leb period_of txns)
   == sum_where txn_amount (fun t => test (period_of (txn_date t)) (txn_type t)) txns)%Q.
Proof.
  unfold grouped. rewrite order_by_period_sum.
  assert (H : forall rows,
             (sum_where row_total (fun r => test (row_period r) (row_type r))
                (fold_left
                   (fun rows t => add_to_group K_eqb (period_of (txn_date t))
                                    (txn_type t) (txn_amount t) rows) txns rows)
              == sum_where row_total (fun r => test (row_period r) (row_type r)) rows
                 + sum_where txn_amount
                     (fun t => test (period_of (txn_date t)) (txn_type t)) txns)%Q).
  { induction txns as [|t txns IH]; intros rows; simpl.
    - rewrite sum_where_nil. ring.
    - rewrite IH, add_to_group_sum, sum_where_cons.
      + cbn [row_period row_type]. ring.
      + intros r r' -> ->. reflexivity. }
  rewrite H, sum_where_nil. ring.
Qed.

Lemma insert_row_In_iff (x r : row K) (l : list (row K)) :
  In r (insert_row K_leb x l) <-> r = x \/ In r l.
Proof.
  induction l as [|y l IH]; simpl; [intuition auto|].
  destruct (K_leb (row_period y) (row_period x)); simpl; [|intuition auto].
  rewrite IH. intuition auto.
Qed.

Lemma order_by_period_In_iff (r : row K) (l : list (row K)) :
  In r (order_by_period K_leb l) <-> In r l.
Proof.
  unfold order_by_period.
  assert (H : forall acc, In r (fold_left (fun acc r => insert_row K_leb r acc) l acc)
                          <-> In r l \/ In r acc).
  { induction l as [|x l IH]; simpl; intros acc; [tauto|].
    rewrite IH, insert_row_In_iff. intuition auto. }
  rewrite H. simpl. tauto.
Qed.

Lemma add_to_group_period (k : K) (ty : TransactionType) (a : Q) (rows : list (row K)) :
  (exists r, In r (add_to_group K_eqb k ty a rows) /\ row_period r = k)
  /\ (forall r, In r rows ->
        exists r', In r' (add_to_group K_eqb k ty a rows) /\ row_period r' = row_period r).
Proof.
  induction rows as [|x rows (IH1 & IH2)]; simpl.
  - split; [eexists; split; [left; reflexivity|reflexivity]|intros r []].
  - destruct (K_eqb (row_period x) k && type_eqb (row_type x) ty) eqn:E.
    + apply andb_true_iff in E. destruct E as (E1 & _). apply K_eqb_eq in E1.
      split.
      * eexists. split; [left; reflexivity|reflexivity].
      * intros r [<-|Hr].
        -- eexists. split; [left; reflexivity|]. simpl. congruence.
        -- exists r. split; [right; exact Hr|reflexivity].
    + split.
      * destruct IH1 as (r & Hr & Hk). exists r. split; [right; exact Hr|exact Hk].
      * intros r [<-|Hr].
        -- exists x. split; [left; reflexivity|reflexivity].
        -- destruct (IH2 r Hr) as (r' & Hr' & Hk). exists r'. split; [right; exact Hr'|exact Hk].
Qed.

(** Every transaction has a row of its period. *)
Lemma grouped_period (period_of : date -> K) (txns : list Transaction) (t : Transaction) :
  In t txns ->
  exists r, In r (grouped K_eqb K_leb period_of txns)
            /\ row_period r = period_of (txn_date t).
Proof.
  unfold grouped. intros Ht.
  assert (H : forall rows,
             (forall r, In r rows ->
                exists r', In r' (fold_left
                     (fun rows t => add_to_group K_eqb (period_of (txn_date t))
                                      (txn_type t) (txn_amount t) rows) txns rows)
                           /\ row_period r' = row_period r)
             /\ exists r, In r (fold_left
                     (fun rows t => add_to_group K_eqb (period_of (txn_date t))
                                      (txn_type t) (txn_amount t) rows) txns rows)
                          /\ row_period r = period_of (txn_date t)).
  { revert Ht. induction txns as [|x txns IH]; intros Ht rows; [destruct Ht|].
    simpl.
    destruct (add_to_group_period (period_of (txn_date x)) (txn_type x) (txn_amount x) rows)
      as (A1 & A2).
    assert (Keep : forall rows0 r, In r rows0 ->
               exists r', In r' (fold_left
                     (fun rows t => add_to_group K_eqb (period_of (txn_date t))
                                      (txn_type t) (txn_amount t) rows) txns rows0)
                          /\ row_period r' = row_period r).
    { clear - K_eqb_eq. induction txns as [|y txns IHt]; intros rows0 r Hr; simpl; [eauto|].
      destruct (add_to_group_period (period_of (txn_date y)) (txn_type y) (txn_amount y) rows0)
        as (_ & B2).
      destruct (B2 r Hr) as (r1 & Hr1 & E1).
      destruct (IHt _ r1 Hr1) as (r2 & Hr2 & E2).
      exists r2. split; [exact Hr2|congruence]. }
    split.
    - intros r Hr. destruct (A2 r Hr) as (r1 & Hr1 & E1).
      destruct (Keep _ r1 Hr1) as (r2 & Hr2 & E2). exists r2. split; [exact Hr2|congruence].
    - destruct Ht as [->|Ht].
      + destruct A1 as (r1 & Hr1 & E1).
        destruct (Keep _ r1 Hr1) as (r2 & Hr2 & E2). exists r2. split; [exact Hr2|congruence].
      + destruct (IH Ht (add_to_group K_eqb (period_of (txn_date x)) (txn_type x)
                           (txn_amount x) rows)) as (_ & H). exact H. }
  destruct (H []) as (_ & r & Hr & E).
  exists r. split; [|exact E]. now apply order_by_period_In_iff.
Qed.

End GroupTotals.

(** ** The entries of the income and expense report *)

Lemma sum_where_perm {A} (value : A -> Q) (test : A -> bool) (l l' : list A) :
  Permutation l l' -> (sum_where value test l == sum_where value test l')%Q.
Proof.
  induction 1 as [|x l l' _ IH|x y l|l l' l'' _ IH1 _ IH2].
  - reflexivity.
  - rewrite !sum_where_cons, IH. reflexivity.
  - rewrite !sum_where_cons. ring.
  - rewrite IH1. exact IH2.
Qed.

Lemma date_eqb_eq (a b : date) : date_eqb a b = true <-> a = b.
Proof.
  unfold date_eqb. rewrite !andb_true_iff, !Z.eqb_eq.
  destruct a, b; cbn [year month day]; split.
  - intros ((-> & ->) & ->). reflexivity.
  - intros [= -> -> ->]. auto.
Qed.

Lemma date_leb_total (a b : date) : date_leb a b = true \/ date_leb b a = true.
Proof.
  unfold date_leb, date_ltb, date_eqb.
  rewrite !orb_true_iff, !andb_true_iff, !orb_true_iff, !andb_true_iff,
    !Z.ltb_lt, !Z.eqb_eq.
  lia.
Qed.

Lemma key_eqb_eq (a b : IncomeExpense.period_key) :
  IncomeExpense.key_eqb a b = true <-> a = b.
Proof.
  destruct a, b; simpl; try (split; discriminate).
  - rewrite Z.eqb_eq. split; [intros ->; reflexivity|intros [= ->]; reflexivity].
  - rewrite String.eqb_eq. split; [intros ->; reflexivity|intros [= ->]; reflexivity].
  - rewrite date_eqb_eq. split; [intros ->; reflexivity|intros [= ->]; reflexivity].
Qed.

(** The keys of one report are of one kind, and two keys of one kind are
    comparable. *)
Lemma date_part_total (group_by : string) (part : date -> IncomeExpense.period_key)
    (d d' : date) :
  IncomeExpense.date_part group_by = Some part ->
  IncomeExpense.key_leb (part d) (part d') = true
  \/ IncomeExpense.key_leb (part d') (part d) = true.
Proof.
  unfold IncomeExpense.date_part.
  destruct (String.eqb group_by "year"); [intros [= <-]; simpl; lia|].
  destruct (String.eqb group_by "month"); [intros [= <-]; apply String.leb_total|].
  destruct (String.eqb group_by "week"); [intros [= <-]; apply String.leb_total|].
  destruct (String.eqb group_by "day"); [intros [= <-]; apply date_leb_total|].
  discriminate.
Qed.

Lemma apply_row_fields (r : row IncomeExpense.period_key) (e : IncomeExpense.entry) :
  IncomeExpense.period (IncomeExpense.apply_row r e) = IncomeExpense.period e
  /\ IncomeExpense.income (IncomeExpense.apply_row r e)
     = (if type_eqb (row_type r) INCOME
        then IncomeExpense.income e + row_total r else IncomeExpense.income e)%Q
  /\ IncomeExpense.expense (IncomeExpense.apply_row r e)
     = (if type_eqb (row_type r) INCOME
        then IncomeExpense.expense e else IncomeExpense.expense e + row_total r)%Q
  /\ IncomeExpense.net (IncomeExpense.apply_row r e)
     = (IncomeExpense.income (IncomeExpense.apply_row r e)
        - IncomeExpense.expense (IncomeExpense.apply_row r e))%Q.
Proof.
  unfold IncomeExpense.apply_row. destruct (type_eqb (row_type r) INCOME); repeat split.
Qed.

Lemma add_row_income (ptest : IncomeExpense.period_key -> bool)
    (r : row IncomeExpense.period_key) (l : list IncomeExpense.entry) :
  (sum_where IncomeExpense.income (fun e => ptest (IncomeExpense.period e))
     (IncomeExpense.add_row r l)
   == sum_where IncomeExpense.income (fun e => ptest (IncomeExpense.period e)) l
      + (if ptest (row_period r) && type_eqb (row_type r) INCOME
         then row_total r else 0))%Q.
Proof.
  induction l as [|e l IH]; cbn [IncomeExpense.add_row].
  - destruct (apply_row_fields r (IncomeExpense.mkEntry (row_period r) 0 0 0))
      as (Hp & Hi & _).
    rewrite sum_where_cons, Hp, Hi, sum_where_nil. cbn [IncomeExpense.period IncomeExpense.income].
    destruct (ptest (row_period r)), (type_eqb (row_type r) INCOME); simpl; ring.
  - destruct (IncomeExpense.key_eqb (IncomeExpense.period e) (row_period r)) eqn:E.
    + apply key_eqb_eq in E. destruct (apply_row_fields r e) as (Hp & Hi & _).
      rewrite !sum_where_cons, Hp, Hi, E.
      destruct (ptest (row_period r)), (type_eqb (row_type r) INCOME); simpl; ring.
    + rewrite !sum_where_cons, IH. ring.
Qed.

Lemma add_row_expense (ptest : IncomeExpense.period_key -> bool)
    (r : row IncomeExpense.period_key) (l : list IncomeExpense.entry) :
  (sum_where IncomeExpense.expense (fun e => ptest (IncomeExpense.period e))
     (IncomeExpense.add_row r l)
   == sum_where IncomeExpense.expense (fun e => ptest (IncomeExpense.period e)) l
      + (if ptest (row_period r) && negb (type_eqb (row_type r) INCOME)
         then row_total r else 0))%Q.
Proof.
  induction l as [|e l IH]; cbn [IncomeExpense.add_row].
  - destruct (apply_row_fields r (IncomeExpense.mkEntry (row_period r) 0 0 0))
      as (Hp & _ & He & _).
    rewrite sum_where_cons, Hp, He, sum_where_nil. cbn [IncomeExpense.period IncomeExpense.expense].
    destruct (ptest (row_period r)), (type_eqb (row_type r) INCOME); simpl; ring.
  - destruct (IncomeExpense.key_eqb (IncomeExpense.period e) (row_period r)) eqn:E.
    + apply key_eqb_eq in E. destruct (apply_row_fields r e) as (Hp & _ & He & _).
      rewrite !sum_where_cons, Hp, He, E.
      destruct (ptest (row_period r)), (type_eqb (row_type r) INCOME); simpl; ring.
    + rewrite !sum_where_cons, IH. ring.
Qed.

(** The periods of [result] after a row: the period of the row is entered
    at the end when it is new. *)
Lemma add_row_periods (r : row IncomeExpense.period_key) (l : list IncomeExpense.entry) :
  (In (row_period r) (map IncomeExpense.period l)
   /\ map IncomeExpense.period (IncomeExpense.add_row r l) = map IncomeExpense.period l)
  \/ (~ In (row_period r) (map IncomeExpense.period l)
      /\ map IncomeExpense.period (IncomeExpense.add_row r l)
         = (map IncomeExpense.period l ++ [row_period r])%list).
Proof.
  induction l as [|e l IH]; cbn [IncomeExpense.add_row].
  - right. split; [intros []|].
    cbn [map]. now rewrite (proj1 (apply_row_fields r _)).
  - destruct (IncomeExpense.key_eqb (IncomeExpense.period e) (row_period r)) eqn:E.
    + apply key_eqb_eq in E. left. split; [left; exact E|].
      cbn [map]. now rewrite (proj1 (apply_row_fields r e)).
    + assert (Hne : IncomeExpense.period e <> row_period r).
      { intros H. apply key_eqb_eq in H. congruence. }
      destruct IH as [(Hin & Heq)|(Hin & Heq)].
      * left. split; [right; exact Hin|]. cbn [map]. now rewrite Heq.
      * right. split; [intros [H|H]; tauto|]. cbn [map app]. now rewrite Heq.
Qed.

Lemma add_row_net (r : row IncomeExpense.period_key) (l : list IncomeExpense.entry) :
  (forall e, In e l ->
     IncomeExpense.net e = (IncomeExpense.income e - IncomeExpense.expense e)%Q) ->
  forall e, In e (IncomeExpense.add_row r l) ->
    IncomeExpense.net e = (IncomeExpense.income e - IncomeExpense.expense e)%Q.
Proof.
  induction l as [|x l IH]; cbn [IncomeExpense.add_row]; intros Hl e.
  - intros [<-|[]]. apply apply_row_fields.
  - destruct (IncomeExpense.key_eqb (IncomeExpense.period x) (row_period r)).
    + intros [<-|He]; [apply apply_row_fields|apply Hl; right; exact He].
    + intros [<-|He]; [apply Hl; left; reflexivity|].
      apply IH; [|exact He]. intros e' He'. apply Hl. right. exact He'.
Qed.

(** The loop over the rows of the query. *)
Lemma add_rows_spec (rows : list (row IncomeExpense.period_key)) :
  let result := fold_left (fun acc r => IncomeExpense.add_row r acc) rows [] in
  (forall ptest,
      (sum_where IncomeExpense.income (fun e => ptest (IncomeExpense.period e)) result
       == sum_where row_total
            (fun r => ptest (row_period r) && type_eqb (row_type r) INCOME) rows)%Q
      /\ (sum_where IncomeExpense.expense (fun e => ptest (IncomeExpense.period e)) result
          == sum_where row_total
               (fun r => ptest (row_period r) && negb (type_eqb (row_type r) INCOME)) rows)%Q)
  /\ NoDup (map IncomeExpense.period result)
  /\ (forall k, In k (map IncomeExpense.period result) <-> In k (map row_period rows))
  /\ (forall e, In e result ->
        IncomeExpense.net e = (IncomeExpense.income e - IncomeExpense.expense e)%Q).
Proof.
  assert (H : forall acc,
    let result := fold_left (fun acc r => IncomeExpense.add_row r acc) rows acc in
    (forall ptest,
        (sum_where IncomeExpense.income (fun e => ptest (IncomeExpense.period e)) result
         == sum_where IncomeExpense.income (fun e => ptest (IncomeExpense.period e)) acc
            + sum_where row_total
                (fun r => ptest (row_period r) && type_eqb (row_type r) INCOME) rows)%Q
        /\ (sum_where IncomeExpense.expense (fun e => ptest (IncomeExpense.period e)) result
            == sum_where IncomeExpense.expense (fun e => ptest (IncomeExpense.period e)) acc
               + sum_where row_total
                   (fun r => ptest (row_period r) && negb (type_eqb (row_type r) INCOME))
                   rows)%Q)
    /\ (NoDup (map IncomeExpense.period acc) -> NoDup (map IncomeExpense.period result))
    /\ (forall k, In k (map IncomeExpense.period result)
                  <-> In k (map IncomeExpense.period acc) \/ In k (map row_period rows))
    /\ ((forall e, In e acc ->
           IncomeExpense.net e = (IncomeExpense.income e - IncomeExpense.expense e)%Q) ->
        forall e, In e result ->
           IncomeExpense.net e = (IncomeExpense.income e - IncomeExpense.expense e)%Q)).
  { induction rows as [|r rows IH]; intros acc; cbn [fold_left].
    - cbv zeta. split; [|split; [auto|split; [simpl; tauto|auto]]].
      intros ptest. rewrite !sum_where_nil. split; ring.
    - cbv zeta. destruct (IH (IncomeExpense.add_row r acc)) as (S & N & P & T).
      cbv zeta in S, N, P, T.
      split; [|split; [|split]].
      + intros ptest. destruct (S ptest) as (S1 & S2).
        rewrite S1, S2, add_row_income, add_row_expense, !sum_where_cons. split; ring.
      + intros Hacc. apply N.
        destruct (add_row_periods r acc) as [(_ & ->)|(Hin & ->)]; [exact Hacc|].
        apply NoDup_app; [exact Hacc|repeat constructor; intros []|].
        intros k Hk [<-|[]]. exact (Hin Hk).
      + intros k. rewrite P. cbn [map In].
        destruct (add_row_periods r acc) as [(Hin & ->)|(Hin & ->)].
        * split; [tauto|]. intros [H|[<-|H]]; auto.
        * rewrite in_app_iff. cbn [In]. tauto.
      + intros Hacc. apply T. now apply add_row_net. }
  cbv zeta. destruct (H []) as (S & N & P & T). cbv zeta in S, N, P, T.
  split; [|split; [apply N; constructor|split; [|apply T; intros e []]]].
  - intros ptest. destruct (S ptest) as (S1 & S2).
    rewrite S1, S2, !sum_where_nil. split; ring.
  - intros k. rewrite P. simpl. tauto.
Qed.

Lemma insert_entry_perm (e : IncomeExpense.entry) (l : list IncomeExpense.entry) :
  Permutation (IncomeExpense.insert_entry e l) (e :: l).
Proof.
  induction l as [|x l IH]; cbn [IncomeExpense.insert_entry]; [reflexivity|].
  destruct (IncomeExpense.key_leb _ _); [|reflexivity].
  rewrite IH. apply perm_swap.
Qed.

Lemma sorted_perm (l : list IncomeExpense.entry) : Permutation (IncomeExpense.sorted l) l.
Proof.
  unfold IncomeExpense.sorted.
  assert (H : forall acc,
             Permutation (fold_left (fun acc e => IncomeExpense.insert_entry e acc) l acc)
               (l ++ acc)).
  { induction l as [|x l IH]; intros acc; cbn [fold_left app]; [reflexivity|].
    rewrite IH, insert_entry_perm. symmetry. apply Permutation_middle. }
  rewrite H. now rewrite List.app_nil_r.
Qed.

(** Entries in ascending order of their periods. *)
Lemma insert_entry_ascending (e : IncomeExpense.entry) (l : list IncomeExpense.entry) :
  (forall x, In x l ->
     IncomeExpense.key_leb (IncomeExpense.period x) (IncomeExpense.period e) = true
     \/ IncomeExpense.key_leb (IncomeExpense.period e) (IncomeExpense.period x) = true) ->
  Sorted (fun a b => IncomeExpense.key_leb (IncomeExpense.period a) (IncomeExpense.period b) = true) l ->
  Sorted (fun a b => IncomeExpense.key_leb (IncomeExpense.period a) (IncomeExpense.period b) = true)
    (IncomeExpense.insert_entry e l).
Proof.
  intros Htot Hs. induction Hs as [|x l Hs IH Hd]; cbn [IncomeExpense.insert_entry].
  - repeat constructor.
  - destruct (IncomeExpense.key_leb (IncomeExpense.period x) (IncomeExpense.period e)) eqn:E.
    + constructor.
      * apply IH. intros y Hy. apply Htot. right. exact Hy.
      * destruct l as [|y l]; cbn [IncomeExpense.insert_entry].
        -- constructor. exact E.
        -- destruct (IncomeExpense.key_leb (IncomeExpense.period y) (IncomeExpense.period e));
             constructor; [now inversion Hd|exact E].
    + constructor; [constructor; assumption|]. constructor.
      destruct (Htot x (or_introl eq_refl)) as [H|H]; [congruence|exact H].
Qed.

Lemma sorted_ascending (l : list IncomeExpense.entry) :
  (forall x y, In x l -> In y l ->
     IncomeExpense.key_leb (IncomeExpense.period x) (IncomeExpense.period y) = true
     \/ IncomeExpense.key_leb (IncomeExpense.period y) (IncomeExpense.period x) = true) ->
  Sorted (fun a b => IncomeExpense.key_leb (IncomeExpense.period a) (IncomeExpense.period b) = true)
    (IncomeExpense.sorted l).
Proof.
  unfold IncomeExpense.sorted. intros Htot.
  assert (H : forall done acc,
             Permutation acc done ->
             (forall x y, In x (done ++ l) -> In y (done ++ l) ->
                IncomeExpense.key_leb (IncomeExpense.period x) (IncomeExpense.period y) = true
                \/ IncomeExpense.key_leb (IncomeExpense.period y) (IncomeExpense.period x) = true) ->
             Sorted (fun a b => IncomeExpense.key_leb (IncomeExpense.period a)
                                  (IncomeExpense.period b) = true) acc ->
             Sorted (fun a b => IncomeExpense.key_leb (IncomeExpense.period a)
                                  (IncomeExpense.period b) = true)
               (fold_left (fun acc e => IncomeExpense.insert_entry e acc) l acc)).
  { clear Htot. induction l as [|x l IH]; intros done acc Hp Htot Hs; cbn [fold_left]; [exact Hs|].
    apply (IH (x :: done)).
    - rewrite insert_entry_perm. now constructor.
    - intros a b Ha Hb. apply Htot.
      + apply in_app_iff. cbn [In] in *. apply in_app_iff in Ha. cbn [In] in Ha. tauto.
      + apply in_app_iff. cbn [In] in *. apply in_app_iff in Hb. cbn [In] in Hb. tauto.
    - apply insert_entry_ascending; [|exact Hs].
      intros y Hy. apply Htot; apply in_app_iff.
      + left. eapply Permutation_in; [exact Hp|exact Hy].
      + right. left. reflexivity. }
  apply (H [] []); [reflexivity|exact Htot|constructor].
Qed.

Lemma sum_where_all {A} (value : A -> Q) (l : list A) :
  sum_where value (fun _ => true) l = sum (map value l).
Proof.
  unfold sum_where. f_equal. f_equal. induction l as [|x l IH]; simpl; congruence.
Qed.

(** Among entries of distinct periods, the sum over one period is the value
    of its entry. *)
Lemma sum_where_period (value : IncomeExpense.entry -> Q) (l : list IncomeExpense.entry)
    (x : IncomeExpense.entry) :
  NoDup (map IncomeExpense.period l) -> In x l ->
  (sum_where value
     (fun e => IncomeExpense.key_eqb (IncomeExpense.period e) (IncomeExpense.period x)) l
   == value x)%Q.
Proof.
  induction l as [|e l IH]; intros Hnd Hin; [destruct Hin|].
  cbn [map] in Hnd. inversion Hnd as [|? ? Hnotin Hnd']; subst.
  rewrite sum_where_cons. destruct Hin as [->|Hin].
  - rewrite (proj2 (key_eqb_eq _ _) eq_refl).
    assert (Hz : forall l', ~ In (IncomeExpense.period x) (map IncomeExpense.period l') ->
                 sum_where value
                   (fun e => IncomeExpense.key_eqb (IncomeExpense.period e)
                               (IncomeExpense.period x)) l' = 0%Q).
    { clear. induction l' as [|y l' IH']; intros Hn; [reflexivity|].
      unfold sum_where. cbn [filter].
      destruct (IncomeExpense.key_eqb (IncomeExpense.period y) (IncomeExpense.period x)) eqn:E.
      - apply key_eqb_eq in E. exfalso. apply Hn. left. exact E.
      - apply IH'. intros H. apply Hn. right. exact H. }
    rewrite (Hz l Hnotin). ring.
  - destruct (IncomeExpense.key_eqb (IncomeExpense.period e) (IncomeExpense.period x)) eqn:E.
    + apply key_eqb_eq in E. exfalso. apply Hnotin. rewrite E. now apply in_map.
    + rewrite (IH Hnd' Hin). ring.
Qed.

(** The amounts of an entry as sums over the transactions of its period. *)
Lemma income_expense_entry_sums (txns : list Transaction) (u : Z)
    (start_date end_date : date) (group_by : string)
    (part : date -> IncomeExpense.period_key)
    (data : list IncomeExpense.entry) (tot : IncomeExpense.totals)
    (s e : date) (g : string) :
  IncomeExpense.date_part group_by = Some part ->
  IncomeExpense.income_expense_report txns u start_date end_date group_by
  = IncomeExpense.Report data tot s e g ->
  forall x, In x data ->
    (IncomeExpense.income x
     == sum_where txn_amount
          (fun t => IncomeExpense.key_eqb (part (txn_date t)) (IncomeExpense.period x)
                    && type_eqb (txn_type t) INCOME)
          (in_window u start_date end_date txns))%Q
    /\ (IncomeExpense.expense x
        == sum_where txn_amount
             (fun t => IncomeExpense.key_eqb (part (txn_date t)) (IncomeExpense.period x)
                       && negb (type_eqb (txn_type t) INCOME))
             (in_window u start_date end_date txns))%Q
    /\ IncomeExpense.net x = (IncomeExpense.income x - IncomeExpense.expense x)%Q.
Proof.
  intros Hpart. unfold IncomeExpense.income_expense_report. rewrite Hpart.
  intros [= <- _ _ _ _] x Hx.
  set (rows := grouped IncomeExpense.key_eqb IncomeExpense.key_leb part _) in *.
  destruct (add_rows_spec rows) as (S & N & _ & T). cbv zeta in S, N, T.
  set (result := fold_left _ rows []) in *.
  pose proof (sorted_perm result) as P.
  assert (Hnd : NoDup (map IncomeExpense.period (IncomeExpense.sorted result))).
  { eapply Permutation_NoDup; [|exact N]. symmetry. now apply Permutation_map. }
  destruct (S (fun k => IncomeExpense.key_eqb k (IncomeExpense.period x))) as (S1 & S2).
  split; [|split].
  - rewrite <- (sum_where_period IncomeExpense.income _ x Hnd Hx).
    rewrite (sum_where_perm _ _ _ _ P), S1. subst rows. unfold in_window.
    exact (grouped_sum IncomeExpense.key_eqb IncomeExpense.key_leb key_eqb_eq part
             (fun k ty => IncomeExpense.key_eqb k (IncomeExpense.period x)
                          && type_eqb ty INCOME) _).
  - rewrite <- (sum_where_period IncomeExpense.expense _ x Hnd Hx).
    rewrite (sum_where_perm _ _ _ _ P), S2. subst rows. unfold in_window.
    exact (grouped_sum IncomeExpense.key_eqb IncomeExpense.key_leb key_eqb_eq part
             (fun k ty => IncomeExpense.key_eqb k (IncomeExpense.period x)
                          && negb (type_eqb ty INCOME)) _).
  - apply T. eapply Permutation_in; [exact P|exact Hx].
Qed.

(** X18.  In the income and expense report, the income of a period is the sum of
    the amounts of the income transactions of the user that fall in the
    window and in the period.  When the other transactions of the period
    are all of one type, expenses or transfers, the expense of the period
    is the sum of their amounts. *)
Theorem income_expense_report_entries (txns : list Transaction) (u : Z)
    (start_date end_date : date) (group_by : string)
    (part : date -> IncomeExpense.period_key)
    (data : list IncomeExpense.entry) (tot : IncomeExpense.totals)
    (s e : date) (g : string) :
  IncomeExpense.date_part group_by = Some part ->
  IncomeExpense.income_expense_report txns u start_date end_date group_by
  = IncomeExpense.Report data tot s e g ->
  forall x, In x data ->
    (IncomeExpense.income x
     == sum_where txn_amount
          (fun t => IncomeExpense.key_eqb (part (txn_date t)) (IncomeExpense.period x)
                    && type_eqb (txn_type t) INCOME)
          (in_window u start_date end_date txns))%Q
    /\ forall ty,
         ty <> INCOME ->
         (forall t, In t (in_window u start_date end_date txns) ->
                    IncomeExpense.key_eqb (part (txn_date t)) (IncomeExpense.period x) = true ->
                    txn_type t = INCOME \/ txn_type t = ty) ->
         (IncomeExpense.expense x
          == sum_where txn_amount
               (fun t => IncomeExpense.key_eqb (part (txn_date t)) (IncomeExpense.period x)
                         && type_eqb (txn_type t) ty)
               (in_window u start_date end_date txns))%Q.
Proof.
  intros Hpart H x Hx.
  destruct (income_expense_entry_sums txns u start_date end_date group_by part data tot
              s e g Hpart H x Hx) as (Hi & He & _).
  split; [exact Hi|].
  intros ty Hty Hone. rewrite He.
  rewrite (sum_where_ext txn_amount
             (fun t => IncomeExpense.key_eqb (part (txn_date t)) (IncomeExpense.period x)
                       && negb (type_eqb (txn_type t) INCOME))
             (fun t => IncomeExpense.key_eqb (part (txn_date t)) (IncomeExpense.period x)
                       && type_eqb (txn_type t) ty)); [reflexivity|].
  intros t Ht.
  destruct (IncomeExpense.key_eqb (part (txn_date t)) (IncomeExpense.period x)) eqn:Ek;
    [|reflexivity].
  cbn [andb]. destruct (Hone t Ht Ek) as [E|E]; rewrite E.
  - destruct ty; [contradiction| |]; reflexivity.
  - destruct ty; [contradiction| |]; reflexivity.
Qed.

Lemma income_expense_report_entries_witness :
  exists data tot,
    IncomeExpense.income_expense_report scenario_ledger 1 (mkdate 2024 1 1)
      (mkdate 2024 1 22) "month"
    = IncomeExpense.Report data tot (mkdate 2024 1 1) (mkdate 2024 1 22) "month"
    /\ forall x, In x data ->
         (IncomeExpense.income x
          == sum_where txn_amount
               (fun t => IncomeExpense.key_eqb (IncomeExpense.KText (year_month (txn_date t)))
                           (IncomeExpense.period x)
                         && type_eqb (txn_type t) INCOME)
               (in_window 1 (mkdate 2024 1 1) (mkdate 2024 1 22) scenario_ledger))%Q
         /\ (IncomeExpense.expense x
             == sum_where txn_amount
                  (fun t => IncomeExpense.key_eqb (IncomeExpense.KText (year_month (txn_date t)))
                              (IncomeExpense.period x)
                            && type_eqb (txn_type t) EXPENSE)
                  (in_window 1 (mkdate 2024 1 1) (mkdate 2024 1 22) scenario_ledger))%Q.
Proof.
  destruct (IncomeExpense.income_expense_report scenario_ledger 1 (mkdate 2024 1 1)
              (mkdate 2024 1 22) "month") as [msg|data tot s e g] eqn:E;
    [vm_compute in E; discriminate E|].
  assert (Hs : s = mkdate 2024 1 1 /\ e = mkdate 2024 1 22 /\ g = "month").
  { vm_compute in E. injection E as _ _ <- <- <-. repeat split. }
  destruct Hs as (-> & -> & ->).
  exists data, tot. split; [reflexivity|].
  intros x Hx.
  destruct (income_expense_report_entries scenario_ledger 1 (mkdate 2024 1 1)
              (mkdate 2024 1 22) "month"
              (fun d => IncomeExpense.KText (year_month d)) data tot _ _ _ eq_refl E x Hx)
    as (Hi & He).
  split; [exact Hi|]. apply He; [discriminate|].
  intros t Ht _. vm_compute in Ht.
  destruct Ht as [<-|[<-|[]]]; [left|right]; reflexivity.
Defined.

(** X19.  The periods of the income and expense report are distinct and come in
    ascending order, and they are exactly the periods in which the user has a
    transaction in the window: a period without transactions has no entry. *)
Theorem income_expense_report_periods (txns : list Transaction) (u : Z)
    (start_date end_date : date) (group_by : string)
    (part : date -> IncomeExpense.period_key)
    (data : list IncomeExpense.entry) (tot : IncomeExpense.totals)
    (s e : date) (g : string) :
  IncomeExpense.date_part group_by = Some part ->
  IncomeExpense.income_expense_report txns u start_date end_date group_by
  = IncomeExpense.Report data tot s e g ->
  NoDup (map IncomeExpense.period data)
  /\ ascending data
  /\ forall k, In k (map IncomeExpense.period data)
               <-> exists t, In t (in_window u start_date end_date txns)
                             /\ part (txn_date t) = k.
Proof.
  intros Hpart. unfold IncomeExpense.income_expense_report. rewrite Hpart.
  intros [= <- _ _ _ _].
  set (rows := grouped IncomeExpense.key_eqb IncomeExpense.key_leb part _) in *.
  destruct (add_rows_spec rows) as (_ & N & Pk & _). cbv zeta in N, Pk.
  set (result := fold_left _ rows []) in *.
  pose proof (sorted_perm result) as P.
  assert (Hk : forall k, In k (map IncomeExpense.period result)
                         <-> exists t, In t (in_window u start_date end_date txns)
                                       /\ part (txn_date t) = k).
  { intros k. rewrite Pk, in_map_iff. split.
    - intros (r & <- & Hr). subst rows. apply grouped_In in Hr.
      destruct Hr as (t & Ht & E). exists t. split; [exact Ht|now symmetry].
    - intros (t & Ht & <-).
      destruct (grouped_period IncomeExpense.key_eqb IncomeExpense.key_leb key_eqb_eq part
                  _ t Ht) as (r & Hr & E).
      exists r. split; [exact E|exact Hr]. }
  split; [|split].
  - eapply Permutation_NoDup; [|exact N]. symmetry. now apply Permutation_map.
  - apply sorted_ascending. intros x y Hx Hy.
    assert (Hx' : In (IncomeExpense.period x) (map IncomeExpense.period result))
      by now apply in_map.
    assert (Hy' : In (IncomeExpense.period y) (map IncomeExpense.period result))
      by now apply in_map.
    apply Hk in Hx', Hy'. destruct Hx' as (t & _ & <-), Hy' as (t' & _ & <-).
    exact (date_part_total group_by part _ _ Hpart).
  - intros k. rewrite <- Hk. split; apply Permutation_in; apply Permutation_map;
      [exact P|symmetry; exact P].
Qed.

Lemma income_expense_report_periods_witness :
  exists data tot,
    IncomeExpense.income_expense_report scenario_ledger 1 (mkdate 2024 1 1)
      (mkdate 2024 12 31) "month"
    = IncomeExpense.Report data tot (mkdate 2024 1 1) (mkdate 2024 12 31) "month"
    /\ map IncomeExpense.period data
       = [IncomeExpense.KText "2024-01"; IncomeExpense.KText "2024-02"]
    /\ NoDup (map IncomeExpense.period data)
    /\ ascending data.
Proof.
  destruct (IncomeExpense.income_expense_report scenario_ledger 1 (mkdate 2024 1 1)
              (mkdate 2024 12 31) "month") as [msg|data tot s e g] eqn:E;
    [vm_compute in E; discriminate E|].
  assert (Hs : s = mkdate 2024 1 1 /\ e = mkdate 2024 12 31 /\ g = "month"
               /\ map IncomeExpense.period data
                  = [IncomeExpense.KText "2024-01"; IncomeExpense.KText "2024-02"]).
  { vm_compute in E. injection E as <- _ <- <- <-. repeat split. }
  destruct Hs as (-> & -> & -> & Hp).
  exists data, tot. split; [reflexivity|]. split; [exact Hp|].
  destruct (income_expense_report_periods scenario_ledger 1 (mkdate 2024 1 1)
              (mkdate 2024 12 31) "month"
              (fun d => IncomeExpense.KText (year_month d)) data tot _ _ _ eq_refl E)
    as (Hnd & Hasc & _).
  split; [exact Hnd|exact Hasc].
Defined.

(** The totals of the report as sums over the transactions. *)
(** ** The totals of the cash-flow report *)

Lemma update_nth_In {A} (f : A -> A) (l : list A) (i : nat) (e : A) :
  In e (update_nth i f l) -> In e l \/ exists x, In x l /\ e = f x.
Proof.
  revert i. induction l as [|y l IH]; intros [|i]; cbn [update_nth In]; try tauto.
  - intros [<-|H]; [right; exists y; auto|tauto].
  - intros [<-|H]; [tauto|]. destruct (IH i H) as [H'|(x & Hx & ->)]; [tauto|].
    right. exists x. auto.
Qed.

Lemma fill_net (periods : list string) (rows : list (row string))
    (cash_flow : list CashFlow.entry) :
  (forall e, In e cash_flow ->
     (CashFlow.net e == CashFlow.income e - CashFlow.expense e)%Q) ->
  forall e, In e (fold_left (CashFlow.fill periods) rows cash_flow) ->
    (CashFlow.net e == CashFlow.income e - CashFlow.expense e)%Q.
Proof.
  revert cash_flow. induction rows as [|r rows IH]; intros cash_flow Hc; cbn [fold_left];
    [exact Hc|].
  apply IH. intros e. unfold CashFlow.fill.
  destruct (index (row_period r) periods) as [idx|]; [|apply Hc].
  destruct (type_eqb (row_type r) INCOME); intros He; apply update_nth_In in He;
    (destruct He as [He|(x & _ & ->)]; [now apply Hc|reflexivity]).
Qed.

Lemma accumulate_amounts (cash_flow : list CashFlow.entry) (running : Q) :
  map CashFlow.income (CashFlow.accumulate running cash_flow) = map CashFlow.income cash_flow
  /\ map CashFlow.expense (CashFlow.accumulate running cash_flow)
     = map CashFlow.expense cash_flow.
Proof.
  revert running. induction cash_flow as [|e l IH]; intros running; simpl; [auto|].
  destruct (IH (running + CashFlow.net e)%Q) as (-> & ->). auto.
Qed.

Lemma accumulate_last_cons (l : list CashFlow.entry) :
  forall (e : CashFlow.entry) (running d : Q),
    (last (map CashFlow.running_balance (CashFlow.accumulate running (e :: l))) d
     == running + sum (map CashFlow.net (e :: l)))%Q.
Proof.
  induction l as [|e' l IH]; intros e running d.
  - simpl. rewrite sum_cons, sum_nil. ring.
  - cbn [map]. rewrite sum_cons.
    change (last (map CashFlow.running_balance
                    (CashFlow.accumulate running (e :: e' :: l))) d)
      with (last (map CashFlow.running_balance
                    (CashFlow.accumulate (running + CashFlow.net e)%Q (e' :: l))) d).
    rewrite IH. cbn [map]. ring.
Qed.

Lemma accumulate_last (cash_flow : list CashFlow.entry) (running : Q) :
  (last (map CashFlow.running_balance (CashFlow.accumulate running cash_flow)) running
   == running + sum (map CashFlow.net cash_flow))%Q.
Proof.
  destruct cash_flow as [|e l]; [|apply accumulate_last_cons].
  simpl. rewrite sum_nil. ring.
Qed.

Lemma sum_difference {A} (a b c : A -> Q) (l : list A) :
  (forall e, In e l -> (c e == a e - b e)%Q) ->
  (sum (map c l) == sum (map a l) - sum (map b l))%Q.
Proof.
  induction l as [|x l IH]; intros H; cbn [map].
  - rewrite sum_nil. ring.
  - rewrite !sum_cons, IH by (intros; apply H; simpl; auto).
    rewrite (H x (or_introl eq_refl)). ring.
Qed.

(** * Further reports *)

(** ** Sums by group *)

Lemma sum_where_filter {A} (value : A -> Q) (test f : A -> bool) (l : list A) :
  sum_where value test (filter f l) = sum_where value (fun x => f x && test x) l.
Proof.
  unfold sum_where. f_equal. f_equal.
  induction l as [|x l IH]; [reflexivity|]. cbn [filter].
  destruct (f x); cbn [filter andb]; [destruct (test x)|]; now rewrite IH.
Qed.

Lemma sum_where_split {A} (value : A -> Q) (test p : A -> bool) (l : list A) :
  (sum_where value test l
   == sum_where value (fun x => test x && p x) l
      + sum_where value (fun x => test x && negb (p x)) l)%Q.
Proof.
  induction l as [|x l IH]; [rewrite !sum_where_nil; ring|].
  rewrite !sum_where_cons, IH. destruct (test x), (p x); simpl; ring.
Qed.

Section GroupSumFacts.
Context {K : Type} (K_eqb : K -> K -> bool).
Hypothesis K_eqb_eq : forall a b, K_eqb a b = true <-> a = b.

Lemma add_amount_sum (test : K -> bool) (k : K) (a : Q) (rows : list (K * Q)) :
  (sum_where snd (fun r => test (fst r)) (add_amount K_eqb k a rows)
   == sum_where snd (fun r => test (fst r)) rows + (if test k then a else 0))%Q.
Proof.
  induction rows as [|[k' v] rows IH]; cbn [add_amount].
  - rewrite sum_where_cons, !sum_where_nil. cbn [fst snd]. ring.
  - destruct (K_eqb k' k) eqn:E.
    + apply K_eqb_eq in E. subst k'. rewrite !sum_where_cons. cbn [fst snd].
      destruct (test k); ring.
    + rewrite !sum_where_cons, IH. ring.
Qed.

Lemma add_amount_keys (k : K) (a : Q) (rows : list (K * Q)) :
  (In k (map fst rows) /\ map fst (add_amount K_eqb k a rows) = map fst rows)
  \/ (~ In k (map fst rows)
      /\ map fst (add_amount K_eqb k a rows) = (map fst rows ++ [k])%list).
Proof.
  induction rows as [|[k' v] rows IH]; cbn [add_amount].
  - right. split; [intros []|reflexivity].
  - destruct (K_eqb k' k) eqn:E.
    + apply K_eqb_eq in E. subst k'. left. split; [left; reflexivity|reflexivity].
    + assert (Hne : k' <> k) by (intros H; apply K_eqb_eq in H; congruence).
      destruct IH as [(Hin & Heq)|(Hin & Heq)].
      * left. split; [right; exact Hin|]. cbn [map fst]. now rewrite Heq.
      * right. split; [intros [H|H]; tauto|]. cbn [map fst app]. now rewrite Heq.
Qed.

(** The rows of a grouped sum: one row for each key that occurs, with the
    sum of the amounts of the transactions of that key. *)
Lemma group_sum_spec (key : Transaction -> K) (txns : list Transaction) :
  (forall test,
      (sum_where snd (fun r => test (fst r)) (group_sum K_eqb key txns)
       == sum_where txn_amount (fun t => test (key t)) txns)%Q)
  /\ NoDup (map fst (group_sum K_eqb key txns))
  /\ (forall k, In k (map fst (group_sum K_eqb key txns))
                <-> exists t, In t txns /\ key t = k).
Proof.
  unfold group_sum.
  assert (H : forall rows,
    (forall test,
        (sum_where snd (fun r => test (fst r))
           (fold_left (fun rows t => add_amount K_eqb (key t) (txn_amount t) rows) txns rows)
         == sum_where snd (fun r => test (fst r)) rows
            + sum_where txn_amount (fun t => test (key t)) txns)%Q)
    /\ (NoDup (map fst rows) ->
        NoDup (map fst (fold_left (fun rows t => add_amount K_eqb (key t) (txn_amount t) rows)
                          txns rows)))
    /\ (forall k,
          In k (map fst (fold_left (fun rows t => add_amount K_eqb (key t) (txn_amount t) rows)
                           txns rows))
          <-> In k (map fst rows) \/ exists t, In t txns /\ key t = k)).
  { induction txns as [|t txns IH]; intros rows; cbn [fold_left].
    - split; [|split; [auto|]].
      + intros test. rewrite sum_where_nil. ring.
      + intros k. split; [tauto|]. intros [H|(t & [] & _)]. exact H.
    - destruct (IH (add_amount K_eqb (key t) (txn_amount t) rows)) as (S & N & P).
      split; [|split].
      + intros test. rewrite S, add_amount_sum, sum_where_cons. ring.
      + intros Hnd. apply N.
        destruct (add_amount_keys (key t) (txn_amount t) rows) as [(_ & ->)|(Hin & ->)];
          [exact Hnd|].
        apply NoDup_app; [exact Hnd|repeat constructor; intros []|].
        intros k Hk [<-|[]]. exact (Hin Hk).
      + intros k. rewrite P.
        destruct (add_amount_keys (key t) (txn_amount t) rows) as [(Hin & ->)|(Hin & ->)].
        * split.
          -- intros [H|(t' & Ht' & E)]; [tauto|]. right. exists t'. split; [right|]; assumption.
          -- intros [H|(t' & [<-|Ht'] & E)]; [tauto|subst k; tauto|].
             right. exists t'. tauto.
        * rewrite in_app_iff. cbn [In]. split.
          -- intros [[H|[<-|[]]]|(t' & Ht' & E)]; [tauto| |].
             ++ right. exists t. split; [left|]; reflexivity.
             ++ right. exists t'. split; [right|]; assumption.
          -- intros [H|(t' & [<-|Ht'] & E)]; [tauto|subst k; tauto|].
             right. exists t'. tauto. }
  destruct (H []) as (S & N & P). split; [|split].
  - intros test. rewrite S, sum_where_nil. ring.
  - apply N. constructor.
  - intros k. rewrite P. cbn [map In]. tauto.
Qed.

(** Among rows of distinct keys, the sum over one key is the amount of its
    row. *)
Lemma sum_where_key (rows : list (K * Q)) (r : K * Q) :
  NoDup (map fst rows) -> In r rows ->
  (sum_where snd (fun x => K_eqb (fst x) (fst r)) rows == snd r)%Q.
Proof.
  induction rows as [|x rows IH]; intros Hnd Hin; [destruct Hin|].
  cbn [map] in Hnd. inversion Hnd as [|? ? Hnotin Hnd']; subst.
  rewrite sum_where_cons. destruct Hin as [->|Hin].
  - rewrite (proj2 (K_eqb_eq _ _) eq_refl).
    assert (Hz : forall l, ~ In (fst r) (map fst l) ->
                 sum_where snd (fun x : K * Q => K_eqb (fst x) (fst r)) l = 0%Q).
    { clear - K_eqb_eq. induction l as [|y l IH']; intros Hn; [reflexivity|].
      unfold sum_where. cbn [filter].
      destruct (K_eqb (fst y) (fst r)) eqn:E.
      - apply K_eqb_eq in E. exfalso. apply Hn. left. exact E.
      - apply IH'. intros H. apply Hn. right. exact H. }
    rewrite (Hz rows Hnotin). ring.
  - destruct (K_eqb (fst x) (fst r)) eqn:E.
    + apply K_eqb_eq in E. exfalso. apply Hnotin. rewrite E. now apply in_map.
    + rewrite (IH Hnd' Hin). ring.
Qed.

End GroupSumFacts.

(** ** The profit and loss report *)

Lemma selected_of_type_split (ty : TransactionType) (u : Z) (s e : date) (t : Transaction) :
  selected_of_type ty u s e t = selected u s e t && type_eqb (txn_type t) ty.
Proof.
  unfold selected_of_type, selected.
  destruct (txn_user_id t =? u), (type_eqb (txn_type t) ty), (date_leb s (txn_date t)),
    (date_leb (txn_date t) e); reflexivity.
Qed.

(** The lines of one side of the report. *)
Lemma profit_loss_side (ty : TransactionType) (txns : list Transaction) (u : Z) (s e : date) :
  let rows := group_sum String.eqb category (filter (selected_of_type ty u s e) txns) in
  (sum (map snd rows)
   == sum_where txn_amount (fun t => type_eqb (txn_type t) ty) (in_window u s e txns))%Q
  /\ NoDup (map fst rows)
  /\ (forall r, In r rows ->
        (snd r
         == sum_where txn_amount
              (fun t => type_eqb (txn_type t) ty && String.eqb (category t) (fst r))
              (in_window u s e txns))%Q
        /\ exists t, In t (in_window u s e txns) /\ txn_type t = ty /\ category t = fst r).
Proof.
  cbv zeta.
  destruct (group_sum_spec String.eqb String.eqb_eq category
              (filter (selected_of_type ty u s e) txns)) as (S & N & P).
  assert (Hside : forall test,
            sum_where txn_amount test (filter (selected_of_type ty u s e) txns)
            = sum_where txn_amount (fun t => type_eqb (txn_type t) ty && test t)
                (in_window u s e txns)).
  { intros test. unfold in_window. rewrite !sum_where_filter. apply sum_where_ext.
    intros t _. rewrite selected_of_type_split. now rewrite andb_assoc. }
  split; [|split; [exact N|]].
  - rewrite <- sum_where_all, (S (fun _ => true)), Hside.
    rewrite (sum_where_ext txn_amount _ (fun t => type_eqb (txn_type t) ty));
      [reflexivity|].
    intros t _. apply andb_true_r.
  - intros r Hr. split.
    + rewrite <- (sum_where_key String.eqb String.eqb_eq _ r N Hr).
      rewrite (S (fun k => String.eqb k (fst r))), Hside. reflexivity.
    + assert (Hk : In (fst r) (map fst (group_sum String.eqb category
                                         (filter (selected_of_type ty u s e) txns))))
        by now apply in_map.
      apply P in Hk. destruct Hk as (t & Ht & E). exists t.
      apply filter_In in Ht. destruct Ht as (Ht & Hsel).
      rewrite selected_of_type_split in Hsel. apply andb_true_iff in Hsel.
      destruct Hsel as (Hsel & Hty). apply type_eqb_eq in Hty.
      split; [|split; assumption]. unfold in_window. apply filter_In. split; assumption.
Qed.

(** X22.  The lines of the profit and loss report: on each side the categories
    are distinct, each line is a category in which the user has a
    transaction of that type in the window, and its amount is the sum of the
    amounts of these transactions. *)
Theorem profit_loss_report_lines (txns : list Transaction) (u : Z) (s e : date) :
  let r := ProfitLoss.profit_loss_report txns u s e in
  NoDup (map ProfitLoss.line_category (ProfitLoss.income r))
  /\ NoDup (map ProfitLoss.line_category (ProfitLoss.expenses r))
  /\ (forall l, In l (ProfitLoss.income r) ->
        (ProfitLoss.line_amount l
         == sum_where txn_amount
              (fun t => type_eqb (txn_type t) INCOME
                        && String.eqb (category t) (ProfitLoss.line_category l))
              (in_window u s e txns))%Q
        /\ exists t, In t (in_window u s e txns) /\ txn_type t = INCOME
                     /\ category t = ProfitLoss.line_category l)
  /\ (forall l, In l (ProfitLoss.expenses r) ->
        (ProfitLoss.line_amount l
         == sum_where txn_amount
              (fun t => type_eqb (txn_type t) EXPENSE
                        && String.eqb (category t) (ProfitLoss.line_category l))
              (in_window u s e txns))%Q
        /\ exists t, In t (in_window u s e txns) /\ txn_type t = EXPENSE
                     /\ category t = ProfitLoss.line_category l).
Proof.
  cbv zeta. unfold ProfitLoss.profit_loss_report.
  cbn [ProfitLoss.income ProfitLoss.expenses].
  destruct (profit_loss_side INCOME txns u s e) as (_ & Ni & Li).
  destruct (profit_loss_side EXPENSE txns u s e) as (_ & Ne & Le).
  cbv zeta in Ni, Li, Ne, Le.
  rewrite !map_map. cbn [ProfitLoss.line_category].
  split; [exact Ni|]. split; [exact Ne|]. split.
  - intros l Hl. apply in_map_iff in Hl. destruct Hl as (r & <- & Hr).
    cbn [ProfitLoss.line_amount ProfitLoss.line_category]. now apply Li.
  - intros l Hl. apply in_map_iff in Hl. destruct Hl as (r & <- & Hr).
    cbn [ProfitLoss.line_amount ProfitLoss.line_category]. now apply Le.
Qed.

(** The totals of the profit and loss report as sums over the
    transactions. *)
(** ** The tax summary *)

Lemma category_not_total (c : string) : In c TransactionCategory_values -> c <> "total".
Proof.
  intros H ->. cbn in H.
  repeat (destruct H as [H|H]; [discriminate H|]). exact H.
Qed.

Lemma bucket_value_cons (k k1 : string) (v : Q) (d : TaxSummary.buckets) :
  bucket_value k ((k1, v) :: d) = if String.eqb k1 k then v else bucket_value k d.
Proof.
  unfold bucket_value, TaxSummary.bucket_get. cbn [find fst].
  destruct (String.eqb k1 k); reflexivity.
Qed.

Lemma bucket_value_add (k k0 : string) (a : Q) (d : TaxSummary.buckets) :
  (bucket_value k (TaxSummary.bucket_add k0 a d)
   == bucket_value k d
      + (if String.eqb k k0 && TaxSummary.bucket_has k0 d then a else 0))%Q.
Proof.
  induction d as [|[k1 v] d IH]; cbn [TaxSummary.bucket_add].
  - cbn [TaxSummary.bucket_has existsb]. rewrite andb_false_r. ring.
  - unfold TaxSummary.bucket_has in *. cbn [existsb fst].
    destruct (String.eqb_spec k1 k0) as [->|Hne].
    + rewrite !bucket_value_cons. cbn [orb]. rewrite andb_true_r.
      rewrite (String.eqb_sym k k0). destruct (String.eqb k0 k); ring.
    + rewrite !bucket_value_cons. cbn [orb].
      destruct (String.eqb_spec k1 k) as [->|Hne'].
      * destruct (String.eqb_spec k k0) as [->|_]; [contradiction|]. cbn [andb]. ring.
      * exact IH.
Qed.

Lemma bucket_add_keys (k : string) (a : Q) (d : TaxSummary.buckets) :
  map fst (TaxSummary.bucket_add k a d) = map fst d.
Proof.
  induction d as [|[k1 v] d IH]; cbn [TaxSummary.bucket_add]; [reflexivity|].
  destruct (String.eqb k1 k); cbn [map fst]; [reflexivity|now rewrite IH].
Qed.

Lemma bucket_has_keys (k : string) (d d' : TaxSummary.buckets) :
  map fst d = map fst d' -> TaxSummary.bucket_has k d = TaxSummary.bucket_has k d'.
Proof.
  revert d'. induction d as [|[k1 v] d IH]; intros [|[k2 v'] d']; try discriminate;
    [reflexivity|].
  cbn [map fst]. intros [= -> H]. unfold TaxSummary.bucket_has in *. cbn [existsb fst].
  now rewrite (IH d' H).
Qed.

Lemma income_bucket_has (c : string) :
  TaxSummary.bucket_has (income_bucket c) (TaxSummary.income TaxSummary.initial) = true.
Proof.
  unfold income_bucket.
  destruct (TaxSummary.bucket_has c (TaxSummary.income TaxSummary.initial)) eqn:E;
    [exact E|reflexivity].
Qed.

Lemma expense_bucket_has (c : string) :
  TaxSummary.bucket_has (expense_bucket c) (TaxSummary.expenses TaxSummary.initial) = true.
Proof.
  unfold expense_bucket.
  destruct (TaxSummary.bucket_has c (TaxSummary.expenses TaxSummary.initial)) eqn:E;
    [exact E|reflexivity].
Qed.

Lemma tax_add_row_spec (tc : TaxSummary.tax_categories)
    (r : (TransactionType * string) * Q) :
  map fst (TaxSummary.income tc) = map fst (TaxSummary.income TaxSummary.initial) ->
  map fst (TaxSummary.expenses tc) = map fst (TaxSummary.expenses TaxSummary.initial) ->
  map fst (TaxSummary.income (TaxSummary.add_row tc r))
  = map fst (TaxSummary.income TaxSummary.initial)
  /\ map fst (TaxSummary.expenses (TaxSummary.add_row tc r))
     = map fst (TaxSummary.expenses TaxSummary.initial)
  /\ (forall k,
        (bucket_value k (TaxSummary.income (TaxSummary.add_row tc r))
         == bucket_value k (TaxSummary.income tc) + income_share k r)%Q
        /\ (bucket_value k (TaxSummary.expenses (TaxSummary.add_row tc r))
            == bucket_value k (TaxSummary.expenses tc) + expense_share k r)%Q).
Proof.
  intros Hi He. destruct r as [[ty c] a].
  unfold TaxSummary.add_row, income_share, expense_share. cbn [fst snd].
  destruct (type_eqb ty INCOME).
  - cbn [TaxSummary.income TaxSummary.expenses].
    rewrite (bucket_has_keys c _ _ Hi).
    assert (Hb : (if TaxSummary.bucket_has c (TaxSummary.income TaxSummary.initial)
                  then TaxSummary.bucket_add c a (TaxSummary.income tc)
                  else TaxSummary.bucket_add "other_income" a (TaxSummary.income tc))
                 = TaxSummary.bucket_add (income_bucket c) a (TaxSummary.income tc)).
    { unfold income_bucket.
      destruct (TaxSummary.bucket_has c (TaxSummary.income TaxSummary.initial));
        reflexivity. }
    rewrite Hb. split; [now rewrite !bucket_add_keys|]. split; [exact He|].
    intros k. split; [|ring].
    rewrite !bucket_value_add.
    rewrite (bucket_has_keys "total" (TaxSummary.bucket_add _ _ _)
               (TaxSummary.income TaxSummary.initial))
      by now rewrite bucket_add_keys.
    rewrite (bucket_has_keys (income_bucket c) _ _ Hi), income_bucket_has.
    change (TaxSummary.bucket_has "total" (TaxSummary.income TaxSummary.initial)) with true.
    rewrite !andb_true_r. ring.
  - cbn [TaxSummary.income TaxSummary.expenses].
    rewrite (bucket_has_keys c _ _ He).
    assert (Hb : (if TaxSummary.bucket_has c (TaxSummary.expenses TaxSummary.initial)
                  then TaxSummary.bucket_add c a (TaxSummary.expenses tc)
                  else TaxSummary.bucket_add "other_expense" a (TaxSummary.expenses tc))
                 = TaxSummary.bucket_add (expense_bucket c) a (TaxSummary.expenses tc)).
    { unfold expense_bucket.
      destruct (TaxSummary.bucket_has c (TaxSummary.expenses TaxSummary.initial));
        reflexivity. }
    rewrite Hb. split; [exact Hi|]. split; [now rewrite !bucket_add_keys|].
    intros k. split; [ring|].
    rewrite !bucket_value_add.
    rewrite (bucket_has_keys "total" (TaxSummary.bucket_add _ _ _)
               (TaxSummary.expenses TaxSummary.initial))
      by now rewrite bucket_add_keys.
    rewrite (bucket_has_keys (expense_bucket c) _ _ He), expense_bucket_has.
    change (TaxSummary.bucket_has "total" (TaxSummary.expenses TaxSummary.initial))
      with true.
    rewrite !andb_true_r. ring.
Qed.

Lemma tax_add_rows_spec (rows : list ((TransactionType * string) * Q)) :
  forall tc,
    map fst (TaxSummary.income tc) = map fst (TaxSummary.income TaxSummary.initial) ->
    map fst (TaxSummary.expenses tc) = map fst (TaxSummary.expenses TaxSummary.initial) ->
    map fst (TaxSummary.income (fold_left TaxSummary.add_row rows tc))
    = map fst (TaxSummary.income TaxSummary.initial)
    /\ map fst (TaxSummary.expenses (fold_left TaxSummary.add_row rows tc))
       = map fst (TaxSummary.expenses TaxSummary.initial)
    /\ (forall k,
          (bucket_value k (TaxSummary.income (fold_left TaxSummary.add_row rows tc))
           == bucket_value k (TaxSummary.income tc) + sum (map (income_share k) rows))%Q
          /\ (bucket_value k (TaxSummary.expenses (fold_left TaxSummary.add_row rows tc))
              == bucket_value k (TaxSummary.expenses tc)
                 + sum (map (expense_share k) rows))%Q).
Proof.
  induction rows as [|r rows IH]; intros tc Hi He; cbn [fold_left map].
  - split; [exact Hi|]. split; [exact He|]. intros k. rewrite sum_nil. split; ring.
  - destruct (tax_add_row_spec tc r Hi He) as (Hi' & He' & Hv).
    destruct (IH _ Hi' He') as (Hi'' & He'' & Hv').
    split; [exact Hi''|]. split; [exact He''|].
    intros k. destruct (Hv k) as (V1 & V2). destruct (Hv' k) as (W1 & W2).
    rewrite W1, W2, V1, V2, !sum_cons. split; ring.
Qed.

Lemma group_eqb_eq (a b : TransactionType * string) :
  TaxSummary.group_eqb a b = true <-> a = b.
Proof.
  destruct a as [t c], b as [t' c']. unfold TaxSummary.group_eqb. cbn [fst snd].
  rewrite andb_true_iff, type_eqb_eq, String.eqb_eq. split.
  - intros (-> & ->). reflexivity.
  - intros [= -> ->]. auto.
Qed.

Lemma sum_map_ext (A : Type) (f g : A -> Q) (l : list A) :
  (forall x, In x l -> (f x == g x)%Q) -> (sum (map f l) == sum (map g l))%Q.
Proof.
  induction l as [|x l IH]; intros H; cbn [map]; [reflexivity|].
  rewrite !sum_cons, IH, (H x (or_introl eq_refl)); [reflexivity|].
  intros y Hy. apply H. right. exact Hy.
Qed.

Lemma sum_map_plus (A : Type) (f g : A -> Q) (l : list A) :
  (sum (map (fun x => f x + g x) l) == sum (map f l) + sum (map g l))%Q.
Proof.
  induction l as [|x l IH]; cbn [map]; [rewrite !sum_nil; ring|].
  rewrite !sum_cons, IH. ring.
Qed.

Lemma sum_map_where (A : Type) (value : A -> Q) (test : A -> bool) (l : list A) :
  (sum (map (fun x => if test x then value x else 0) l) == sum_where value test l)%Q.
Proof.
  induction l as [|x l IH]; cbn [map]; [reflexivity|].
  rewrite sum_cons, sum_where_cons, IH. reflexivity.
Qed.

(** The amount [a] once for the one name of a list of distinct names. *)
Lemma sum_indicator (names : list string) (c : string) (a : Q) :
  NoDup names ->
  (sum (map (fun k => if String.eqb k c then a else 0) names)
   == if existsb (fun k => String.eqb k c) names then a else 0)%Q.
Proof.
  induction names as [|n names IH]; intros Hnd; [reflexivity|].
  inversion Hnd as [|? ? Hnotin Hnd']; subst.
  cbn [map existsb]. rewrite sum_cons, (IH Hnd').
  destruct (String.eqb_spec n c) as [->|Hne]; cbn [orb]; [|ring].
  destruct (existsb (fun k => String.eqb k c) names) eqn:E; [|ring].
  apply existsb_exists in E. destruct E as (k & Hk & E).
  apply String.eqb_eq in E. subst k. contradiction.
Qed.

(** The sums by name, over distinct names that cover the elements, add up
    to the sum over all of them. *)
Lemma sum_by_name {A} (value : A -> Q) (p : A -> bool) (b : A -> string)
    (names : list string) (l : list A) :
  NoDup names ->
  (forall x, In x l -> p x = true -> In (b x) names) ->
  (sum (map (fun k => sum_where value (fun x => p x && String.eqb k (b x)) l) names)
   == sum_where value p l)%Q.
Proof.
  intros Hnd. induction l as [|x l IH]; intros Hcov.
  - rewrite sum_where_nil. clear. induction names as [|n names IHn]; [reflexivity|].
    cbn [map]. rewrite sum_cons, IHn, sum_where_nil. ring.
  - transitivity
      (sum (map (fun k => (if p x && String.eqb k (b x) then value x else 0)
                          + sum_where value (fun x => p x && String.eqb k (b x)) l)%Q
              names)).
    { apply sum_map_ext. intros k _.
      exact (sum_where_cons value (fun x => p x && String.eqb k (b x)) x l). }
    rewrite sum_map_plus.
    rewrite IH by (intros y Hy; apply Hcov; right; exact Hy).
    rewrite sum_where_cons.
    apply Qplus_inj_r.
    destruct (p x) eqn:Ep; cbn [andb].
    + rewrite (sum_indicator names (b x) (value x) Hnd).
      assert (E : existsb (fun k => String.eqb k (b x)) names = true).
      { apply existsb_exists. exists (b x). split; [|apply String.eqb_refl].
        apply Hcov; [left; reflexivity|exact Ep]. }
      rewrite E. reflexivity.
    + clear. induction names as [|n names IHn]; [reflexivity|].
      cbn [map]. rewrite sum_cons, IHn. ring.
Qed.

Lemma bucket_value_In (d : TaxSummary.buckets) (p : string * Q) :
  NoDup (map fst d) -> In p d -> bucket_value (fst p) d = snd p.
Proof.
  induction d as [|[k v] d IH]; intros Hnd Hin; [destruct Hin|].
  cbn [map fst] in Hnd. inversion Hnd as [|? ? Hnotin Hnd']; subst.
  rewrite bucket_value_cons. destruct Hin as [<-|Hin].
  - cbn [fst snd]. now rewrite String.eqb_refl.
  - destruct (String.eqb_spec k (fst p)) as [->|_]; [|now apply IH].
    exfalso. apply Hnotin. now apply in_map.
Qed.

(** The entries of a dictionary other than the total, by their names. *)
Lemma named_values (d : TaxSummary.buckets) :
  NoDup (map fst d) ->
  map snd (named d)
  = map (fun k => bucket_value k d)
      (filter (fun k => negb (String.eqb k "total")) (map fst d)).
Proof.
  intros Hnd. unfold named.
  assert (H : forall l : TaxSummary.buckets,
             (forall p, In p l -> In p d) ->
             map snd (filter (fun p => negb (String.eqb (fst p) "total")) l)
             = map (fun k => bucket_value k d)
                 (filter (fun k => negb (String.eqb k "total")) (map fst l))).
  { induction l as [|p l IH]; intros Hl; [reflexivity|].
    cbn [filter map].
    destruct (negb (String.eqb (fst p) "total")); cbn [map].
    - rewrite (bucket_value_In d p Hnd) by (apply Hl; left; reflexivity).
      f_equal. apply IH. intros q Hq. apply Hl. right. exact Hq.
    - apply IH. intros q Hq. apply Hl. right. exact Hq. }
  apply H. auto.
Qed.

Lemma sum_shares (test1 test2 : TransactionType * string -> bool)
    (rows : list ((TransactionType * string) * Q)) :
  (sum (map (fun r => (if test1 (fst r) then snd r else 0)
                      + (if test2 (fst r) then snd r else 0)) rows)
   == sum_where snd (fun r => test1 (fst r)) rows
      + sum_where snd (fun r => test2 (fst r)) rows)%Q.
Proof. rewrite sum_map_plus, !sum_map_where. reflexivity. Qed.

(** The amounts of the tax summary as sums over the transactions. *)
Lemma tax_summary_values (txns : list Transaction) (u y : Z) (r : TaxSummary.report) :
  TaxSummary.tax_summary_report txns u y = Ok r ->
  TaxSummary.start_date r = mkdate y 1 1
  /\ TaxSummary.end_date r = mkdate y 12 31
  /\ map fst (TaxSummary.income (TaxSummary.categories r))
     = map fst (TaxSummary.income TaxSummary.initial)
  /\ map fst (TaxSummary.expenses (TaxSummary.categories r))
     = map fst (TaxSummary.expenses TaxSummary.initial)
  /\ TaxSummary.net_profit (TaxSummary.categories r)
     = (TaxSummary.total_of (TaxSummary.income (TaxSummary.categories r))
        - TaxSummary.total_of (TaxSummary.expenses (TaxSummary.categories r)))%Q
  /\ TaxSummary.estimated_tax (TaxSummary.categories r)
     = (TaxSummary.net_profit (TaxSummary.categories r) * (30 # 100))%Q
  /\ forall k,
       (bucket_value k (TaxSummary.income (TaxSummary.categories r))
        == sum_where txn_amount
             (fun t => type_eqb (txn_type t) INCOME
                       && String.eqb k (income_bucket (category t)))
             (in_window u (mkdate y 1 1) (mkdate y 12 31) txns)
           + sum_where txn_amount
               (fun t => type_eqb (txn_type t) INCOME && String.eqb k "total")
               (in_window u (mkdate y 1 1) (mkdate y 12 31) txns))%Q
       /\ (bucket_value k (TaxSummary.expenses (TaxSummary.categories r))
           == sum_where txn_amount
                (fun t => negb (type_eqb (txn_type t) INCOME)
                          && String.eqb k (expense_bucket (category t)))
                (in_window u (mkdate y 1 1) (mkdate y 12 31) txns)
              + sum_where txn_amount
                  (fun t => negb (type_eqb (txn_type t) INCOME) && String.eqb k "total")
                  (in_window u (mkdate y 1 1) (mkdate y 12 31) txns))%Q.
Proof.
  unfold TaxSummary.tax_summary_report.
  destruct ((MINYEAR <=? y) && (y <=? MAXYEAR)); cbn [bind]; [|discriminate].
  intros [= <-].
  cbn [TaxSummary.start_date TaxSummary.end_date TaxSummary.categories
       TaxSummary.income TaxSummary.expenses TaxSummary.net_profit
       TaxSummary.estimated_tax].
  set (rows := group_sum TaxSummary.group_eqb _ _).
  destruct (tax_add_rows_spec rows TaxSummary.initial eq_refl eq_refl) as (Hi & He & Hv).
  do 2 (split; [reflexivity|]). split; [exact Hi|]. split; [exact He|].
  do 2 (split; [reflexivity|]).
  intros k. destruct (Hv k) as (V1 & V2).
  destruct (group_sum_spec TaxSummary.group_eqb group_eqb_eq
              (fun t => (txn_type t, category t))
              (filter (selected u (mkdate y 1 1) (mkdate y 12 31)) txns)) as (S & _).
  fold rows in S. unfold in_window.
  assert (Z0 : bucket_value k (TaxSummary.income TaxSummary.initial) = 0%Q
               /\ bucket_value k (TaxSummary.expenses TaxSummary.initial) = 0%Q).
  { unfold TaxSummary.initial. cbn [TaxSummary.income TaxSummary.expenses].
    rewrite !bucket_value_cons. unfold bucket_value. cbn [TaxSummary.bucket_get find option_map].
    split;
      repeat match goal with |- context [if ?b then _ else _] => destruct b end;
      reflexivity. }
  destruct Z0 as (Zi & Ze). split.
  - rewrite V1, Zi.
    rewrite (sum_map_ext _ (income_share k)
               (fun r => (if type_eqb (fst (fst r)) INCOME
                             && String.eqb k (income_bucket (snd (fst r)))
                          then snd r else 0)
                         + (if type_eqb (fst (fst r)) INCOME && String.eqb k "total"
                            then snd r else 0))%Q).
    + rewrite (sum_shares
                 (fun g => type_eqb (fst g) INCOME && String.eqb k (income_bucket (snd g)))
                 (fun g => type_eqb (fst g) INCOME && String.eqb k "total") rows).
      rewrite (S (fun g => type_eqb (fst g) INCOME
                           && String.eqb k (income_bucket (snd g)))).
      rewrite (S (fun g => type_eqb (fst g) INCOME && String.eqb k "total")).
      cbn [fst snd]. ring.
    + intros r _. unfold income_share.
      destruct (type_eqb (fst (fst r)) INCOME); cbn [andb]; ring.
  - rewrite V2, Ze.
    rewrite (sum_map_ext _ (expense_share k)
               (fun r => (if negb (type_eqb (fst (fst r)) INCOME)
                             && String.eqb k (expense_bucket (snd (fst r)))
                          then snd r else 0)
                         + (if negb (type_eqb (fst (fst r)) INCOME) && String.eqb k "total"
                            then snd r else 0))%Q).
    + rewrite (sum_shares
                 (fun g => negb (type_eqb (fst g) INCOME)
                           && String.eqb k (expense_bucket (snd g)))
                 (fun g => negb (type_eqb (fst g) INCOME) && String.eqb k "total") rows).
      rewrite (S (fun g => negb (type_eqb (fst g) INCOME)
                           && String.eqb k (expense_bucket (snd g)))).
      rewrite (S (fun g => negb (type_eqb (fst g) INCOME) && String.eqb k "total")).
      cbn [fst snd]. ring.
    + intros r _. unfold expense_share.
      destruct (type_eqb (fst (fst r)) INCOME); cbn [andb negb]; ring.
Qed.

Lemma sum_where_none {A} (value : A -> Q) (test : A -> bool) (l : list A) :
  (forall x, In x l -> test x = false) -> sum_where value test l = 0%Q.
Proof.
  intros H. rewrite (sum_where_ext value test (fun _ => false) l H).
  clear H. unfold sum_where. induction l as [|x l IH]; [reflexivity|exact IH].
Qed.

(** X25.  A name other than the total, on a side of the tax summary, that is
    fed by the transactions of one category (and, on the expense side, of
    one type, expenses or transfers) holds the sum of their amounts: under
    the name of a category the side lists, the transactions of that
    category; under [other_income] or [other_expense], those of the one
    category the side does not list. *)
Theorem tax_summary_buckets (txns : list Transaction) (u y : Z) (r : TaxSummary.report)
    (k : string) :
  TaxSummary.tax_summary_report txns u y = Ok r ->
  k <> "total" ->
  (forall c,
      income_bucket c = k ->
      (forall t, In t (in_window u (mkdate y 1 1) (mkdate y 12 31) txns) ->
                 txn_type t = INCOME -> income_bucket (category t) = k ->
                 category t = c) ->
      (bucket_value k (TaxSummary.income (TaxSummary.categories r))
       == sum_where txn_amount
            (fun t => type_eqb (txn_type t) INCOME && String.eqb (category t) c)
            (in_window u (mkdate y 1 1) (mkdate y 12 31) txns))%Q)
  /\ (forall ty c,
        ty <> INCOME -> expense_bucket c = k ->
        (forall t, In t (in_window u (mkdate y 1 1) (mkdate y 12 31) txns) ->
                   txn_type t <> INCOME -> expense_bucket (category t) = k ->
                   txn_type t = ty /\ category t = c) ->
        (bucket_value k (TaxSummary.expenses (TaxSummary.categories r))
         == sum_where txn_amount
              (fun t => type_eqb (txn_type t) ty && String.eqb (category t) c)
              (in_window u (mkdate y 1 1) (mkdate y 12 31) txns))%Q).
Proof.
  intros H Hk. destruct (tax_summary_values txns u y r H) as (_ & _ & _ & _ & _ & _ & Hv).
  destruct (Hv k) as (V1 & V2).
  assert (Hne : String.eqb k "total" = false) by now apply String.eqb_neq.
  split.
  - intros c Hc Hone. rewrite V1.
    rewrite (sum_where_none txn_amount
               (fun t => type_eqb (txn_type t) INCOME && String.eqb k "total"))
      by (intros t _; rewrite Hne; apply andb_false_r).
    rewrite Qplus_0_r.
    rewrite (sum_where_ext txn_amount
               (fun t => type_eqb (txn_type t) INCOME
                         && String.eqb k (income_bucket (category t)))
               (fun t => type_eqb (txn_type t) INCOME && String.eqb (category t) c));
      [reflexivity|].
    intros t Ht. destruct (type_eqb (txn_type t) INCOME) eqn:Ety; [|reflexivity].
    cbn [andb]. apply type_eqb_eq in Ety.
    destruct (String.eqb_spec k (income_bucket (category t))) as [Ek|Ek].
    + symmetry. apply String.eqb_eq. apply (Hone t Ht Ety). now symmetry.
    + symmetry. apply String.eqb_neq. intros Ec. apply Ek. now rewrite Ec.
  - intros ty c Hty Hc Hone. rewrite V2.
    rewrite (sum_where_none txn_amount
               (fun t => negb (type_eqb (txn_type t) INCOME) && String.eqb k "total"))
      by (intros t _; rewrite Hne; apply andb_false_r).
    rewrite Qplus_0_r.
    rewrite (sum_where_ext txn_amount
               (fun t => negb (type_eqb (txn_type t) INCOME)
                         && String.eqb k (expense_bucket (category t)))
               (fun t => type_eqb (txn_type t) ty && String.eqb (category t) c));
      [reflexivity|].
    intros t Ht.
    destruct (String.eqb_spec k (expense_bucket (category t))) as [Ek|Ek].
    + destruct (type_eqb (txn_type t) INCOME) eqn:Ety; cbn [negb andb].
      * apply type_eqb_eq in Ety. rewrite Ety.
        destruct ty; [contradiction| |]; reflexivity.
      * assert (Hni : txn_type t <> INCOME).
        { intros Ei. rewrite Ei in Ety. discriminate Ety. }
        destruct (Hone t Ht Hni (eq_sym Ek)) as (-> & ->).
        rewrite String.eqb_refl. symmetry. apply andb_true_iff.
        split; [now apply type_eqb_eq|reflexivity].
    + rewrite andb_false_r. symmetry. apply andb_false_iff. right.
      apply String.eqb_neq. intros Ec. apply Ek. now rewrite Ec.
Qed.

Lemma tax_summary_buckets_witness :
  exists r,
    TaxSummary.tax_summary_report tax_ledger 1 2024 = Ok r
    /\ (bucket_value "other_income" (TaxSummary.income (TaxSummary.categories r))
        == sum_where txn_amount
             (fun t => type_eqb (txn_type t) INCOME && String.eqb (category t) "interest")
             (in_window 1 (mkdate 2024 1 1) (mkdate 2024 12 31) tax_ledger))%Q
    /\ (bucket_value "rent" (TaxSummary.expenses (TaxSummary.categories r))
        == sum_where txn_amount
             (fun t => type_eqb (txn_type t) EXPENSE && String.eqb (category t) "rent")
             (in_window 1 (mkdate 2024 1 1) (mkdate 2024 12 31) tax_ledger))%Q
    /\ (bucket_value "other_income" (TaxSummary.income (TaxSummary.categories r)) == 40)%Q
    /\ (bucket_value "rent" (TaxSummary.expenses (TaxSummary.categories r)) == 120)%Q.
Proof.
  destruct (TaxSummary.tax_summary_report tax_ledger 1 2024) as [r|e] eqn:E;
    [|vm_compute in E; discriminate E].
  exists r. split; [reflexivity|].
  assert (Hv : Qeq_bool (bucket_value "other_income"
                           (TaxSummary.income (TaxSummary.categories r))) 40 = true
               /\ Qeq_bool (bucket_value "rent"
                              (TaxSummary.expenses (TaxSummary.categories r))) 120 = true).
  { vm_compute in E. injection E as <-. split; reflexivity. }
  destruct Hv as (H1 & H2).
  assert (Hk1 : "other_income" <> "total") by discriminate.
  assert (Hk2 : "rent" <> "total") by discriminate.
  split; [|split; [|split; now apply Qeq_bool_iff]].
  - apply (proj1 (tax_summary_buckets tax_ledger 1 2024 r "other_income" E Hk1));
      [reflexivity|].
    intros t Ht Hty Hb. vm_compute in Ht.
    destruct Ht as [<-|[<-|[<-|[<-|[]]]]]; try reflexivity; discriminate.
  - apply (proj2 (tax_summary_buckets tax_ledger 1 2024 r "rent" E Hk2) EXPENSE);
      [discriminate|reflexivity|].
    intros t Ht Hty Hb. vm_compute in Ht.
    destruct Ht as [<-|[<-|[<-|[<-|[]]]]]; try (split; reflexivity);
      try (exfalso; apply Hty; reflexivity); discriminate.
Defined.

(** * Further properties of the invoice routes *)

(** ** The summary of the invoices *)

Lemma bump_spec (k : string) (a : Q) (d : list (string * InvoiceSummary.group)) :
  Zsum (map (fun p => InvoiceSummary.count (snd p)) (InvoiceSummary.bump k a d))
  = Zsum (map (fun p => InvoiceSummary.count (snd p)) d) + 1
  /\ (sum (map (fun p => InvoiceSummary.amount (snd p)) (InvoiceSummary.bump k a d))
      == sum (map (fun p => InvoiceSummary.amount (snd p)) d) + a)%Q
  /\ (NoDup (map fst d) -> NoDup (map fst (InvoiceSummary.bump k a d)))
  /\ In k (map fst (InvoiceSummary.bump k a d))
  /\ ((forall p, In p d -> 0 < InvoiceSummary.count (snd p)) ->
      forall p, In p (InvoiceSummary.bump k a d) -> 0 < InvoiceSummary.count (snd p))
  /\ (forall k', In k' (map fst (InvoiceSummary.bump k a d)) -> k' = k \/ In k' (map fst d)).
Proof.
  induction d as [|[k1 g] d (IH1 & IH2 & IH3 & IH4 & IH5 & IH6)]; cbn [InvoiceSummary.bump].
  - cbn [map snd fst Zsum fold_right InvoiceSummary.count InvoiceSummary.amount].
    split; [reflexivity|]. split; [rewrite sum_cons, !sum_nil; ring|].
    split; [intros _; repeat constructor; intros []|].
    split; [left; reflexivity|]. split.
    + intros _ p [<-|[]]. cbn. lia.
    + intros k' [<-|[]]. left. reflexivity.
  - destruct (String.eqb_spec k1 k) as [->|Hne].
    + cbn [map snd fst Zsum fold_right InvoiceSummary.count InvoiceSummary.amount].
      split; [unfold Zsum; lia|]. split; [rewrite !sum_cons; ring|].
      split; [auto|]. split; [left; reflexivity|]. split.
      * intros Hp p [<-|Hin]; [|apply Hp; right; exact Hin].
        cbn [snd InvoiceSummary.count].
        specialize (Hp (k, g) (or_introl eq_refl)). cbn [snd] in Hp. lia.
      * intros k' [<-|Hin]; [left; reflexivity|right; right; exact Hin].
    + cbn [map snd fst Zsum fold_right]. fold Zsum.
      split; [unfold Zsum in *; lia|]. split; [rewrite !sum_cons, IH2; ring|].
      split; [|split; [right; exact IH4|split]].
      * intros Hnd. inversion Hnd as [|? ? Hnotin Hnd']; subst.
        constructor; [|now apply IH3].
        intros Hin. apply IH6 in Hin. destruct Hin as [->|Hin]; [now apply Hne|].
        now apply Hnotin.
      * intros Hp p [<-|Hin]; [apply Hp; left; reflexivity|].
        apply IH5; [|exact Hin]. intros q Hq. apply Hp. right. exact Hq.
      * intros k' [<-|Hin]; [right; left; reflexivity|].
        apply IH6 in Hin. destruct Hin as [->|Hin]; [left; reflexivity|right; right; exact Hin].
Qed.

(** The loop over the invoices of the summary. *)
Lemma add_invoices_spec (client_name : Invoice -> string) (l : list Invoice) :
  forall s0,
    let s := fold_left (InvoiceSummary.add_invoice client_name) l s0 in
    InvoiceSummary.total_invoices s = InvoiceSummary.total_invoices s0
    /\ (InvoiceSummary.total_amount s
        == InvoiceSummary.total_amount s0 + sum (map total l))%Q
    /\ (InvoiceSummary.total_paid s
        == InvoiceSummary.total_paid s0 + sum (map amount_paid l))%Q
    /\ (InvoiceSummary.total_due s
        == InvoiceSummary.total_due s0 + sum (map amount_due l))%Q
    /\ Zsum (map (fun p => InvoiceSummary.count (snd p)) (InvoiceSummary.by_status s))
       = Zsum (map (fun p => InvoiceSummary.count (snd p)) (InvoiceSummary.by_status s0))
         + Z.of_nat (List.length l)
    /\ Zsum (map (fun p => InvoiceSummary.count (snd p)) (InvoiceSummary.by_client s))
       = Zsum (map (fun p => InvoiceSummary.count (snd p)) (InvoiceSummary.by_client s0))
         + Z.of_nat (List.length l)
    /\ (sum (map (fun p => InvoiceSummary.amount (snd p)) (InvoiceSummary.by_status s))
        == sum (map (fun p => InvoiceSummary.amount (snd p)) (InvoiceSummary.by_status s0))
           + sum (map total l))%Q
    /\ (sum (map (fun p => InvoiceSummary.amount (snd p)) (InvoiceSummary.by_client s))
        == sum (map (fun p => InvoiceSummary.amount (snd p)) (InvoiceSummary.by_client s0))
           + sum (map total l))%Q
    /\ (NoDup (map fst (InvoiceSummary.by_status s0)) ->
        NoDup (map fst (InvoiceSummary.by_status s)))
    /\ (NoDup (map fst (InvoiceSummary.by_client s0)) ->
        NoDup (map fst (InvoiceSummary.by_client s)))
    /\ ((forall p, In p (InvoiceSummary.by_status s0) -> 0 < InvoiceSummary.count (snd p)) ->
        forall p, In p (InvoiceSummary.by_status s) -> 0 < InvoiceSummary.count (snd p))
    /\ (forall k, In k (map fst (InvoiceSummary.by_status s)) ->
          In k (map fst (InvoiceSummary.by_status s0))
          \/ exists i, In i l /\ InvoiceStatus_value (status i) = k).
Proof.
  induction l as [|i l IH]; intros s0; cbv zeta; cbn [fold_left map List.length].
  - rewrite !sum_nil. cbn [Z.of_nat].
    repeat split; try reflexivity; try ring; try lia; auto.
  - specialize (IH (InvoiceSummary.add_invoice client_name s0 i)). cbv zeta in IH.
    destruct IH as (I1 & I2 & I3 & I4 & I5 & I6 & I7 & I8 & I9 & I10 & I11 & I12).
    destruct (bump_spec (InvoiceStatus_value (status i)) (total i)
                (InvoiceSummary.by_status s0)) as (S1 & S2 & S3 & S4 & S5 & S6).
    destruct (bump_spec (client_name i) (total i) (InvoiceSummary.by_client s0))
      as (C1 & C2 & C3 & _).
    unfold InvoiceSummary.add_invoice in *.
    cbn [InvoiceSummary.total_invoices InvoiceSummary.total_amount
         InvoiceSummary.total_paid InvoiceSummary.total_due
         InvoiceSummary.by_status InvoiceSummary.by_client] in *.
    rewrite !sum_cons.
    split; [exact I1|]. split; [rewrite I2; ring|]. split; [rewrite I3; ring|].
    split; [rewrite I4; ring|]. split; [rewrite I5, S1; lia|].
    split; [rewrite I6, C1; lia|]. split; [rewrite I7, S2; ring|].
    split; [rewrite I8, C2; ring|]. split; [auto|]. split; [auto|]. split; [auto|].
    intros k Hk. apply I12 in Hk. destruct Hk as [Hk|(j & Hj & E)].
    + apply S6 in Hk. destruct Hk as [->|Hk]; [|left; exact Hk].
      right. exists i. split; [left|]; reflexivity.
    + right. exists j. split; [right|]; assumption.
Qed.

(** X27.  The summary of the invoices counts the invoices of the user that were
    issued within the dates given, and adds up their totals, their amounts
    paid and their amounts due, in the order of the invoices.  The groups
    by status, and the groups by client, have distinct names, and the
    counts of either grouping add up to the number of invoices; every
    status listed is the status of at least one of the invoices. *)
Theorem invoice_summary_adds_up {py : PyLib} (client_name : Invoice -> string) (db : Db)
    (u : Z) (start_date end_date : option string) (d1 d2 : option date) :
  InvoiceSummary.date_arg start_date = Ok d1 ->
  InvoiceSummary.date_arg end_date = Ok d2 ->
  exists s,
    InvoiceSummary.get_invoice_summary client_name db u start_date end_date
    = InvoiceSummary.Summary s
    /\ InvoiceSummary.total_invoices s = Z.of_nat (List.length (summarised db u d1 d2))
    /\ (InvoiceSummary.total_amount s == sum (map total (summarised db u d1 d2)))%Q
    /\ (InvoiceSummary.total_paid s == sum (map amount_paid (summarised db u d1 d2)))%Q
    /\ (InvoiceSummary.total_due s == sum (map amount_due (summarised db u d1 d2)))%Q
    /\ NoDup (map fst (InvoiceSummary.by_status s))
    /\ NoDup (map fst (InvoiceSummary.by_client s))
    /\ Zsum (map (fun p => InvoiceSummary.count (snd p)) (InvoiceSummary.by_status s))
       = InvoiceSummary.total_invoices s
    /\ Zsum (map (fun p => InvoiceSummary.count (snd p)) (InvoiceSummary.by_client s))
       = InvoiceSummary.total_invoices s
    /\ (forall k g, In (k, g) (InvoiceSummary.by_status s) ->
          0 < InvoiceSummary.count g
          /\ exists i, In i (summarised db u d1 d2) /\ InvoiceStatus_value (status i) = k).
Proof.
  intros H1 H2. unfold InvoiceSummary.get_invoice_summary. rewrite H1, H2.
  fold (summarised db u d1 d2).
  eexists. split; [reflexivity|].
  destruct (add_invoices_spec client_name (summarised db u d1 d2)
              (InvoiceSummary.mkSummary
                 (Z.of_nat (List.length (summarised db u d1 d2))) 0 0 0 [] []))
    as (I1 & I2 & I3 & I4 & I5 & I6 & I7 & I8 & I9 & I10 & I11 & I12).
  cbv zeta in *.
  cbn [InvoiceSummary.total_invoices InvoiceSummary.total_amount
       InvoiceSummary.total_paid InvoiceSummary.total_due
       InvoiceSummary.by_status InvoiceSummary.by_client map Zsum fold_right] in *.
  rewrite sum_nil in I7, I8.
  split; [exact I1|]. split; [rewrite I2; ring|]. split; [rewrite I3; ring|].
  split; [rewrite I4; ring|].
  split; [apply I9; constructor|]. split; [apply I10; constructor|].
  split; [rewrite I5, I1; lia|]. split; [rewrite I6, I1; lia|].
  intros k g Hin. split.
  - apply (I11 ltac:(intros p []) (k, g) Hin).
  - destruct (I12 k) as [[]|H]; [|exact H].
    change k with (fst (k, g)). now apply in_map.
Qed.

Lemma invoice_summary_adds_up_witness :
  exists s,
    InvoiceSummary.get_invoice_summary (py := example_lib) example_client_name summary_db 1
      (Some "2024-01-01") None
    = InvoiceSummary.Summary s
    /\ InvoiceSummary.total_invoices s = 2
    /\ map fst (InvoiceSummary.by_status s) = ["paid"; "sent"]
    /\ map fst (InvoiceSummary.by_client s) = ["Acme"; "Unknown"]
    /\ Zsum (map (fun p => InvoiceSummary.count (snd p)) (InvoiceSummary.by_status s))
       = InvoiceSummary.total_invoices s
    /\ Zsum (map (fun p => InvoiceSummary.count (snd p)) (InvoiceSummary.by_client s))
       = InvoiceSummary.total_invoices s.
Proof.
  destruct (invoice_summary_adds_up (py := example_lib) example_client_name summary_db 1
              (Some "2024-01-01") None (Some (mkdate 2024 1 1)) None eq_refl eq_refl)
    as (s & E & Hn & _ & _ & _ & _ & _ & Hc & Ha & _).
  exists s. split; [exact E|].
  assert (Hs : InvoiceSummary.total_invoices s = 2
               /\ map fst (InvoiceSummary.by_status s) = ["paid"; "sent"]
               /\ map fst (InvoiceSummary.by_client s) = ["Acme"; "Unknown"]).
  { vm_compute in E. injection E as <-. repeat split. }
  destruct Hs as (H1 & H2 & H3).
  repeat split; assumption.
Defined.

(** * The entries of the cash-flow report *)

(** ** One row for a period and a type *)

Section GroupKeys.
Context {K : Type} (K_eqb K_leb : K -> K -> bool).
Hypothesis K_eqb_eq : forall a b, K_eqb a b = true <-> a = b.

Lemma add_to_group_In_type (k : K) (ty : TransactionType) (a : Q) (r : row K)
    (rows : list (row K)) :
  In r (add_to_group K_eqb k ty a rows) ->
  (row_period r = k /\ row_type r = ty) \/ In r rows.
Proof.
  induction rows as [|x rows IH]; cbn [add_to_group].
  - intros [<-|[]]. left. split; reflexivity.
  - destruct (K_eqb (row_period x) k && type_eqb (row_type x) ty).
    + intros [<-|H]; [left; split; reflexivity|right; right; exact H].
    + intros [<-|H]; [right; left; reflexivity|].
      destruct (IH H) as [E|Hin]; [left; exact E|right; right; exact Hin].
Qed.

Lemma add_to_group_keys (k : K) (ty : TransactionType) (a : Q) (rows : list (row K)) :
  NoDup (map (fun r => (row_period r, row_type r)) rows) ->
  NoDup (map (fun r => (row_period r, row_type r)) (add_to_group K_eqb k ty a rows)).
Proof.
  induction rows as [|x rows IH]; cbn [add_to_group map]; intros Hnd.
  - repeat constructor. intros [].
  - apply NoDup_cons_iff in Hnd. destruct Hnd as (Hnot & Hnd).
    destruct (K_eqb (row_period x) k && type_eqb (row_type x) ty) eqn:E.
    + apply andb_true_iff in E. destruct E as (E1 & E2).
      apply K_eqb_eq in E1. apply type_eqb_eq in E2.
      cbn [map row_period row_type]. rewrite <- E1, <- E2.
      apply NoDup_cons; assumption.
    + cbn [map]. apply NoDup_cons; [|now apply IH].
      rewrite in_map_iff. intros (r & Er & Hr).
      apply add_to_group_In_type in Hr. destruct Hr as [(Hk & Hty)|Hr].
      * injection Er as Ep Et. rewrite Hk in Ep. rewrite Hty in Et.
        assert (K_eqb (row_period x) k && type_eqb (row_type x) ty = true); [|congruence].
        apply andb_true_iff. split; [apply K_eqb_eq|apply type_eqb_eq]; congruence.
      * apply Hnot. rewrite <- Er. now apply (in_map (fun r => (row_period r, row_type r))).
Qed.

Lemma insert_row_perm (x : row K) (l : list (row K)) :
  Permutation (insert_row K_leb x l) (x :: l).
Proof.
  induction l as [|y l IH]; cbn [insert_row]; [reflexivity|].
  destruct (K_leb (row_period y) (row_period x)); [|reflexivity].
  rewrite IH. apply perm_swap.
Qed.

Lemma order_by_period_perm (l : list (row K)) : Permutation (order_by_period K_leb l) l.
Proof.
  unfold order_by_period.
  assert (H : forall acc,
             Permutation (fold_left (fun acc r => insert_row K_leb r acc) l acc) (l ++ acc)).
  { induction l as [|x l IH]; intros acc; cbn [fold_left app]; [reflexivity|].
    rewrite IH, insert_row_perm. symmetry. apply Permutation_middle. }
  rewrite H. now rewrite List.app_nil_r.
Qed.

(** The grouped query has one row for a period and a type, and each row is
    the group of a transaction. *)
Lemma grouped_keys (period_of : date -> K) (txns : list Transaction) :
  NoDup (map (fun r => (row_period r, row_type r)) (grouped K_eqb K_leb period_of txns))
  /\ forall r, In r (grouped K_eqb K_leb period_of txns) ->
       exists t, In t txns /\ row_period r = period_of (txn_date t)
                 /\ row_type r = txn_type t.
Proof.
  unfold grouped.
  set (step := fun rows t => add_to_group K_eqb (period_of (txn_date t)) (txn_type t)
                               (txn_amount t) rows).
  assert (H : forall rows,
             (NoDup (map (fun r => (row_period r, row_type r)) rows) ->
              NoDup (map (fun r => (row_period r, row_type r)) (fold_left step txns rows)))
             /\ forall r, In r (fold_left step txns rows) ->
                  In r rows
                  \/ exists t, In t txns /\ row_period r = period_of (txn_date t)
                               /\ row_type r = txn_type t).
  { induction txns as [|t txns IH]; intros rows; cbn [fold_left]; [auto|].
    destruct (IH (step rows t)) as (N & P). split.
    - intros Hnd. apply N. unfold step. now apply add_to_group_keys.
    - intros r Hr. apply P in Hr. destruct Hr as [Hr|(t' & Ht' & E)].
      + unfold step in Hr. apply add_to_group_In_type in Hr.
        destruct Hr as [(E1 & E2)|Hr]; [|left; exact Hr].
        right. exists t. split; [left; reflexivity|split; assumption].
      + right. exists t'. split; [right; exact Ht'|exact E]. }
  destruct (H []) as (N & P). split.
  - eapply Permutation_NoDup.
    + symmetry. apply Permutation_map. apply order_by_period_perm.
    + apply N. constructor.
  - intros r Hr. eapply Permutation_in in Hr; [|apply order_by_period_perm].
    apply P in Hr. destruct Hr as [[]|Hr]. exact Hr.
Qed.

(** Of rows with distinct periods and types, at most one has a given period
    and type. *)
Lemma rows_of_key (rows : list (row K)) (k : K) (ty : TransactionType) :
  NoDup (map (fun r => (row_period r, row_type r)) rows) ->
  filter (fun r => K_eqb (row_period r) k && type_eqb (row_type r) ty) rows = []
  \/ exists r, filter (fun r => K_eqb (row_period r) k && type_eqb (row_type r) ty) rows
               = [r].
Proof.
  induction rows as [|x rows IH]; cbn [map filter]; intros Hnd; [left; reflexivity|].
  apply NoDup_cons_iff in Hnd. destruct Hnd as (Hnot & Hnd).
  destruct (K_eqb (row_period x) k && type_eqb (row_type x) ty) eqn:E; [|now apply IH].
  right. exists x. f_equal.
  apply andb_true_iff in E. destruct E as (E1 & E2).
  apply K_eqb_eq in E1. apply type_eqb_eq in E2.
  destruct (filter _ rows) as [|y l] eqn:F; [reflexivity|].
  exfalso. apply Hnot.
  assert (Hy : In y (filter (fun r => K_eqb (row_period r) k && type_eqb (row_type r) ty)
                        rows)) by (rewrite F; left; reflexivity).
  apply filter_In in Hy. destruct Hy as (Hy & Ey).
  apply andb_true_iff in Ey. destruct Ey as (Ey1 & Ey2).
  apply K_eqb_eq in Ey1. apply type_eqb_eq in Ey2.
  apply in_map_iff. exists y. split; [|exact Hy]. congruence.
Qed.

End GroupKeys.

(** ** Filling an entry *)

Lemma last_cons_default {A} (x d : A) (l : list A) : last (x :: l) d = last l x.
Proof.
  revert x d. induction l as [|y l IH]; intros x d; [reflexivity|].
  change (last (x :: y :: l) d) with (last (y :: l) d).
  now rewrite (IH y d), (IH y x).
Qed.

Lemma update_nth_same {A} (f : A -> A) (l : list A) (k : nat) (x : A) :
  nth_error l k = Some x -> nth_error (update_nth k f l) k = Some (f x).
Proof.
  revert k. induction l as [|y l IH]; intros [|k]; cbn [nth_error update_nth];
    try discriminate.
  - intros [= ->]. reflexivity.
  - apply IH.
Qed.

Lemma index_NoDup (periods : list string) (k : nat) (p : string) :
  NoDup periods -> nth_error periods k = Some p -> index p periods = Some k.
Proof.
  revert k. induction periods as [|q periods IH]; intros [|k] Hnd; cbn [nth_error index];
    try discriminate.
  - intros [= ->]. now rewrite String.eqb_refl.
  - intros Hk. apply NoDup_cons_iff in Hnd. destruct Hnd as (Hnot & Hnd).
    destruct (String.eqb_spec q p) as [->|_].
    + exfalso. apply Hnot. eapply nth_error_In. exact Hk.
    + now rewrite (IH k Hnd Hk).
Qed.

(** The entry of a period after the loop over the rows: its income is the
    total of the last income row of the period, its expense the total of the
    last of the other rows of the period. *)
Lemma fill_entry (periods : list string) (k : nat) (p : string) :
  NoDup periods -> nth_error periods k = Some p ->
  forall (rows : list (row string)) (cash_flow : list CashFlow.entry) (e0 : CashFlow.entry),
    nth_error cash_flow k = Some e0 ->
    exists e,
      nth_error (fold_left (CashFlow.fill periods) rows cash_flow) k = Some e
      /\ CashFlow.income e
         = last (map row_total
                   (filter (fun r => String.eqb (row_period r) p
                                     && type_eqb (row_type r) INCOME) rows))
             (CashFlow.income e0)
      /\ CashFlow.expense e
         = last (map row_total
                   (filter (fun r => String.eqb (row_period r) p
                                     && negb (type_eqb (row_type r) INCOME)) rows))
             (CashFlow.expense e0).
Proof.
  intros Hnd Hp. induction rows as [|r rows IH]; intros cash_flow e0 He0;
    cbn [fold_left filter].
  - exists e0. auto.
  - unfold CashFlow.fill at 2.
    destruct (String.eqb_spec (row_period r) p) as [E|Hne].
    + rewrite E, (index_NoDup periods k p Hnd Hp). cbn [andb].
      destruct (type_eqb (row_type r) INCOME); cbn [negb map].
      * destruct (IH _ _ (update_nth_same (CashFlow.set_income (row_total r)) _ _ _ He0))
          as (e & He & Hi & Hx).
        exists e. split; [exact He|]. split; [|exact Hx].
        rewrite Hi. cbn [CashFlow.set_income CashFlow.income].
        symmetry. apply last_cons_default.
      * destruct (IH _ _ (update_nth_same (CashFlow.set_expense (row_total r)) _ _ _ He0))
          as (e & He & Hi & Hx).
        exists e. split; [exact He|]. split; [exact Hi|].
        rewrite Hx. cbn [CashFlow.set_expense CashFlow.expense].
        symmetry. apply last_cons_default.
    + cbn [andb]. apply IH.
      destruct (index (row_period r) periods) as [i|] eqn:Ei; [|exact He0].
      assert (Hik : i <> k).
      { intros ->. apply index_nth_error in Ei. congruence. }
      destruct (type_eqb (row_type r) INCOME); now rewrite update_nth_other.
Qed.

(** ** The periods are distinct *)

Lemma month_seq_range (n : nat) :
  forall y m, 1 <= m <= 12 ->
    forall p, In p (month_seq y m n) ->
      12 * y + m <= 12 * fst p + snd p /\ 1 <= snd p <= 12 /\ y <= fst p.
Proof.
  induction n as [|n IH]; intros y m Hm p; cbn [month_seq]; [intros []|].
  intros [<-|Hp]; [cbn [fst snd]; lia|].
  destruct (Z.eqb_spec m 12) as [->|Hne].
  - apply IH in Hp; lia.
  - apply IH in Hp; lia.
Qed.

Lemma month_seq_NoDup (n : nat) :
  forall y m, 1 <= m <= 12 -> NoDup (month_seq y m n).
Proof.
  induction n as [|n IH]; intros y m Hm; cbn [month_seq]; [constructor|].
  apply NoDup_cons.
  - intros Hin. destruct (Z.eqb_spec m 12) as [->|Hne];
      apply month_seq_range in Hin; cbn [fst snd] in Hin; lia.
  - destruct (Z.eqb_spec m 12); apply IH; lia.
Qed.

Lemma month_name_inj (p q : Z * Z) :
  0 <= fst p -> 0 <= snd p -> 0 <= fst q -> 0 <= snd q ->
  month_name p = month_name q -> p = q.
Proof.
  destruct p as [y m], q as [y' m']. cbn [fst snd]. intros Hy Hm Hy' Hm'.
  unfold month_name, year_month. cbn [fst snd year month]. intros E.
  apply (f_equal span_digits) in E.
  rewrite !span_digits_app in E by (try apply zfill_digits; reflexivity).
  injection E as Ey Em.
  apply (f_equal int_of_digits) in Ey, Em.
  rewrite !int_of_digits_zfill in Ey, Em.
  injection Ey as Ey. injection Em as Em.
  f_equal; lia.
Qed.

Lemma NoDup_map_on {A B} (key : A -> B) (rows : list A) :
  (forall x y, In x rows -> In y rows -> key x = key y -> x = y) ->
  NoDup rows -> NoDup (map key rows).
Proof.
  intros Hinj Hnd. induction Hnd as [|r rows Hnot Hnd IH]; cbn [map]; [constructor|].
  apply NoDup_cons.
  - rewrite in_map_iff. intros (x & Ex & Hx). apply Hnot.
    rewrite <- (Hinj x r); [exact Hx|right; exact Hx|left; reflexivity|exact Ex].
  - apply IH. intros x y Hx Hy. apply Hinj; right; assumption.
Qed.

Lemma months_between_names (first last : date) :
  1 <= month first <= 12 -> 0 <= year first ->
  NoDup (map month_name (months_between first last)).
Proof.
  intros Hm Hy. unfold months_between. apply NoDup_map_on.
  - intros p q Hp Hq. apply month_seq_range in Hp, Hq; try exact Hm.
    apply month_name_inj; lia.
  - now apply month_seq_NoDup.
Qed.

(** ** Income and expense of a period *)

Lemma last_of_one (l : list (row string)) :
  l = [] \/ (exists r, l = [r]) ->
  (last (map row_total l) 0 == sum (map row_total l))%Q.
Proof.
  intros [->|(r & ->)]; cbn [map last]; [reflexivity|].
  rewrite sum_cons, sum_nil. ring.
Qed.

(** The rows of the cash-flow query and the entry they fill. *)
Lemma cash_flow_entry (txns : list Transaction) (u : Z) (start_date end_date : date)
    (periods : list string) (k : nat) (y : CashFlow.entry) :
  NoDup periods ->
  nth_error
    (fold_left (CashFlow.fill periods)
       (grouped String.eqb String.leb year_month (in_window u start_date end_date txns))
       (map (fun p => CashFlow.mkEntry p 0 0 0 0) periods)) k = Some y ->
  let window := in_window u start_date end_date txns in
  (CashFlow.income y == of_month INCOME (CashFlow.period y) window)%Q
  /\ ((CashFlow.expense y == of_month EXPENSE (CashFlow.period y) window)%Q
      \/ (CashFlow.expense y == of_month TRANSFER (CashFlow.period y) window)%Q)
  /\ (forall ty,
        ty <> INCOME ->
        (forall t, In t window -> year_month (txn_date t) = CashFlow.period y ->
                   txn_type t <> INCOME -> txn_type t = ty) ->
        (CashFlow.expense y == of_month ty (CashFlow.period y) window)%Q).
Proof.
  intros Hnd Hy. cbv zeta.
  set (window := in_window u start_date end_date txns) in *.
  set (rows := grouped String.eqb String.leb year_month window) in *.
  assert (Hper : nth_error periods k = Some (CashFlow.period y)).
  { apply (map_nth_error CashFlow.period) in Hy.
    rewrite fill_periods, map_map in Hy. cbn [CashFlow.period] in Hy.
    now rewrite map_id in Hy. }
  set (p := CashFlow.period y) in *.
  destruct (fill_entry periods k p Hnd Hper rows
              (map (fun p => CashFlow.mkEntry p 0 0 0 0) periods)
              (CashFlow.mkEntry p 0 0 0 0)
              (map_nth_error (fun p => CashFlow.mkEntry p 0 0 0 0) _ _ Hper))
    as (e & He & Hi & Hx).
  rewrite Hy in He. injection He as <-.
  cbn [CashFlow.income CashFlow.expense] in Hi, Hx.
  destruct (grouped_keys String.eqb String.leb String.eqb_eq year_month window)
    as (Hkeys & Hfrom).
  fold rows in Hkeys, Hfrom.
  assert (Hsum : forall ty,
             (sum (map row_total
                     (filter (fun r => String.eqb (row_period r) p
                                       && type_eqb (row_type r) ty) rows))
              == of_month ty p window)%Q).
  { intros ty. unfold of_month.
    exact (grouped_sum String.eqb String.leb String.eqb_eq year_month
             (fun k ty' => String.eqb k p && type_eqb ty' ty) window). }
  assert (Hone : forall ty,
             (last (map row_total
                      (filter (fun r => String.eqb (row_period r) p
                                        && type_eqb (row_type r) ty) rows)) 0
              == of_month ty p window)%Q).
  { intros ty. rewrite <- Hsum. apply last_of_one.
    exact (rows_of_key String.eqb String.eqb_eq rows p ty Hkeys). }
  assert (Hlast : forall r,
             In r (filter (fun r => String.eqb (row_period r) p
                                    && negb (type_eqb (row_type r) INCOME)) rows) ->
             (row_total r == of_month (row_type r) p window)%Q).
  { intros r Hr. apply filter_In in Hr. destruct Hr as (Hr & Er).
    apply andb_true_iff in Er. destruct Er as (Ep & _).
    rewrite <- Hsum.
    assert (Hin : In r (filter (fun r' => String.eqb (row_period r') p
                                          && type_eqb (row_type r') (row_type r)) rows)).
    { apply filter_In. split; [exact Hr|]. rewrite Ep. cbn [andb].
      now apply type_eqb_eq. }
    destruct (rows_of_key String.eqb String.eqb_eq rows p (row_type r) Hkeys)
      as [E|(r' & E)]; rewrite E in Hin |- *.
    - destruct Hin.
    - destruct Hin as [->|[]]. cbn [map]. rewrite sum_cons, sum_nil. ring. }
  split; [rewrite Hi; apply Hone|]. split.
  - rewrite Hx.
    destruct (filter (fun r => String.eqb (row_period r) p
                               && negb (type_eqb (row_type r) INCOME)) rows)
      as [|r0 l0] eqn:F.
    + left. cbn [map last]. rewrite <- Hsum.
      destruct (filter (fun r => String.eqb (row_period r) p
                                 && type_eqb (row_type r) EXPENSE) rows)
        as [|r1 l1] eqn:F1; [reflexivity|].
      assert (Hin : In r1 (filter (fun r => String.eqb (row_period r) p
                                            && negb (type_eqb (row_type r) INCOME)) rows)).
      { assert (H1 : In r1 (r1 :: l1)) by (left; reflexivity).
        rewrite <- F1 in H1. apply filter_In in H1. destruct H1 as (H1 & E1).
        apply filter_In. split; [exact H1|].
        apply andb_true_iff in E1. destruct E1 as (-> & E1).
        apply type_eqb_eq in E1. rewrite E1. reflexivity. }
      rewrite F in Hin. destruct Hin.
    + destruct (exists_last (l := r0 :: l0)) as (l' & r & E); [discriminate|].
      rewrite E, map_app. cbn [map]. rewrite last_last.
      assert (Hr : In r (r0 :: l0)) by (rewrite E; apply in_or_app; right; left; reflexivity).
      pose proof (Hlast r Hr) as Hv.
      rewrite <- F in Hr. apply filter_In in Hr. destruct Hr as (_ & Er).
      apply andb_true_iff in Er. destruct Er as (_ & Er).
      destruct (row_type r); [discriminate Er|left; exact Hv|right; exact Hv].
  - intros ty Hty Honly. rewrite Hx, <- Hone.
    rewrite (filter_ext_in
               (fun r => String.eqb (row_period r) p && negb (type_eqb (row_type r) INCOME))
               (fun r => String.eqb (row_period r) p && type_eqb (row_type r) ty));
      [reflexivity|].
    intros r Hr. destruct (String.eqb_spec (row_period r) p) as [Ep|_]; [|reflexivity].
    cbn [andb]. destruct (Hfrom r Hr) as (t & Ht & E1 & E2).
    destruct (type_eqb (row_type r) INCOME) eqn:Ei; cbn [negb].
    + apply type_eqb_eq in Ei. symmetry. rewrite Ei.
      destruct ty; [contradiction|reflexivity|reflexivity].
    + symmetry. apply type_eqb_eq. rewrite E2. apply Honly; [exact Ht|congruence|].
      intros Et. rewrite <- E2 in Et. rewrite Et in Ei. discriminate Ei.
Qed.

(** X29.  In the cash-flow report the income of a period is the sum of the
    amounts of the income transactions of the user that fall in the window
    and in the month.  The expense of a period is set once by the expenses
    of the month and once by its transfers, the later of the two replacing
    the earlier: it is the sum of the expenses or the sum of the transfers,
    not the sum of both; when the transactions of the month that are not
    income are of one type, it is their sum. *)
Theorem cash_flow_report_entries (txns : list Transaction) (u : Z)
    (end_date : date) (months : Z) (start_date s e : date)
    (data : list CashFlow.entry) (tot : CashFlow.totals) :
  valid_date end_date -> 0 < months ->
  CashFlow.start_date_of end_date months = Some start_date ->
  (year end_date < MAXYEAR \/ month end_date < 12) ->
  CashFlow.cash_flow_report txns u end_date months = Some (CashFlow.Report s e data tot) ->
  let window := in_window u start_date end_date txns in
  forall x, In x data ->
    (CashFlow.income x == of_month INCOME (CashFlow.period x) window)%Q
    /\ ((CashFlow.expense x == of_month EXPENSE (CashFlow.period x) window)%Q
        \/ (CashFlow.expense x == of_month TRANSFER (CashFlow.period x) window)%Q)
    /\ (forall ty,
          ty <> INCOME ->
          (forall t, In t window -> year_month (txn_date t) = CashFlow.period x ->
                     txn_type t <> INCOME -> txn_type t = ty) ->
          (CashFlow.expense x == of_month ty (CashFlow.period x) window)%Q).
Proof.
  intros (Hy & Hm & Hd) Hmonths Hstart Hdec.
  destruct (start_date_of_range _ _ _ Hstart) as (Sd & Sm & Sy).
  unfold CashFlow.cash_flow_report.
  destruct (Z.leb_spec months 0) as [|_]; [lia|].
  rewrite Hstart.
  rewrite (periods_loop_spec end_date) by
    (unfold CashFlow.rounds_for, MAXYEAR, MINYEAR in *; try tauto; try lia).
  cbn [app]. intros [= _ _ <- _] x Hx.
  apply In_nth_error in Hx. destruct Hx as (k & Hk).
  rewrite accumulate_nth_error in Hk.
  destruct (nth_error (fold_left _ _ _) k) as [y|] eqn:Ey; [|discriminate Hk].
  injection Hk as <-. cbn [CashFlow.income CashFlow.expense CashFlow.period].
  apply (cash_flow_entry txns u start_date end_date
           (map month_name (months_between start_date end_date)) k y).
  - apply months_between_names; [exact Sm|unfold MINYEAR in Sy; lia].
  - exact Ey.
Qed.

Lemma cash_flow_report_entries_witness :
  exists data tot,
    CashFlow.cash_flow_report scenario_ledger 1 (mkdate 2024 3 31) 3
    = Some (CashFlow.Report (mkdate 2024 1 1) (mkdate 2024 3 31) data tot)
    /\ map CashFlow.period data = ["2024-01"; "2024-02"; "2024-03"]
    /\ map (fun x => Qeq_bool (CashFlow.expense x) 170) data = [false; false; false]
    /\ (of_month EXPENSE "2024-01"
          (in_window 1 (mkdate 2024 1 1) (mkdate 2024 3 31) scenario_ledger)
        + of_month TRANSFER "2024-01"
            (in_window 1 (mkdate 2024 1 1) (mkdate 2024 3 31) scenario_ledger) == 170)%Q
    /\ forall x, In x data ->
         (CashFlow.income x
          == of_month INCOME (CashFlow.period x)
               (in_window 1 (mkdate 2024 1 1) (mkdate 2024 3 31) scenario_ledger))%Q.
Proof.
  destruct (CashFlow.cash_flow_report scenario_ledger 1 (mkdate 2024 3 31) 3)
    as [[msg|err|s e data tot]|] eqn:E; try (vm_compute in E; discriminate E).
  assert (Hs : s = mkdate 2024 1 1 /\ e = mkdate 2024 3 31
               /\ map CashFlow.period data = ["2024-01"; "2024-02"; "2024-03"]
               /\ map (fun x => Qeq_bool (CashFlow.expense x) 170) data
                  = [false; false; false]).
  { vm_compute in E. injection E as <- <- <- _. repeat split. }
  destruct Hs as (-> & -> & Hp & Hx).
  exists data, tot. split; [reflexivity|]. split; [exact Hp|]. split; [exact Hx|].
  split; [vm_compute; reflexivity|].
  intros x Hin.
  assert (Hv : valid_date (mkdate 2024 3 31)) by (apply valid_dateb_correct; reflexivity).
  assert (Hm : 0 < 3) by lia.
  assert (Hdec : year (mkdate 2024 3 31) < MAXYEAR \/ month (mkdate 2024 3 31) < 12)
    by (left; unfold MAXYEAR; cbn [year]; lia).
  exact (proj1 (cash_flow_report_entries scenario_ledger 1 (mkdate 2024 3 31) 3
                  (mkdate 2024 1 1) _ _ data tot Hv Hm eq_refl Hdec E x Hin)).
Defined.

(** * The route that creates an invoice *)

(** X30.  The route that creates an invoice never answers 201 and never stores
    an invoice: it answers 400 or 500 without an invoice, and the store
    stays as it is.  A request that passes the checks of the route and of
    the service is answered with 500, after the [TypeError] of
    [calculate_totals]. *)
Theorem route_create_invoice {py : PyLib} (db : Db) (u : Z) (data : dict) (today : date)
    (r : response) (db' : Db) :
  InvoiceRoutes.create_invoice db u data today = (r, db') ->
  (code r = 400 \/ code r = 500) /\ body r = None /\ db' = db
  /\ (forall x l s1 s2 d1 d2 rate its,
        InvoiceService.first_missing data = None ->
        get "items" data = Some (JArr (x :: l)) ->
        has "user_id" data = false -> has "self" data = false ->
        get "issue_date" data = Some (JStr s1) -> strptime s1 = Some d1 ->
        get "due_date" data = Some (JStr s2) -> strptime s2 = Some d2 ->
        date_ltb d2 d1 = false ->
        Decimal_str (get_default "tax_rate" (JNum 0) data) = Ok rate ->
        for_each (x :: l) []
          (fun acc item_data =>
             it <- InvoiceService.new_item item_data ;; Ok (acc ++ [it])%list) = Ok its ->
        r = error_response 500 "Failed to create invoice").
Proof.
  intros H. pose proof (route_create_cases db u data today) as C. rewrite H in C.
  destruct C as (Hc & Hb & Hdb).
  split; [exact Hc|]. split; [exact Hb|]. split; [exact Hdb|].
  intros x l s1 s2 d1 d2 rate its Hm Hitems Hu Hself Hi H1 Hd H2 Hlt Hrate Hits.
  unfold InvoiceRoutes.create_invoice in H. rewrite Hm, Hitems, Hu, Hself in H.
  cbn [orb] in H.
  rewrite (create_invoice_type_error db u data today x l s1 s2 d1 d2 rate its
             Hm Hitems Hi H1 Hd H2 Hlt Hrate Hits) in H.
  now injection H as <- _.
Qed.

Lemma route_create_invoice_witness :
  InvoiceRoutes.create_invoice (py := example_lib) (mkDb [invoice_paid] []) 2
    (scenario_data (JNum 7) "2024-03-01" "2024-03-31") (mkdate 2024 3 1)
  = (error_response 500 "Failed to create invoice", mkDb [invoice_paid] []).
Proof.
  destruct (InvoiceRoutes.create_invoice _ _ _ _) as [r db'] eqn:E.
  destruct (route_create_invoice (py := example_lib) _ _ _ _ _ _ E)
    as (_ & _ & -> & H).
  f_equal.
  eapply (H scenario_design [scenario_hosting] "2024-03-01" "2024-03-31"
            (mkdate 2024 3 1) (mkdate 2024 3 31) 0%Q); reflexivity.
Defined.
